(** * HDC2080 temperature / humidity sensor driver (MicroPython)

    A shallow embedding of [src/hdc2080.py] and the properties of its
    register traffic and of its unit conversions.

    - Python integers are [Z]; the bytes that travel on the bus are
      [Byte.byte]; Python floats are IEEE 754 binary floats taken from the
      Standard Library's executable specification [SpecFloat], in the two
      widths a MicroPython build can be configured with.
    - A method of the driver is a command tree ([Platform.prog]) over the
      capabilities it consumes: [I2C.scan], [I2C.readfrom_mem],
      [I2C.writeto_mem] and [time.sleep_ms].  A tree is run against any
      implementation of these capabilities ([Platform.platform]); the run
      yields the outcome, the final state of the platform and the list of
      transactions in the order they were issued. *)

From Stdlib Require Import ZArith List Lia QArith Qabs Bool.
From Stdlib Require Import Strings.Byte.
From Stdlib Require Import Floats.SpecFloat.
Import ListNotations.
Local Open Scope Z_scope.

(** ** Python exceptions the driver can meet *)

Inductive exn : Type :=
| OSError        (* a failed bus transaction *)
| ValueError     (* int(nan), bytes([v]) with v outside range(256) *)
| OverflowError. (* int(inf) *)

Inductive result (A : Type) : Type :=
| Ok (a : A)
| Err (e : exn).
Arguments Ok {A} a.
Arguments Err {A} e.

(** ** Python floats *)

Module PyFloat.

(** The float width of the interpreter: single precision
    (MICROPY_FLOAT_IMPL_FLOAT, the usual choice on microcontrollers) or
    double precision (MICROPY_FLOAT_IMPL_DOUBLE, and CPython). *)
Inductive float_impl : Type := FLOAT_IMPL_FLOAT | FLOAT_IMPL_DOUBLE.

Definition float : Type := spec_float.

Section Format.
Variable fi : float_impl.

Definition prec : Z :=
  match fi with FLOAT_IMPL_FLOAT => 24 | FLOAT_IMPL_DOUBLE => 53 end.
Definition emax : Z :=
  match fi with FLOAT_IMPL_FLOAT => 128 | FLOAT_IMPL_DOUBLE => 1024 end.

(** A literal whose value is [m * 2^e], rounded to the format (every
    literal of the driver is representable in both widths). *)
Definition lit (m e : Z) : float := binary_normalize prec emax m e false.

(** [float(n)] for an integer [n]. *)
Definition of_int (n : Z) : float := binary_normalize prec emax n 0 false.

Definition add : float -> float -> float := SFadd prec emax.
Definition sub : float -> float -> float := SFsub prec emax.
Definition mul : float -> float -> float := SFmul prec emax.
Definition div : float -> float -> float := SFdiv prec emax.
End Format.

Definition neg : float -> float := SFopp.
Definition ltb : float -> float -> bool := SFltb.
Definition gtb (x y : float) : bool := SFltb y x.
Definition leb : float -> float -> bool := SFleb.

(** [int(x)]: truncation toward zero; raises on NaN and on infinities. *)
Definition to_int (x : float) : result Z :=
  match x with
  | S754_zero _ => Ok 0
  | S754_finite s m e =>
      let n := Z.shiftl (Zpos m) e in
      Ok (if s then - n else n)
  | S754_infinity _ => Err OverflowError
  | S754_nan => Err ValueError
  end.

(** The rational number a finite float stands for. *)
Definition to_Q (x : float) : option Q :=
  match x with
  | S754_zero _ => Some (0 # 1)%Q
  | S754_finite s m e =>
      let mz := if s then Zneg m else Zpos m in
      Some match e with
           | Z0 => inject_Z mz
           | Zpos _ => inject_Z (mz * 2 ^ e)
           | Zneg p => (mz # 2 ^ p)%Q
           end
  | S754_infinity _ | S754_nan => None
  end.

(** [has_value x q]: [x] is finite and its value is the rational [q]. *)
Definition has_value (x : float) (q : Q) : Prop :=
  exists q', to_Q x = Some q' /\ (q' == q)%Q.

End PyFloat.

(** ** The platform: bus transport and delay *)

Module Platform.

(** One entry per call into the platform.  A memory read here is always
    the one-byte read [readfrom_mem(addr, memaddr, 1)]; [res = None] and
    [ok = false] record a transaction that raised [OSError]. *)
Inductive event : Type :=
| EvScan (found : list Z)
| EvReadfromMem (addr memaddr : Z) (res : option byte)
| EvWritetoMem (addr memaddr : Z) (data : byte) (ok : bool)
| EvSleepMs (ms : Z).

(** Command trees. *)
Inductive prog (A : Type) : Type :=
| Ret (a : A)
| Raise (e : exn)
| Scan (k : list Z -> prog A)
| ReadfromMem (addr memaddr : Z) (k : byte -> prog A)
| WritetoMem (addr memaddr : Z) (data : byte) (k : prog A)
| SleepMs (ms : Z) (k : prog A).
Arguments Ret {A} a.
Arguments Raise {A} e.
Arguments Scan {A} k.
Arguments ReadfromMem {A} addr memaddr k.
Arguments WritetoMem {A} addr memaddr data k.
Arguments SleepMs {A} ms k.

Fixpoint bind {A B : Type} (p : prog A) (f : A -> prog B) : prog B :=
  match p with
  | Ret a => f a
  | Raise e => Raise e
  | Scan k => Scan (fun l => bind (k l) f)
  | ReadfromMem a r k => ReadfromMem a r (fun b => bind (k b) f)
  | WritetoMem a r d k => WritetoMem a r d (bind k f)
  | SleepMs ms k => SleepMs ms (bind k f)
  end.

(** What the driver borrows from its host: an I2C object and the clock. *)
Record platform (S : Type) : Type := {
  scan : S -> list Z * S;
  readfrom_mem : S -> Z -> Z -> option byte * S;
  writeto_mem : S -> Z -> Z -> byte -> bool * S;
  sleep_ms : S -> Z -> S
}.
Arguments scan {S} _ _.
Arguments readfrom_mem {S} _ _ _ _.
Arguments writeto_mem {S} _ _ _ _ _.
Arguments sleep_ms {S} _ _ _.

Fixpoint run {S A : Type} (P : platform S) (p : prog A) (s : S)
  : result A * S * list event :=
  match p with
  | Ret a => (Ok a, s, [])
  | Raise e => (Err e, s, [])
  | Scan k =>
      let '(found, s1) := scan P s in
      let '(r, s2, t) := run P (k found) s1 in
      (r, s2, EvScan found :: t)
  | ReadfromMem a m k =>
      match readfrom_mem P s a m with
      | (Some b, s1) =>
          let '(r, s2, t) := run P (k b) s1 in
          (r, s2, EvReadfromMem a m (Some b) :: t)
      | (None, s1) => (Err OSError, s1, [EvReadfromMem a m None])
      end
  | WritetoMem a m d k =>
      match writeto_mem P s a m d with
      | (true, s1) =>
          let '(r, s2, t) := run P k s1 in
          (r, s2, EvWritetoMem a m d true :: t)
      | (false, s1) => (Err OSError, s1, [EvWritetoMem a m d false])
      end
  | SleepMs ms k =>
      let '(r, s2, t) := run P k (sleep_ms P s ms) in
      (r, s2, EvSleepMs ms :: t)
  end.

Definition outcome {S A : Type} (x : result A * S * list event) : result A :=
  fst (fst x).
Definition final {S A : Type} (x : result A * S * list event) : S :=
  snd (fst x).
Definition trace {S A : Type} (x : result A * S * list event) : list event :=
  snd x.

(** *** A fake device: a bank of registers behind one bus address, and a
    clock that only [sleep_ms] advances. *)
Record mock : Type := {
  dev : Z;
  regs : Z -> byte;
  clock : Z
}.

Definition poke (f : Z -> byte) (m : Z) (b : byte) : Z -> byte :=
  fun m' => if m' =? m then b else f m'.

Definition mock_platform : platform mock := {|
  scan := fun s => ([dev s], s);
  readfrom_mem := fun s a m =>
    if a =? dev s then (Some (regs s m), s) else (None, s);
  writeto_mem := fun s a m b =>
    if a =? dev s
    then (true, {| dev := dev s; regs := poke (regs s) m b; clock := clock s |})
    else (false, s);
  sleep_ms := fun s ms =>
    {| dev := dev s; regs := regs s; clock := clock s + ms |}
|}.

(** *** A bus that fails after a number of transactions: [budget]
    transactions reach the fake device, every later one raises. *)
Record flaky : Type := {
  inner : mock;
  budget : nat
}.

Definition flaky_platform : platform flaky := {|
  scan := fun s => ([dev (inner s)], s);
  readfrom_mem := fun s a m =>
    match budget s with
    | O => (None, s)
    | S n =>
        let '(r, i) := readfrom_mem mock_platform (inner s) a m in
        (r, {| inner := i; budget := n |})
    end;
  writeto_mem := fun s a m b =>
    match budget s with
    | O => (false, s)
    | S n =>
        let '(r, i) := writeto_mem mock_platform (inner s) a m b in
        (r, {| inner := i; budget := n |})
    end;
  sleep_ms := fun s ms =>
    {| inner := sleep_ms mock_platform (inner s) ms; budget := budget s |}
|}.

End Platform.

Import Platform.

Declare Scope prog_scope.
Delimit Scope prog_scope with prog.
Notation "x <- p ;; q" := (bind p (fun x => q))
  (at level 61, p at next level, right associativity) : prog_scope.
Notation "p ;; q" := (bind p (fun _ => q))
  (at level 61, right associativity) : prog_scope.
Local Open Scope prog_scope.

(** ** Register map and setting constants (src/hdc2080.py, lines 7-51) *)

Definition TEMP_LOW         : Z := 0x00.
Definition TEMP_HIGH        : Z := 0x01.
Definition HUMID_LOW        : Z := 0x02.
Definition HUMID_HIGH       : Z := 0x03.
Definition INTERRUPT_DRDY   : Z := 0x04.
Definition TEMP_MAX         : Z := 0x05.
Definition HUMID_MAX        : Z := 0x06.
Definition INTERRUPT_CONFIG : Z := 0x07.
Definition TEMP_OFFSET_ADJ  : Z := 0x08.
Definition HUM_OFFSET_ADJ   : Z := 0x09.
Definition TEMP_THR_L       : Z := 0x0A.
Definition TEMP_THR_H       : Z := 0x0B.
Definition HUMID_THR_L      : Z := 0x0C.
Definition HUMID_THR_H      : Z := 0x0D.
Definition CONFIG           : Z := 0x0E.
Definition MEAS_CFG         : Z := 0x0F.
Definition MID_L            : Z := 0xFC.
Definition MID_H            : Z := 0xFD.
Definition DEVICE_ID_L      : Z := 0xFE.
Definition DEVICE_ID_H      : Z := 0xFF.

Definition FOURTEEN_BIT : Z := 0.
Definition ELEVEN_BIT   : Z := 1.
Definition NINE_BIT     : Z := 2.

Definition TEMP_AND_HUMID : Z := 0.
Definition TEMP_ONLY      : Z := 1.
Definition HUMID_ONLY     : Z := 2.

Definition MANUAL       : Z := 0.
Definition TWO_MINS     : Z := 1.
Definition ONE_MINS     : Z := 2.
Definition TEN_SECONDS  : Z := 3.
Definition FIVE_SECONDS : Z := 4.
Definition ONE_HZ       : Z := 5.
Definition TWO_HZ       : Z := 6.
Definition FIVE_HZ      : Z := 7.

Definition ACTIVE_LOW  : Z := 0.
Definition ACTIVE_HIGH : Z := 1.

Definition LEVEL_MODE      : Z := 0.
Definition COMPARATOR_MODE : Z := 1.

(** ** Conversions between Python integers and bus bytes *)

(** [int.from_bytes(b, "little")] for a bytes object of length one. *)
Definition int_from_byte (b : byte) : Z := Z.of_N (Byte.to_N b).

(** [bytes([v])]: raises [ValueError] unless [v] is in [range(256)]. *)
Definition bytes1 (v : Z) : prog byte :=
  if (0 <=? v) && (v <? 256)
  then match Byte.of_N (Z.to_N v) with
       | Some b => Ret b
       | None => Raise ValueError
       end
  else Raise ValueError.

(** [int(x)] inside a command tree. *)
Definition int_of_float (x : PyFloat.float) : prog Z :=
  match PyFloat.to_int x with
  | Ok n => Ret n
  | Err e => Raise e
  end.

(** ** class HDC2080 *)

(** The object holds the bus address; its [i2c] attribute is the platform
    the command trees are run against. *)
Record HDC2080 : Type := { addr : Z }.

(** [__init__(self, i2c, addr)] *)
Definition init (a : Z) : HDC2080 := {| addr := a |}.

Section Driver.
Variable fi : PyFloat.float_impl.
Variable self : HDC2080.

Notation "'flt' m" := (PyFloat.lit fi m 0) (at level 9, m at level 9).

Definition is_connected : prog bool :=
  Scan (fun found => Ret (existsb (Z.eqb (addr self)) found)).

(** *** Low-level register access *)
Definition _write_reg (reg value : Z) : prog unit :=
  b <- bytes1 (Z.land value 0xFF) ;;
  WritetoMem (addr self) reg b (Ret tt).

Definition _read_reg (reg : Z) : prog Z :=
  ReadfromMem (addr self) reg (fun b => Ret (int_from_byte b)).

(** *** Temperature / humidity *)
Definition read_temp : prog PyFloat.float :=
  low <- _read_reg TEMP_LOW ;;
  high <- _read_reg TEMP_HIGH ;;
  let raw := Z.lor (Z.shiftl high 8) low in
  let f := PyFloat.of_int fi raw in
  let f := PyFloat.sub fi
             (PyFloat.div fi (PyFloat.mul fi f (flt 165)) (flt 65536))
             (PyFloat.lit fi 81 (-1)) in
  Ret f.

Definition read_humidity : prog PyFloat.float :=
  low <- _read_reg HUMID_LOW ;;
  high <- _read_reg HUMID_HIGH ;;
  let raw := Z.lor (Z.shiftl high 8) low in
  let f := PyFloat.of_int fi raw in
  let f := PyFloat.mul fi (PyFloat.div fi f (flt 65536)) (flt 100) in
  Ret f.

(** *** Offset registers *)
Definition read_temp_offset_adjust : prog Z :=
  _read_reg TEMP_OFFSET_ADJ.

Definition set_temp_offset_adjust (value : Z) : prog Z :=
  _write_reg TEMP_OFFSET_ADJ value ;;
  read_temp_offset_adjust.

Definition read_humidity_offset_adjust : prog Z :=
  _read_reg HUM_OFFSET_ADJ.

Definition set_humidity_offset_adjust (value : Z) : prog Z :=
  _write_reg HUM_OFFSET_ADJ value ;;
  read_humidity_offset_adjust.

(** *** Heater *)
Definition enable_heater : prog unit :=
  c <- _read_reg CONFIG ;;
  let c := Z.lor c 0x08 in
  _write_reg CONFIG c.

Definition disable_heater : prog unit :=
  c <- _read_reg CONFIG ;;
  let c := Z.land c 0xF7 in
  _write_reg CONFIG c.

(** *** Thresholds *)
Definition set_low_temp (temp_c : PyFloat.float) : prog unit :=
  let temp_c :=
    if PyFloat.ltb temp_c (PyFloat.neg (flt 40)) then PyFloat.neg (flt 40)
    else if PyFloat.gtb temp_c (flt 125) then flt 125
    else temp_c in
  n <- int_of_float
         (PyFloat.div fi
            (PyFloat.mul fi (flt 256) (PyFloat.add fi temp_c (flt 40)))
            (flt 165)) ;;
  let val := Z.land n 0xFF in
  _write_reg TEMP_THR_L val.

Definition set_high_temp (temp_c : PyFloat.float) : prog unit :=
  let temp_c :=
    if PyFloat.ltb temp_c (PyFloat.neg (flt 40)) then PyFloat.neg (flt 40)
    else if PyFloat.gtb temp_c (flt 125) then flt 125
    else temp_c in
  n <- int_of_float
         (PyFloat.div fi
            (PyFloat.mul fi (flt 256) (PyFloat.add fi temp_c (flt 40)))
            (flt 165)) ;;
  let val := Z.land n 0xFF in
  _write_reg TEMP_THR_H val.

Definition set_high_humidity (rh : PyFloat.float) : prog unit :=
  let rh :=
    if PyFloat.ltb rh (flt 0) then flt 0
    else if PyFloat.gtb rh (flt 100) then flt 100
    else rh in
  n <- int_of_float
         (PyFloat.div fi (PyFloat.mul fi (flt 256) rh) (flt 100)) ;;
  let val := Z.land n 0xFF in
  _write_reg HUMID_THR_H val.

Definition set_low_humidity (rh : PyFloat.float) : prog unit :=
  let rh :=
    if PyFloat.ltb rh (flt 0) then flt 0
    else if PyFloat.gtb rh (flt 100) then flt 100
    else rh in
  n <- int_of_float
         (PyFloat.div fi (PyFloat.mul fi (flt 256) rh) (flt 100)) ;;
  let val := Z.land n 0xFF in
  _write_reg HUMID_THR_L val.

(** *** Thresholds read *)
Definition read_low_humidity_threshold : prog PyFloat.float :=
  v <- _read_reg HUMID_THR_L ;;
  Ret (PyFloat.div fi (PyFloat.mul fi (PyFloat.of_int fi v) (flt 100))
         (flt 256)).

Definition read_high_humidity_threshold : prog PyFloat.float :=
  v <- _read_reg HUMID_THR_H ;;
  Ret (PyFloat.div fi (PyFloat.mul fi (PyFloat.of_int fi v) (flt 100))
         (flt 256)).

Definition read_low_temp_threshold : prog PyFloat.float :=
  v <- _read_reg TEMP_THR_L ;;
  Ret (PyFloat.sub fi
         (PyFloat.div fi (PyFloat.mul fi (PyFloat.of_int fi v) (flt 165))
            (flt 256))
         (flt 40)).

Definition read_high_temp_threshold : prog PyFloat.float :=
  v <- _read_reg TEMP_THR_H ;;
  Ret (PyFloat.sub fi
         (PyFloat.div fi (PyFloat.mul fi (PyFloat.of_int fi v) (flt 165))
            (flt 256))
         (flt 40)).

(** *** Resolution *)
Definition set_temp_res (resolution : Z) : prog unit :=
  c <- _read_reg MEAS_CFG ;;
  let c :=
    if resolution =? FOURTEEN_BIT then Z.land c 0x3F
    else if resolution =? ELEVEN_BIT then Z.lor (Z.land c 0x7F) 0x40
    else if resolution =? NINE_BIT then Z.lor (Z.land c 0xBF) 0x80
    else Z.land c 0x3F in
  _write_reg MEAS_CFG c.

Definition set_humid_res (resolution : Z) : prog unit :=
  c <- _read_reg MEAS_CFG ;;
  let c :=
    if resolution =? FOURTEEN_BIT then Z.land c 0xCF
    else if resolution =? ELEVEN_BIT then Z.lor (Z.land c 0xDF) 0x10
    else if resolution =? NINE_BIT then Z.lor (Z.land c 0xEF) 0x20
    else Z.land c 0xCF in
  _write_reg MEAS_CFG c.

(** *** Measurement mode *)
Definition set_measurement_mode (mode : Z) : prog unit :=
  c <- _read_reg MEAS_CFG ;;
  let c :=
    if mode =? TEMP_AND_HUMID then Z.land c 0xF9
    else if mode =? TEMP_ONLY then Z.lor (Z.land c 0xFC) 0x02
    else if mode =? HUMID_ONLY then Z.lor (Z.land c 0xFD) 0x04
    else Z.land c 0xF9 in
  _write_reg MEAS_CFG c.

(** *** Trigger measurement *)
Definition trigger_measurement : prog unit :=
  c <- _read_reg MEAS_CFG ;;
  let c := Z.lor c 0x01 in
  _write_reg MEAS_CFG c.

(** *** Reset *)
Definition reset : prog unit :=
  c <- _read_reg CONFIG ;;
  let c := Z.lor c 0x80 in
  _write_reg CONFIG c ;;
  SleepMs 50 (Ret tt).

(** *** Interrupt pin enable / disable *)
Definition enable_interrupt : prog unit :=
  c <- _read_reg CONFIG ;;
  let c := Z.lor c 0x04 in
  _write_reg CONFIG c.

Definition disable_interrupt : prog unit :=
  c <- _read_reg CONFIG ;;
  let c := Z.land c 0xFB in
  _write_reg CONFIG c.

(** *** Measurement rate *)
Definition set_rate (rate : Z) : prog unit :=
  c <- _read_reg CONFIG ;;
  let c :=
    if rate =? MANUAL then Z.land c 0x8F
    else if rate =? TWO_MINS then Z.lor (Z.land c 0x9F) 0x10
    else if rate =? ONE_MINS then Z.lor (Z.land c 0xAF) 0x20
    else if rate =? TEN_SECONDS then Z.lor (Z.land c 0xBF) 0x30
    else if rate =? FIVE_SECONDS then Z.lor (Z.land c 0xCF) 0x40
    else if rate =? ONE_HZ then Z.lor (Z.land c 0xDF) 0x50
    else if rate =? TWO_HZ then Z.lor (Z.land c 0xEF) 0x60
    else if rate =? FIVE_HZ then Z.lor c 0x70
    else Z.land c 0x8F in
  _write_reg CONFIG c.

(** *** Interrupt polarity and mode *)
Definition set_interrupt_polarity (polarity : Z) : prog unit :=
  c <- _read_reg CONFIG ;;
  let c :=
    if polarity =? ACTIVE_LOW then Z.land c 0xFD
    else if polarity =? ACTIVE_HIGH then Z.lor c 0x02
    else Z.land c 0xFD in
  _write_reg CONFIG c.

Definition set_interrupt_mode (mode : Z) : prog unit :=
  c <- _read_reg CONFIG ;;
  let c :=
    if mode =? LEVEL_MODE then Z.land c 0xFE
    else if mode =? COMPARATOR_MODE then Z.lor c 0x01
    else Z.land c 0xFE in
  _write_reg CONFIG c.

Definition read_interrupt_status : prog Z :=
  _read_reg INTERRUPT_DRDY.

(** *** Max values *)
Definition clear_max_temp : prog unit :=
  _write_reg TEMP_MAX 0x00.

Definition clear_max_humidity : prog unit :=
  _write_reg HUMID_MAX 0x00.

Definition read_max_temp : prog PyFloat.float :=
  v <- _read_reg TEMP_MAX ;;
  Ret (PyFloat.sub fi
         (PyFloat.div fi (PyFloat.mul fi (PyFloat.of_int fi v) (flt 165))
            (flt 256))
         (flt 40)).

Definition read_max_humidity : prog PyFloat.float :=
  v <- _read_reg HUMID_MAX ;;
  Ret (PyFloat.mul fi (PyFloat.div fi (PyFloat.of_int fi v) (flt 256))
         (flt 100)).

(** *** Threshold / data-ready interrupts *)
Definition enable_threshold_interrupt : prog unit :=
  c <- _read_reg INTERRUPT_CONFIG ;;
  let c := Z.lor c 0x78 in
  _write_reg INTERRUPT_CONFIG c.

Definition disable_threshold_interrupt : prog unit :=
  c <- _read_reg INTERRUPT_CONFIG ;;
  let c := Z.land c 0x87 in
  _write_reg INTERRUPT_CONFIG c.

Definition enable_drdy_interrupt : prog unit :=
  c <- _read_reg INTERRUPT_CONFIG ;;
  let c := Z.lor c 0x80 in
  _write_reg INTERRUPT_CONFIG c.

Definition disable_drdy_interrupt : prog unit :=
  c <- _read_reg INTERRUPT_CONFIG ;;
  let c := Z.land c 0x7F in
  _write_reg INTERRUPT_CONFIG c.

End Driver.

(** ** Every public method, as one type

    [call] dispatches a method call; it is what "every public operation"
    ranges over.  The two underscore methods are private and not listed. *)

Inductive value : Type :=
| VNone
| VBool (b : bool)
| VInt (n : Z)
| VFloat (x : PyFloat.float).

Inductive method : Type :=
| m_is_connected
| m_read_temp
| m_read_humidity
| m_read_temp_offset_adjust
| m_set_temp_offset_adjust (value : Z)
| m_read_humidity_offset_adjust
| m_set_humidity_offset_adjust (value : Z)
| m_enable_heater
| m_disable_heater
| m_set_low_temp (temp_c : PyFloat.float)
| m_set_high_temp (temp_c : PyFloat.float)
| m_set_high_humidity (rh : PyFloat.float)
| m_set_low_humidity (rh : PyFloat.float)
| m_read_low_humidity_threshold
| m_read_high_humidity_threshold
| m_read_low_temp_threshold
| m_read_high_temp_threshold
| m_set_temp_res (resolution : Z)
| m_set_humid_res (resolution : Z)
| m_set_measurement_mode (mode : Z)
| m_trigger_measurement
| m_reset
| m_enable_interrupt
| m_disable_interrupt
| m_set_rate (rate : Z)
| m_set_interrupt_polarity (polarity : Z)
| m_set_interrupt_mode (mode : Z)
| m_read_interrupt_status
| m_clear_max_temp
| m_clear_max_humidity
| m_read_max_temp
| m_read_max_humidity
| m_enable_threshold_interrupt
| m_disable_threshold_interrupt
| m_enable_drdy_interrupt
| m_disable_drdy_interrupt.

Definition returning {A : Type} (inj : A -> value) (p : prog A) : prog value :=
  x <- p ;; Ret (inj x).

Definition call (fi : PyFloat.float_impl) (self : HDC2080) (m : method)
  : prog value :=
  let none := fun _ : unit => VNone in
  match m with
  | m_is_connected => returning VBool (is_connected self)
  | m_read_temp => returning VFloat (read_temp fi self)
  | m_read_humidity => returning VFloat (read_humidity fi self)
  | m_read_temp_offset_adjust => returning VInt (read_temp_offset_adjust self)
  | m_set_temp_offset_adjust v => returning VInt (set_temp_offset_adjust self v)
  | m_read_humidity_offset_adjust =>
      returning VInt (read_humidity_offset_adjust self)
  | m_set_humidity_offset_adjust v =>
      returning VInt (set_humidity_offset_adjust self v)
  | m_enable_heater => returning none (enable_heater self)
  | m_disable_heater => returning none (disable_heater self)
  | m_set_low_temp t => returning none (set_low_temp fi self t)
  | m_set_high_temp t => returning none (set_high_temp fi self t)
  | m_set_high_humidity rh => returning none (set_high_humidity fi self rh)
  | m_set_low_humidity rh => returning none (set_low_humidity fi self rh)
  | m_read_low_humidity_threshold =>
      returning VFloat (read_low_humidity_threshold fi self)
  | m_read_high_humidity_threshold =>
      returning VFloat (read_high_humidity_threshold fi self)
  | m_read_low_temp_threshold =>
      returning VFloat (read_low_temp_threshold fi self)
  | m_read_high_temp_threshold =>
      returning VFloat (read_high_temp_threshold fi self)
  | m_set_temp_res r => returning none (set_temp_res self r)
  | m_set_humid_res r => returning none (set_humid_res self r)
  | m_set_measurement_mode md => returning none (set_measurement_mode self md)
  | m_trigger_measurement => returning none (trigger_measurement self)
  | m_reset => returning none (reset self)
  | m_enable_interrupt => returning none (enable_interrupt self)
  | m_disable_interrupt => returning none (disable_interrupt self)
  | m_set_rate r => returning none (set_rate self r)
  | m_set_interrupt_polarity p => returning none (set_interrupt_polarity self p)
  | m_set_interrupt_mode md => returning none (set_interrupt_mode self md)
  | m_read_interrupt_status => returning VInt (read_interrupt_status self)
  | m_clear_max_temp => returning none (clear_max_temp self)
  | m_clear_max_humidity => returning none (clear_max_humidity self)
  | m_read_max_temp => returning VFloat (read_max_temp fi self)
  | m_read_max_humidity => returning VFloat (read_max_humidity fi self)
  | m_enable_threshold_interrupt =>
      returning none (enable_threshold_interrupt self)
  | m_disable_threshold_interrupt =>
      returning none (disable_threshold_interrupt self)
  | m_enable_drdy_interrupt => returning none (enable_drdy_interrupt self)
  | m_disable_drdy_interrupt => returning none (disable_drdy_interrupt self)
  end.

(** ** Vocabulary of the statements *)

(** The byte whose value is the low eight bits of [v]: what
    [bytes([v & 0xFF])] holds. *)
Definition low_byte (v : Z) : byte :=
  match Byte.of_N (Z.to_N (Z.land v 0xFF)) with
  | Some b => b
  | None => x00
  end.

(** The fake device of a driver object: it answers at the object's address. *)
Definition device (self : HDC2080) (rg : Z -> byte) (ck : Z) : mock :=
  {| dev := addr self; regs := rg; clock := ck |}.

(** The register contents of a fake device, as a Python integer. *)
Definition reg_value (s : mock) (m : Z) : Z := int_from_byte (regs s m).

(** Number of bit positions in which two integers differ (eight low bits). *)
Definition bits_differing (a b : Z) : nat :=
  length (filter (fun i => xorb (Z.testbit a i) (Z.testbit b i))
            [0; 1; 2; 3; 4; 5; 6; 7]).

(** The write transactions of a trace: (bus address, register, byte). *)
Fixpoint writes (t : list event) : list (Z * Z * byte) :=
  match t with
  | [] => []
  | EvWritetoMem a m d _ :: t' => (a, m, d) :: writes t'
  | _ :: t' => writes t'
  end.

(** The memory-read transactions of a trace: (bus address, register). *)
Fixpoint reads (t : list event) : list (Z * Z) :=
  match t with
  | [] => []
  | EvReadfromMem a m _ :: t' => (a, m) :: reads t'
  | _ :: t' => reads t'
  end.

(** All writes of a command tree go to registers that satisfy [ok],
    whatever the platform answers. *)
Inductive writes_within (ok : Z -> Prop) {A : Type} : prog A -> Prop :=
| ww_Ret a : writes_within ok (Ret a)
| ww_Raise e : writes_within ok (Raise e)
| ww_Scan k : (forall l, writes_within ok (k l)) -> writes_within ok (Scan k)
| ww_Read a m k :
    (forall b, writes_within ok (k b)) -> writes_within ok (ReadfromMem a m k)
| ww_Write a m d k :
    ok m -> writes_within ok k -> writes_within ok (WritetoMem a m d k)
| ww_Sleep ms k : writes_within ok k -> writes_within ok (SleepMs ms k).

(** [pshl m n] is [m * 2^n] on positive numbers, for [n >= 0]. *)
Definition pshl (m : positive) (n : Z) : positive :=
  match n with
  | Zpos p => Pos.iter xO m p
  | _ => m
  end.

(** The normalised float of sign [s] and magnitude [v * 2^e] in a format of
    [prec] bits, for [v] of at most [prec] bits. *)
Definition canon (prec : Z) (s : bool) (v : positive) (e : Z) : spec_float :=
  let d := Zpos (digits2_pos v) in
  S754_finite s (pshl v (prec - d)) (e + d - prec).

(** The shape shared by the configuration setters, stated on runs: one read
    of [reg]; if it succeeds, one write to [reg] of the low byte of [f]
    applied to the value read; nothing else.  A failed transaction ends the
    call with [OSError]. *)
Definition read_modify_write {S : Type} (P : platform S) (self : HDC2080)
    (reg : Z) (f : Z -> Z) (p : prog unit) : Prop :=
  forall s,
    run P p s =
    match readfrom_mem P s (addr self) reg with
    | (Some c, s1) =>
        let w := low_byte (f (int_from_byte c)) in
        match writeto_mem P s1 (addr self) reg w with
        | (true, s2) =>
            (Ok tt, s2,
             [EvReadfromMem (addr self) reg (Some c);
              EvWritetoMem (addr self) reg w true])
        | (false, s2) =>
            (Err OSError, s2,
             [EvReadfromMem (addr self) reg (Some c);
              EvWritetoMem (addr self) reg w false])
        end
    | (None, s1) => (Err OSError, s1, [EvReadfromMem (addr self) reg None])
    end.

(** The registers of the measurement, status, latch, offset, threshold and
    configuration block. *)
Definition data_or_config_register (m : Z) : Prop := 0x00 <= m <= 0x0F.

(** The two-sided clamp the threshold setters perform with [if] / [elif]. *)
Definition clamp (lo hi x : PyFloat.float) : PyFloat.float :=
  if PyFloat.ltb x lo then lo
  else if PyFloat.gtb x hi then hi
  else x.

(** [below K x]: [x] is a zero or a finite float of magnitude less than
    [2^K]; in particular [int(x)] returns. *)
Definition below (K : Z) (x : spec_float) : Prop :=
  match x with
  | S754_zero _ => True
  | S754_finite _ m e => Zpos m < 2 ^ (K - e)
  | S754_infinity _ | S754_nan => False
  end.

(** A value of the interpreter's float type in the width [fi]: NaN, an
    infinity, a zero, or a finite number in the canonical representation of
    the format. *)
Definition float_of_width (fi : PyFloat.float_impl) (x : PyFloat.float) : bool :=
  valid_binary (PyFloat.prec fi) (PyFloat.emax fi) x.

(** The transfer function in the words of the specification,
    [celsius = raw * 165.0 / 65536.0 - 40.5], over the rationals. *)
Definition spec_readTemperature (raw : Z) : Q :=
  (inject_Z raw * 165 / 65536 - (405 # 10))%Q.

(** What [read_temp] computes from the raw value, in floats. *)
Definition temp_of_raw (fi : PyFloat.float_impl) (raw : Z) : PyFloat.float :=
  let f := PyFloat.of_int fi raw in
  PyFloat.sub fi
    (PyFloat.div fi (PyFloat.mul fi f (PyFloat.lit fi 165 0))
       (PyFloat.lit fi 65536 0))
    (PyFloat.lit fi 81 (-1)).

(** Case analysis over the 256 values of a byte read from the bus. *)
Ltac by_byte c := destruct c; vm_compute; repeat split; auto; lia.

(** *** Vocabulary of the further properties *)

(** What a transaction asks of the platform, without the platform's answer. *)
Inductive request : Type :=
| RqScan
| RqRead (addr memaddr : Z)
| RqWrite (addr memaddr : Z) (data : byte)
| RqSleep (ms : Z).

Definition request_of (ev : event) : request :=
  match ev with
  | EvScan _ => RqScan
  | EvReadfromMem a m _ => RqRead a m
  | EvWritetoMem a m d _ => RqWrite a m d
  | EvSleepMs ms => RqSleep ms
  end.

(** [issues ok nr nw p]: whatever the platform answers, every request of the
    command tree [p] satisfies [ok], and [p] makes at most [nr] register
    reads and at most [nw] register writes. *)
Inductive issues (ok : request -> Prop) {A : Type}
  : nat -> nat -> prog A -> Prop :=
| is_Ret nr nw a : issues ok nr nw (Ret a)
| is_Raise nr nw e : issues ok nr nw (Raise e)
| is_Scan nr nw k :
    ok RqScan -> (forall l, issues ok nr nw (k l)) -> issues ok nr nw (Scan k)
| is_Read nr nw a m k :
    ok (RqRead a m) -> (forall b, issues ok nr nw (k b)) ->
    issues ok (S nr) nw (ReadfromMem a m k)
| is_Write nr nw a m d k :
    ok (RqWrite a m d) -> issues ok nr nw k ->
    issues ok nr (S nw) (WritetoMem a m d k)
| is_Sleep nr nw ms k :
    ok (RqSleep ms) -> issues ok nr nw k -> issues ok nr nw (SleepMs ms k).

(** What a public method may ask of the platform. *)
Definition method_request_ok (self : HDC2080) (m : method) (rq : request)
  : Prop :=
  match rq with
  | RqScan => m = m_is_connected
  | RqRead a r => a = addr self /\ 0x00 <= r <= 0x0F
  | RqWrite a r _ => a = addr self /\ 0x05 <= r <= 0x0F
  | RqSleep ms => m = m_reset /\ ms = 50
  end.

(** [all_below n P]: the test [P] holds of 0, 1, ..., n-1. *)
Definition all_below (n : nat) (P : Z -> bool) : bool :=
  forallb P (map Z.of_nat (seq 0 n)).

(** Decidable form of [PyFloat.has_value]. *)
Definition has_valueb (x : PyFloat.float) (q : Q) : bool :=
  match PyFloat.to_Q x with
  | Some q' => Qeq_bool q' q
  | None => false
  end.

(** What [read_humidity] computes from the raw value. *)
Definition humidity_of_raw (fi : PyFloat.float_impl) (raw : Z) : PyFloat.float :=
  PyFloat.mul fi
    (PyFloat.div fi (PyFloat.of_int fi raw) (PyFloat.lit fi 65536 0))
    (PyFloat.lit fi 100 0).

(** What the one-byte temperature readers ([read_max_temp] and the two
    temperature threshold readers) compute from the register value. *)
Definition temp_of_code (fi : PyFloat.float_impl) (v : Z) : PyFloat.float :=
  PyFloat.sub fi
    (PyFloat.div fi (PyFloat.mul fi (PyFloat.of_int fi v) (PyFloat.lit fi 165 0))
       (PyFloat.lit fi 256 0))
    (PyFloat.lit fi 40 0).

(** What the humidity threshold readers compute: [float(v) * 100.0 / 256.0]. *)
Definition humidity_of_code (fi : PyFloat.float_impl) (v : Z) : PyFloat.float :=
  PyFloat.div fi (PyFloat.mul fi (PyFloat.of_int fi v) (PyFloat.lit fi 100 0))
    (PyFloat.lit fi 256 0).

(** What [read_max_humidity] computes: [float(v) / 256.0 * 100.0]. *)
Definition max_humidity_of_code (fi : PyFloat.float_impl) (v : Z)
  : PyFloat.float :=
  PyFloat.mul fi (PyFloat.div fi (PyFloat.of_int fi v) (PyFloat.lit fi 256 0))
    (PyFloat.lit fi 100 0).

(** The float the temperature threshold setters pass to [int()]. *)
Definition temp_threshold_arg (fi : PyFloat.float_impl) (temp_c : PyFloat.float)
  : PyFloat.float :=
  let temp_c :=
    clamp (PyFloat.neg (PyFloat.lit fi 40 0)) (PyFloat.lit fi 125 0) temp_c in
  PyFloat.div fi
    (PyFloat.mul fi (PyFloat.lit fi 256 0)
       (PyFloat.add fi temp_c (PyFloat.lit fi 40 0)))
    (PyFloat.lit fi 165 0).

(** The float the humidity threshold setters pass to [int()]. *)
Definition humidity_threshold_arg (fi : PyFloat.float_impl) (rh : PyFloat.float)
  : PyFloat.float :=
  let rh := clamp (PyFloat.lit fi 0 0) (PyFloat.lit fi 100 0) rh in
  PyFloat.div fi (PyFloat.mul fi (PyFloat.lit fi 256 0) rh)
    (PyFloat.lit fi 100 0).

(** The shape of the offset setters, stated on runs: one write of the low
    byte of [value] to [reg]; if it succeeds, one read of [reg], whose byte
    is the result.  A failed transaction ends the call with [OSError]. *)
Definition write_then_read_back {S : Type} (P : platform S) (self : HDC2080)
    (reg value : Z) (p : prog Z) : Prop :=
  forall s,
    run P p s =
    match writeto_mem P s (addr self) reg (low_byte value) with
    | (true, s1) =>
        match readfrom_mem P s1 (addr self) reg with
        | (Some b, s2) =>
            (Ok (int_from_byte b), s2,
             [EvWritetoMem (addr self) reg (low_byte value) true;
              EvReadfromMem (addr self) reg (Some b)])
        | (None, s2) =>
            (Err OSError, s2,
             [EvWritetoMem (addr self) reg (low_byte value) true;
              EvReadfromMem (addr self) reg None])
        end
    | (false, s1) =>
        (Err OSError, s1, [EvWritetoMem (addr self) reg (low_byte value) false])
    end.

(** The shape of the one-byte readers, stated on runs: one read of [reg],
    whose value [g] converts; a failed read ends the call with [OSError]. *)
Definition reads_and_converts {S A : Type} (P : platform S) (self : HDC2080)
    (reg : Z) (g : Z -> A) (p : prog A) : Prop :=
  forall s,
    run P p s =
    match readfrom_mem P s (addr self) reg with
    | (Some b, s1) =>
        (Ok (g (int_from_byte b)), s1, [EvReadfromMem (addr self) reg (Some b)])
    | (None, s1) => (Err OSError, s1, [EvReadfromMem (addr self) reg None])
    end.

(** Structural equality of floats (the same datum, not [==] of Python). *)
Definition float_eqb (x y : PyFloat.float) : bool :=
  match x, y with
  | S754_zero a, S754_zero b => Bool.eqb a b
  | S754_infinity a, S754_infinity b => Bool.eqb a b
  | S754_nan, S754_nan => true
  | S754_finite a m e, S754_finite b m' e' =>
      Bool.eqb a b && Pos.eqb m m' && Z.eqb e e'
  | _, _ => false
  end.

(** [int_is r k]: [int()] returned [k]. *)
Definition int_is (r : result Z) (k : Z) : bool :=
  match r with
  | Ok n => n =? k
  | Err _ => false
  end.

(** The checks behind the properties of the one-byte conversions, for one
    register value [v]: the readers' results are exactly [v * 165 / 256 - 40]
    and [v * 100 / 256], the two humidity formulas give the same float, and
    the setters convert each reader's result back to [v]. *)
Definition byte_code_checks (fi : PyFloat.float_impl) (v : Z) : bool :=
  has_valueb (temp_of_code fi v) ((v * 165 - 10240) # 256) &&
  has_valueb (humidity_of_code fi v) ((v * 100) # 256) &&
  float_eqb (max_humidity_of_code fi v) (humidity_of_code fi v) &&
  int_is (PyFloat.to_int (temp_threshold_arg fi (temp_of_code fi v))) v &&
  int_is (PyFloat.to_int (humidity_threshold_arg fi (humidity_of_code fi v))) v.

(** The check behind the round trip of a whole number [n - 40] of degrees:
    the code [k] the setter computes is a byte value, and the reader's
    result for [k] is at most [n - 40] and more than [n - 40 - 165/256]. *)
Definition whole_degree_checks (fi : PyFloat.float_impl) (n : Z) : bool :=
  match PyFloat.to_int (temp_threshold_arg fi (PyFloat.of_int fi (n - 40))) with
  | Ok k =>
      (0 <=? k) && (k <? 256) &&
      match PyFloat.to_Q (temp_of_code fi k) with
      | Some q =>
          Qle_bool q (inject_Z (n - 40)) &&
          negb (Qle_bool q (inject_Z (n - 40) - (165 # 256)))
      | None => false
      end
  | Err _ => false
  end.

(** The same for a whole number [n] of percent relative humidity and the
    step [100/256]. *)
Definition whole_percent_checks (fi : PyFloat.float_impl) (n : Z) : bool :=
  match PyFloat.to_int (humidity_threshold_arg fi (PyFloat.of_int fi n)) with
  | Ok k =>
      (0 <=? k) && (k <? 256) &&
      match PyFloat.to_Q (humidity_of_code fi k) with
      | Some q =>
          Qle_bool q (inject_Z n) &&
          negb (Qle_bool q (inject_Z n - (100 # 256)))
      | None => false
      end
  | Err _ => false
  end.

(** ** Basic facts *)

Lemma int_from_byte_range (b : byte) : 0 <= int_from_byte b < 256.
Proof.
  unfold int_from_byte. pose proof (Byte.to_N_bounded b) as H.
  lia.
Qed.

Lemma int_from_byte_inj (a b : byte) :
  int_from_byte a = int_from_byte b -> a = b.
Proof.
  unfold int_from_byte. intros H. apply N2Z.inj in H.
  assert (E : Byte.of_N (Byte.to_N a) = Byte.of_N (Byte.to_N b)) by now rewrite H.
  rewrite !Byte.of_to_N in E. now injection E.
Qed.

Lemma land_255_range (v : Z) : 0 <= Z.land v 0xFF < 256.
Proof.
  change 0xFF with (Z.ones 8). rewrite Z.land_ones by lia.
  change (2 ^ 8) with 256. apply Z.mod_pos_bound. lia.
Qed.

Lemma low_byte_value (v : Z) : int_from_byte (low_byte v) = Z.land v 0xFF.
Proof.
  unfold low_byte, int_from_byte. pose proof (land_255_range v) as R.
  destruct (Byte.of_N (Z.to_N (Z.land v 0xFF))) as [b|] eqn:E.
  - apply Byte.to_of_N in E. rewrite E. lia.
  - apply Byte.of_N_None_iff in E. lia.
Qed.

Lemma bytes1_low (v : Z) : bytes1 (Z.land v 0xFF) = Ret (low_byte v).
Proof.
  unfold bytes1, low_byte. pose proof (land_255_range v) as R.
  replace ((0 <=? Z.land v 0xFF) && (Z.land v 0xFF <? 256)) with true
    by (symmetry; apply andb_true_iff; split; [apply Z.leb_le | apply Z.ltb_lt]; lia).
  destruct (Byte.of_N (Z.to_N (Z.land v 0xFF))) as [b|] eqn:E; [reflexivity|].
  apply Byte.of_N_None_iff in E. lia.
Qed.

Lemma write_reg_tree (self : HDC2080) (reg v : Z) :
  _write_reg self reg v = WritetoMem (addr self) reg (low_byte v) (Ret tt).
Proof. unfold _write_reg. now rewrite bytes1_low. Qed.

Lemma low_byte_of_byte (b : byte) : low_byte (int_from_byte b) = b.
Proof.
  apply int_from_byte_inj. rewrite low_byte_value.
  pose proof (int_from_byte_range b) as R.
  change 0xFF with (Z.ones 8). rewrite Z.land_ones by lia.
  apply Z.mod_small. change (2 ^ 8) with 256. lia.
Qed.

Lemma low_byte_unique (v : Z) (w : byte) :
  int_from_byte w = Z.land v 0xFF -> low_byte v = w.
Proof.
  intros H. apply int_from_byte_inj. now rewrite low_byte_value.
Qed.

Lemma land_255_small (v : Z) : 0 <= v < 256 -> Z.land v 0xFF = v.
Proof.
  intros R. change 0xFF with (Z.ones 8). rewrite Z.land_ones by lia.
  apply Z.mod_small. change (2 ^ 8) with 256. lia.
Qed.

(** ** Running command trees *)

Lemma run_bind {S A B : Type} (P : platform S) (p : prog A) (f : A -> prog B) :
  forall s,
    run P (bind p f) s =
    match run P p s with
    | (Ok a, s1, t1) =>
        let '(r, s2, t2) := run P (f a) s1 in (r, s2, t1 ++ t2)
    | (Err e, s1, t1) => (Err e, s1, t1)
    end.
Proof.
  induction p as [a|e|k IH|a m k IH|a m d k IH|ms k IH]; intros s; cbn [bind run].
  - destruct (run P (f a) s) as [[r s2] t2]. reflexivity.
  - reflexivity.
  - destruct (scan P s) as [found s1]. rewrite IH.
    destruct (run P (k found) s1) as [[[x|e] s2] t]; [|reflexivity].
    destruct (run P (f x) s2) as [[r s3] t2]. reflexivity.
  - destruct (readfrom_mem P s a m) as [[b|] s1]; [|reflexivity]. rewrite IH.
    destruct (run P (k b) s1) as [[[x|e] s2] t]; [|reflexivity].
    destruct (run P (f x) s2) as [[r s3] t2]. reflexivity.
  - destruct (writeto_mem P s a m d) as [[|] s1]; [|reflexivity]. rewrite IH.
    destruct (run P k s1) as [[[x|e] s2] t]; [|reflexivity].
    destruct (run P (f x) s2) as [[r s3] t2]. reflexivity.
  - rewrite IH.
    destruct (run P k (sleep_ms P s ms)) as [[[x|e] s2] t]; [|reflexivity].
    destruct (run P (f x) s2) as [[r s3] t2]. reflexivity.
Qed.

Lemma rmw_intro {S : Type} (P : platform S) (self : HDC2080) (reg : Z)
    (f : Z -> Z) :
  read_modify_write P self reg f
    (c <- _read_reg self reg ;; _write_reg self reg (f c)).
Proof.
  intros s. unfold _read_reg. cbn [bind run].
  destruct (readfrom_mem P s (addr self) reg) as [[c|] s1]; [|reflexivity].
  rewrite write_reg_tree. cbn [run].
  destruct (writeto_mem P s1 (addr self) reg _) as [[|] s2]; reflexivity.
Qed.

(** A read-modify-write on the fake device always succeeds and changes the
    one register. *)
Lemma rmw_on_device (self : HDC2080) (reg : Z) (f : Z -> Z) (p : prog unit)
    (rg : Z -> byte) (ck : Z) :
  read_modify_write mock_platform self reg f p ->
  let w := low_byte (f (int_from_byte (rg reg))) in
  run mock_platform p (device self rg ck) =
  (Ok tt, device self (poke rg reg w) ck,
   [EvReadfromMem (addr self) reg (Some (rg reg));
    EvWritetoMem (addr self) reg w true]).
Proof.
  intros H w. rewrite H. unfold device. cbn. rewrite Z.eqb_refl. cbn.
  rewrite Z.eqb_refl. reflexivity.
Qed.

Lemma run_write_reg_device (self : HDC2080) (reg v : Z) (rg : Z -> byte)
    (ck : Z) :
  run mock_platform (_write_reg self reg v) (device self rg ck) =
  (Ok tt, device self (poke rg reg (low_byte v)) ck,
   [EvWritetoMem (addr self) reg (low_byte v) true]).
Proof.
  rewrite write_reg_tree. unfold device. cbn. rewrite Z.eqb_refl. reflexivity.
Qed.

Lemma run_write_device (self : HDC2080) (reg : Z) (b : byte) (rg : Z -> byte)
    (ck : Z) :
  run mock_platform (WritetoMem (addr self) reg b (Ret tt)) (device self rg ck) =
  (Ok tt, device self (poke rg reg b) ck,
   [EvWritetoMem (addr self) reg b true]).
Proof. unfold device. cbn. rewrite Z.eqb_refl. reflexivity. Qed.

Lemma run_read_reg_device (self : HDC2080) (reg : Z) (rg : Z -> byte) (ck : Z) :
  run mock_platform (_read_reg self reg) (device self rg ck) =
  (Ok (int_from_byte (rg reg)), device self rg ck,
   [EvReadfromMem (addr self) reg (Some (rg reg))]).
Proof. unfold device, _read_reg. cbn. rewrite Z.eqb_refl. reflexivity. Qed.

Lemma poke_same (rg : Z -> byte) (m : Z) (b : byte) : poke rg m b m = b.
Proof. unfold poke. now rewrite Z.eqb_refl. Qed.

Lemma poke_other (rg : Z -> byte) (m m' : Z) (b : byte) :
  m' <> m -> poke rg m b m' = rg m'.
Proof. unfold poke. intros H. apply Z.eqb_neq in H. now rewrite H. Qed.

(** ** The setters as read-modify-write operations *)

Section Setters.
Context {S : Type} (P : platform S) (self : HDC2080).

Lemma set_temp_res_rmw (resolution : Z) :
  read_modify_write P self MEAS_CFG
    (fun c =>
       if resolution =? FOURTEEN_BIT then Z.land c 0x3F
       else if resolution =? ELEVEN_BIT then Z.lor (Z.land c 0x7F) 0x40
       else if resolution =? NINE_BIT then Z.lor (Z.land c 0xBF) 0x80
       else Z.land c 0x3F)
    (set_temp_res self resolution).
Proof. apply rmw_intro. Qed.

Lemma set_humid_res_rmw (resolution : Z) :
  read_modify_write P self MEAS_CFG
    (fun c =>
       if resolution =? FOURTEEN_BIT then Z.land c 0xCF
       else if resolution =? ELEVEN_BIT then Z.lor (Z.land c 0xDF) 0x10
       else if resolution =? NINE_BIT then Z.lor (Z.land c 0xEF) 0x20
       else Z.land c 0xCF)
    (set_humid_res self resolution).
Proof. apply rmw_intro. Qed.

Lemma enable_threshold_interrupt_rmw :
  read_modify_write P self INTERRUPT_CONFIG (fun c => Z.lor c 0x78)
    (enable_threshold_interrupt self).
Proof. apply rmw_intro. Qed.

Lemma disable_threshold_interrupt_rmw :
  read_modify_write P self INTERRUPT_CONFIG (fun c => Z.land c 0x87)
    (disable_threshold_interrupt self).
Proof. apply rmw_intro. Qed.

(** With an argument outside the enumeration only the last branch of the
    case dispatch is left. *)
Lemma set_temp_res_fallback (resolution : Z) :
  ~ In resolution [FOURTEEN_BIT; ELEVEN_BIT; NINE_BIT] ->
  read_modify_write P self MEAS_CFG (fun c => Z.land c 0x3F)
    (set_temp_res self resolution).
Proof.
  intros H s. rewrite set_temp_res_rmw.
  destruct (Z.eqb_spec resolution FOURTEEN_BIT); [reflexivity|].
  destruct (Z.eqb_spec resolution ELEVEN_BIT); [exfalso; apply H; simpl; auto|].
  destruct (Z.eqb_spec resolution NINE_BIT); [exfalso; apply H; simpl; auto|].
  reflexivity.
Qed.

Lemma set_humid_res_fallback (resolution : Z) :
  ~ In resolution [FOURTEEN_BIT; ELEVEN_BIT; NINE_BIT] ->
  read_modify_write P self MEAS_CFG (fun c => Z.land c 0xCF)
    (set_humid_res self resolution).
Proof.
  intros H s. rewrite set_humid_res_rmw.
  destruct (Z.eqb_spec resolution FOURTEEN_BIT); [reflexivity|].
  destruct (Z.eqb_spec resolution ELEVEN_BIT); [exfalso; apply H; simpl; auto|].
  destruct (Z.eqb_spec resolution NINE_BIT); [exfalso; apply H; simpl; auto|].
  reflexivity.
Qed.

Lemma set_measurement_mode_fallback (mode : Z) :
  ~ In mode [TEMP_AND_HUMID; TEMP_ONLY; HUMID_ONLY] ->
  read_modify_write P self MEAS_CFG (fun c => Z.land c 0xF9)
    (set_measurement_mode self mode).
Proof.
  intros H s. unfold set_measurement_mode. rewrite rmw_intro.
  destruct (Z.eqb_spec mode TEMP_AND_HUMID); [reflexivity|].
  destruct (Z.eqb_spec mode TEMP_ONLY); [exfalso; apply H; simpl; auto|].
  destruct (Z.eqb_spec mode HUMID_ONLY); [exfalso; apply H; simpl; auto|].
  reflexivity.
Qed.

Lemma set_rate_fallback (rate : Z) :
  ~ In rate [MANUAL; TWO_MINS; ONE_MINS; TEN_SECONDS; FIVE_SECONDS;
             ONE_HZ; TWO_HZ; FIVE_HZ] ->
  read_modify_write P self CONFIG (fun c => Z.land c 0x8F)
    (set_rate self rate).
Proof.
  intros H s. unfold set_rate. rewrite rmw_intro.
  destruct (Z.eqb_spec rate MANUAL); [reflexivity|].
  destruct (Z.eqb_spec rate TWO_MINS); [exfalso; apply H; subst; simpl; auto 12|].
  destruct (Z.eqb_spec rate ONE_MINS); [exfalso; apply H; subst; simpl; auto 12|].
  destruct (Z.eqb_spec rate TEN_SECONDS); [exfalso; apply H; subst; simpl; auto 12|].
  destruct (Z.eqb_spec rate FIVE_SECONDS); [exfalso; apply H; subst; simpl; auto 12|].
  destruct (Z.eqb_spec rate ONE_HZ); [exfalso; apply H; subst; simpl; auto 12|].
  destruct (Z.eqb_spec rate TWO_HZ); [exfalso; apply H; subst; simpl; auto 12|].
  destruct (Z.eqb_spec rate FIVE_HZ); [exfalso; apply H; subst; simpl; auto 12|].
  reflexivity.
Qed.

Lemma set_interrupt_polarity_fallback (polarity : Z) :
  ~ In polarity [ACTIVE_LOW; ACTIVE_HIGH] ->
  read_modify_write P self CONFIG (fun c => Z.land c 0xFD)
    (set_interrupt_polarity self polarity).
Proof.
  intros H s. unfold set_interrupt_polarity. rewrite rmw_intro.
  destruct (Z.eqb_spec polarity ACTIVE_LOW); [reflexivity|].
  destruct (Z.eqb_spec polarity ACTIVE_HIGH); [exfalso; apply H; simpl; auto|].
  reflexivity.
Qed.

Lemma set_interrupt_mode_fallback (mode : Z) :
  ~ In mode [LEVEL_MODE; COMPARATOR_MODE] ->
  read_modify_write P self CONFIG (fun c => Z.land c 0xFE)
    (set_interrupt_mode self mode).
Proof.
  intros H s. unfold set_interrupt_mode. rewrite rmw_intro.
  destruct (Z.eqb_spec mode LEVEL_MODE); [reflexivity|].
  destruct (Z.eqb_spec mode COMPARATOR_MODE); [exfalso; apply H; simpl; auto|].
  reflexivity.
Qed.

(** [reset], transaction by transaction. *)
Lemma run_reset (s : S) :
  run P (reset self) s =
  match readfrom_mem P s (addr self) CONFIG with
  | (Some c, s1) =>
      let w := low_byte (Z.lor (int_from_byte c) 0x80) in
      match writeto_mem P s1 (addr self) CONFIG w with
      | (true, s2) =>
          (Ok tt, sleep_ms P s2 50,
           [EvReadfromMem (addr self) CONFIG (Some c);
            EvWritetoMem (addr self) CONFIG w true;
            EvSleepMs 50])
      | (false, s2) =>
          (Err OSError, s2,
           [EvReadfromMem (addr self) CONFIG (Some c);
            EvWritetoMem (addr self) CONFIG w false])
      end
  | (None, s1) => (Err OSError, s1, [EvReadfromMem (addr self) CONFIG None])
  end.
Proof.
  unfold reset, _read_reg. cbn [bind run].
  destruct (readfrom_mem P s (addr self) CONFIG) as [[c|] s1]; [|reflexivity].
  rewrite write_reg_tree. cbn [bind run].
  destruct (writeto_mem P s1 (addr self) CONFIG _) as [[|] s2]; reflexivity.
Qed.

(** A 16-bit measurement read, transaction by transaction. *)
Lemma run_read_pair {A : Type} (lo hi : Z) (g : Z -> Z -> A) (s : S) :
  run P (low <- _read_reg self lo ;; high <- _read_reg self hi ;;
         Ret (g low high)) s =
  match readfrom_mem P s (addr self) lo with
  | (Some l, s1) =>
      match readfrom_mem P s1 (addr self) hi with
      | (Some h, s2) =>
          (Ok (g (int_from_byte l) (int_from_byte h)), s2,
           [EvReadfromMem (addr self) lo (Some l);
            EvReadfromMem (addr self) hi (Some h)])
      | (None, s2) =>
          (Err OSError, s2,
           [EvReadfromMem (addr self) lo (Some l);
            EvReadfromMem (addr self) hi None])
      end
  | (None, s1) => (Err OSError, s1, [EvReadfromMem (addr self) lo None])
  end.
Proof.
  unfold _read_reg. cbn [bind run].
  destruct (readfrom_mem P s (addr self) lo) as [[l|] s1]; [|reflexivity].
  destruct (readfrom_mem P s1 (addr self) hi) as [[h|] s2]; reflexivity.
Qed.

End Setters.

(** ** Where the writes of a command tree can go *)

Lemma ww_bind (ok : Z -> Prop) {A B : Type} (p : prog A) (f : A -> prog B) :
  writes_within ok p -> (forall a, writes_within ok (f a)) ->
  writes_within ok (bind p f).
Proof.
  intros Hp Hf. induction Hp; cbn [bind]; auto using @writes_within.
Qed.

Lemma ww_read_reg (ok : Z -> Prop) (self : HDC2080) (reg : Z) :
  writes_within ok (_read_reg self reg).
Proof. unfold _read_reg. constructor. intros b. constructor. Qed.

Lemma ww_write_reg (ok : Z -> Prop) (self : HDC2080) (reg v : Z) :
  ok reg -> writes_within ok (_write_reg self reg v).
Proof. intros H. rewrite write_reg_tree. constructor; [exact H | constructor]. Qed.

Lemma ww_int_of_float (ok : Z -> Prop) (x : PyFloat.float) :
  writes_within ok (int_of_float x).
Proof. unfold int_of_float. destruct (PyFloat.to_int x); constructor. Qed.

Lemma ww_run (ok : Z -> Prop) {A : Type} (p : prog A) :
  writes_within ok p ->
  forall (S : Type) (P : platform S) (s : S),
    Forall (fun w => ok (snd (fst w))) (writes (trace (run P p s))).
Proof.
  unfold trace.
  induction 1 as [a|e|k _ IH|a m k _ IH|a m d k Hm _ IH|ms k _ IH];
    intros S P s; cbn [run].
  - constructor.
  - constructor.
  - destruct (scan P s) as [found s1]. specialize (IH found S P s1).
    destruct (run P (k found) s1) as [[r s2] t]. exact IH.
  - destruct (readfrom_mem P s a m) as [[b|] s1]; [|constructor].
    specialize (IH b S P s1). destruct (run P (k b) s1) as [[r s2] t]. exact IH.
  - destruct (writeto_mem P s a m d) as [[|] s1].
    + specialize (IH S P s1). destruct (run P k s1) as [[r s2] t].
      cbn. constructor; [exact Hm | exact IH].
    + cbn. constructor; [exact Hm | constructor].
  - specialize (IH S P (sleep_ms P s ms)).
    destruct (run P k (sleep_ms P s ms)) as [[r s2] t]. exact IH.
Qed.

Ltac ww_step :=
  first
    [ apply ww_read_reg
    | apply ww_write_reg
    | apply ww_int_of_float
    | apply ww_Ret
    | apply ww_Sleep
    | apply ww_Scan
    | apply ww_bind
    | intro ].

Lemma call_writes_within (fi : PyFloat.float_impl) (self : HDC2080) (m : method) :
  writes_within data_or_config_register (call fi self m).
Proof.
  destruct m; unfold call, returning;
    (apply ww_bind; [|intro; apply ww_Ret]).
  all: try match goal with |- writes_within _ (?f _ _ _) => unfold f end.
  all: try match goal with |- writes_within _ (?f _ _) => unfold f end.
  all: try match goal with |- writes_within _ (?f _) => unfold f end.
  all: repeat ww_step.
  all: unfold data_or_config_register; vm_compute; split; discriminate.
Qed.

(** * Properties of the register traffic *)

(** C2. Read-modify-write isolation of the two resolution setters.  On any
    platform, [set_temp_res] (for any argument) is one read of MEAS_CFG
    followed by one write to MEAS_CFG of a value that agrees with the value
    read outside bits 7:6, and [set_humid_res] likewise outside bits 5:4.
    On a register bank, [set_temp_res(NINE_BIT)] followed by
    [set_humid_res(ELEVEN_BIT)] succeeds, touches MEAS_CFG only, and leaves
    its low four bits (reserved bit 3, measurement mode bits 2:1, trigger
    bit 0) as they were, for every initial content: the register ends as
    [(initial & 0x0F) | 0x90]. *)
Theorem C2_resolution_setters_preserve_mode_bits
    (self : HDC2080) (S : Type) (P : platform S) :
  (forall resolution, exists f,
      read_modify_write P self MEAS_CFG f (set_temp_res self resolution) /\
      forall c : byte,
        let v := int_from_byte c in
        let w := int_from_byte (low_byte (f v)) in
        Z.land w 0x3F = Z.land v 0x3F) /\
  (forall resolution, exists f,
      read_modify_write P self MEAS_CFG f (set_humid_res self resolution) /\
      forall c : byte,
        let v := int_from_byte c in
        let w := int_from_byte (low_byte (f v)) in
        Z.land w 0xCF = Z.land v 0xCF) /\
  (forall (rg : Z -> byte) (ck : Z),
      let s := device self rg ck in
      let r := run mock_platform
                 (set_temp_res self NINE_BIT ;; set_humid_res self ELEVEN_BIT) s in
      outcome r = Ok tt /\
      Z.land (reg_value (final r) MEAS_CFG) 0x07
        = Z.land (reg_value s MEAS_CFG) 0x07 /\
      reg_value (final r) MEAS_CFG
        = Z.lor (Z.land (reg_value s MEAS_CFG) 0x0F) 0x90 /\
      (forall m, m <> MEAS_CFG -> regs (final r) m = rg m) /\
      Forall (fun w => snd (fst w) = MEAS_CFG) (writes (trace r))).
Proof.
  split; [|split].
  - intros resolution. eexists. split; [apply set_temp_res_rmw|].
    intros c. cbv zeta. rewrite low_byte_value.
    unfold FOURTEEN_BIT, ELEVEN_BIT, NINE_BIT.
    destruct (resolution =? 0); [by_byte c|].
    destruct (resolution =? 1); [by_byte c|].
    destruct (resolution =? 2); by_byte c.
  - intros resolution. eexists. split; [apply set_humid_res_rmw|].
    intros c. cbv zeta. rewrite low_byte_value.
    unfold FOURTEEN_BIT, ELEVEN_BIT, NINE_BIT.
    destruct (resolution =? 0); [by_byte c|].
    destruct (resolution =? 1); [by_byte c|].
    destruct (resolution =? 2); by_byte c.
  - intros rg ck. cbv zeta. rewrite run_bind.
    rewrite (rmw_on_device self MEAS_CFG _ _ rg ck (set_temp_res_rmw _ self NINE_BIT)).
    cbv zeta.
    rewrite (rmw_on_device self MEAS_CFG _ _ _ ck (set_humid_res_rmw _ self ELEVEN_BIT)).
    unfold outcome, final, trace, reg_value, device. cbn [fst snd regs app writes].
    rewrite !poke_same. rewrite !low_byte_value.
    split; [reflexivity|]. split; [|split; [|split]].
    + by_byte (rg MEAS_CFG).
    + by_byte (rg MEAS_CFG).
    + intros m Hm. now rewrite !poke_other.
    + repeat constructor.
Qed.

(** C3 (as the code has it).  [enable_threshold_interrupt] and
    [disable_threshold_interrupt] set and clear the group of four threshold
    enable bits [0x78] (bits 6..3) of the interrupt-configuration register:
    on any platform each is one read followed by one write of
    [value | 0x78], respectively [value & 0x87], to the same register.  The
    value written agrees with the value read on bits 7 and 2..0, and differs
    from it in at most four positions, all inside the group. *)
Theorem C3_threshold_interrupt_toggles_four_bit_group
    (self : HDC2080) (S : Type) (P : platform S) :
  read_modify_write P self INTERRUPT_CONFIG (fun v => Z.lor v 0x78)
    (enable_threshold_interrupt self) /\
  read_modify_write P self INTERRUPT_CONFIG (fun v => Z.land v 0x87)
    (disable_threshold_interrupt self) /\
  forall c : byte,
    let v := int_from_byte c in
    let w_on := int_from_byte (low_byte (Z.lor v 0x78)) in
    let w_off := int_from_byte (low_byte (Z.land v 0x87)) in
    w_on = Z.lor v 0x78 /\ Z.land w_on 0x78 = 0x78 /\
    Z.land w_on 0x87 = Z.land v 0x87 /\
    w_off = Z.land v 0x87 /\ Z.land w_off 0x78 = 0 /\
    Z.land w_off 0x87 = Z.land v 0x87 /\
    (bits_differing v w_on <= 4)%nat /\ (bits_differing v w_off <= 4)%nat.
Proof.
  split; [apply enable_threshold_interrupt_rmw|].
  split; [apply disable_threshold_interrupt_rmw|].
  intros c. cbv zeta. rewrite !low_byte_value. by_byte c.
Qed.

(** C3, the claim as stated fails: starting from 0x00 the enable call writes
    0x78, and starting from 0xFF the disable call writes 0x87; either value
    differs from the one read in four bit positions, not in one. *)
Lemma C3_counterexample_four_bits_change :
  let self := init 0x40 in
  trace (run mock_platform (enable_threshold_interrupt self)
           (device self (fun _ => x00) 0))
  = [EvReadfromMem 0x40 INTERRUPT_CONFIG (Some x00);
     EvWritetoMem 0x40 INTERRUPT_CONFIG x78 true] /\
  bits_differing (int_from_byte x00) (int_from_byte x78) = 4%nat /\
  trace (run mock_platform (disable_threshold_interrupt self)
           (device self (fun _ => xff) 0))
  = [EvReadfromMem 0x40 INTERRUPT_CONFIG (Some xff);
     EvWritetoMem 0x40 INTERRUPT_CONFIG x87 true] /\
  bits_differing (int_from_byte xff) (int_from_byte x87) = 4%nat /\
  4%nat <> 1%nat.
Proof. vm_compute. repeat split; discriminate. Qed.

(** C4 (as the code has it).  A 16-bit measurement read is two separate
    one-byte read transactions, the low register first and the high register
    second.  If the first fails the call raises after that one transaction;
    if the second fails the call raises after the first has completed; a
    value is returned only when both succeed, and it is computed from the two
    bytes.  No write is issued on any path. *)
Theorem C4_measurement_read_is_two_transactions
    (fi : PyFloat.float_impl) (self : HDC2080) (S : Type) (P : platform S)
    (s : S) :
  (run P (read_temp fi self) s =
   match readfrom_mem P s (addr self) TEMP_LOW with
   | (Some l, s1) =>
       match readfrom_mem P s1 (addr self) TEMP_HIGH with
       | (Some h, s2) =>
           let raw := Z.lor (Z.shiftl (int_from_byte h) 8) (int_from_byte l) in
           (Ok (PyFloat.sub fi
                  (PyFloat.div fi
                     (PyFloat.mul fi (PyFloat.of_int fi raw) (PyFloat.lit fi 165 0))
                     (PyFloat.lit fi 65536 0))
                  (PyFloat.lit fi 81 (-1))),
            s2,
            [EvReadfromMem (addr self) TEMP_LOW (Some l);
             EvReadfromMem (addr self) TEMP_HIGH (Some h)])
       | (None, s2) =>
           (Err OSError, s2,
            [EvReadfromMem (addr self) TEMP_LOW (Some l);
             EvReadfromMem (addr self) TEMP_HIGH None])
       end
   | (None, s1) => (Err OSError, s1, [EvReadfromMem (addr self) TEMP_LOW None])
   end) /\
  (run P (read_humidity fi self) s =
   match readfrom_mem P s (addr self) HUMID_LOW with
   | (Some l, s1) =>
       match readfrom_mem P s1 (addr self) HUMID_HIGH with
       | (Some h, s2) =>
           let raw := Z.lor (Z.shiftl (int_from_byte h) 8) (int_from_byte l) in
           (Ok (PyFloat.mul fi
                  (PyFloat.div fi (PyFloat.of_int fi raw) (PyFloat.lit fi 65536 0))
                  (PyFloat.lit fi 100 0)),
            s2,
            [EvReadfromMem (addr self) HUMID_LOW (Some l);
             EvReadfromMem (addr self) HUMID_HIGH (Some h)])
       | (None, s2) =>
           (Err OSError, s2,
            [EvReadfromMem (addr self) HUMID_LOW (Some l);
             EvReadfromMem (addr self) HUMID_HIGH None])
       end
   | (None, s1) => (Err OSError, s1, [EvReadfromMem (addr self) HUMID_LOW None])
   end) /\
  writes (trace (run P (read_temp fi self) s)) = [] /\
  writes (trace (run P (read_humidity fi self) s)) = [].
Proof.
  assert (Ht := run_read_pair P self TEMP_LOW TEMP_HIGH
    (fun low high =>
       let raw := Z.lor (Z.shiftl high 8) low in
       PyFloat.sub fi
         (PyFloat.div fi
            (PyFloat.mul fi (PyFloat.of_int fi raw) (PyFloat.lit fi 165 0))
            (PyFloat.lit fi 65536 0))
         (PyFloat.lit fi 81 (-1))) s).
  assert (Hh := run_read_pair P self HUMID_LOW HUMID_HIGH
    (fun low high =>
       let raw := Z.lor (Z.shiftl high 8) low in
       PyFloat.mul fi
         (PyFloat.div fi (PyFloat.of_int fi raw) (PyFloat.lit fi 65536 0))
         (PyFloat.lit fi 100 0)) s).
  match type of Ht with _ = ?rhs =>
    change (run P (read_temp fi self) s = rhs) in Ht end.
  match type of Hh with _ = ?rhs =>
    change (run P (read_humidity fi self) s = rhs) in Hh end.
  split; [exact Ht|]. split; [exact Hh|].
  rewrite Ht, Hh. unfold trace. split.
  - destruct (readfrom_mem P s (addr self) TEMP_LOW) as [[l|] s1]; [|reflexivity].
    destruct (readfrom_mem P s1 (addr self) TEMP_HIGH) as [[h|] s2]; reflexivity.
  - destruct (readfrom_mem P s (addr self) HUMID_LOW) as [[l|] s1]; [|reflexivity].
    destruct (readfrom_mem P s1 (addr self) HUMID_HIGH) as [[h|] s2]; reflexivity.
Qed.

(** C4, the claim as stated fails: on a bus that serves one transaction and
    then fails, [read_temp] completes the read of the low register (one
    transaction of its own), and only then fails on the separate read of
    the high register; [read_humidity] does the same. *)
Lemma C4_counterexample_failure_between_bytes :
  let self := init 0x40 in
  let s := {| inner := device self (fun _ => x2a) 0; budget := 1 |} in
  let rt := run flaky_platform (read_temp PyFloat.FLOAT_IMPL_DOUBLE self) s in
  let rh := run flaky_platform (read_humidity PyFloat.FLOAT_IMPL_DOUBLE self) s in
  outcome rt = Err OSError /\
  trace rt = [EvReadfromMem 0x40 TEMP_LOW (Some x2a);
              EvReadfromMem 0x40 TEMP_HIGH None] /\
  outcome rh = Err OSError /\
  trace rh = [EvReadfromMem 0x40 HUMID_LOW (Some x2a);
              EvReadfromMem 0x40 HUMID_HIGH None] /\
  length (reads (trace rt)) = 2%nat /\ length (reads (trace rh)) = 2%nat.
Proof. vm_compute. repeat split. Qed.

(** C5. An argument outside the enumeration makes each case-dispatched
    setter take its last branch: on any platform the call is one read and
    one write of the same register, no exception other than a transport
    failure can arise, and the byte written carries the fallback pattern in
    the setter's field (14 bit: 00 in bits 7:6, 14 bit: 00 in bits 5:4,
    temperature and humidity: 00 in bits 2:1, manual: 000 in bits 6:4,
    active low: 0 in bit 1, level mode: 0 in bit 0) and the value read in
    every other bit.  On a register bank the call returns normally. *)
Theorem C5_unrecognised_argument_writes_fallback_pattern
    (self : HDC2080) (S : Type) (P : platform S)
    (t_res h_res m_mode rate polarity i_mode : Z) :
  ~ In t_res [FOURTEEN_BIT; ELEVEN_BIT; NINE_BIT] ->
  ~ In h_res [FOURTEEN_BIT; ELEVEN_BIT; NINE_BIT] ->
  ~ In m_mode [TEMP_AND_HUMID; TEMP_ONLY; HUMID_ONLY] ->
  ~ In rate [MANUAL; TWO_MINS; ONE_MINS; TEN_SECONDS; FIVE_SECONDS;
             ONE_HZ; TWO_HZ; FIVE_HZ] ->
  ~ In polarity [ACTIVE_LOW; ACTIVE_HIGH] ->
  ~ In i_mode [LEVEL_MODE; COMPARATOR_MODE] ->
  let setters :=
    [ (set_temp_res self t_res, MEAS_CFG, 0xC0);
      (set_humid_res self h_res, MEAS_CFG, 0x30);
      (set_measurement_mode self m_mode, MEAS_CFG, 0x06);
      (set_rate self rate, CONFIG, 0x70);
      (set_interrupt_polarity self polarity, CONFIG, 0x02);
      (set_interrupt_mode self i_mode, CONFIG, 0x01) ] in
  Forall
    (fun '(p, reg, field) =>
       read_modify_write P self reg (fun v => Z.land v (Z.lxor 0xFF field)) p /\
       (forall c : byte,
           let v := int_from_byte c in
           let w := int_from_byte (low_byte (Z.land v (Z.lxor 0xFF field))) in
           Z.land w field = 0 /\
           Z.land w (Z.lxor 0xFF field) = Z.land v (Z.lxor 0xFF field)) /\
       (forall rg ck,
           outcome (run mock_platform p (device self rg ck)) = Ok tt))
    setters.
Proof.
  intros Ht Hh Hm Hr Hp Hi setters. subst setters.
  repeat apply Forall_cons; try apply Forall_nil.
  all: split; [|split].
  all: try (intros c; cbv zeta; rewrite low_byte_value; by_byte c).
  all: try (intros rg ck; erewrite rmw_on_device; [reflexivity|]).
  - now apply set_temp_res_fallback.
  - now apply set_temp_res_fallback.
  - now apply set_humid_res_fallback.
  - now apply set_humid_res_fallback.
  - now apply set_measurement_mode_fallback.
  - now apply set_measurement_mode_fallback.
  - now apply set_rate_fallback.
  - now apply set_rate_fallback.
  - now apply set_interrupt_polarity_fallback.
  - now apply set_interrupt_polarity_fallback.
  - now apply set_interrupt_mode_fallback.
  - now apply set_interrupt_mode_fallback.
Qed.

(** C5 at concrete arguments: resolution codes 3 and -1, mode 7, rate 8,
    polarity 2 and interrupt mode 255 are all outside their enumerations;
    on a register bank holding 0xFF, [set_rate(8)] writes 0x8F. *)
Lemma C5_witness_out_of_range_codes :
  (~ In 3 [FOURTEEN_BIT; ELEVEN_BIT; NINE_BIT] /\
   ~ In (-1) [FOURTEEN_BIT; ELEVEN_BIT; NINE_BIT] /\
   ~ In 7 [TEMP_AND_HUMID; TEMP_ONLY; HUMID_ONLY] /\
   ~ In 8 [MANUAL; TWO_MINS; ONE_MINS; TEN_SECONDS; FIVE_SECONDS;
           ONE_HZ; TWO_HZ; FIVE_HZ] /\
   ~ In 2 [ACTIVE_LOW; ACTIVE_HIGH] /\
   ~ In 255 [LEVEL_MODE; COMPARATOR_MODE]) /\
  read_modify_write mock_platform (init 0x40) CONFIG
    (fun v => Z.land v (Z.lxor 0xFF 0x70)) (set_rate (init 0x40) 8).
Proof.
  assert (H1 : ~ In 3 [FOURTEEN_BIT; ELEVEN_BIT; NINE_BIT])
    by (vm_compute; intuition discriminate).
  assert (H2 : ~ In (-1) [FOURTEEN_BIT; ELEVEN_BIT; NINE_BIT])
    by (vm_compute; intuition discriminate).
  assert (H3 : ~ In 7 [TEMP_AND_HUMID; TEMP_ONLY; HUMID_ONLY])
    by (vm_compute; intuition discriminate).
  assert (H4 : ~ In 8 [MANUAL; TWO_MINS; ONE_MINS; TEN_SECONDS; FIVE_SECONDS;
                       ONE_HZ; TWO_HZ; FIVE_HZ])
    by (vm_compute; intuition discriminate).
  assert (H5 : ~ In 2 [ACTIVE_LOW; ACTIVE_HIGH])
    by (vm_compute; intuition discriminate).
  assert (H6 : ~ In 255 [LEVEL_MODE; COMPARATOR_MODE])
    by (vm_compute; intuition discriminate).
  split; [repeat split; assumption|].
  pose proof (C5_unrecognised_argument_writes_fallback_pattern
                (init 0x40) mock mock_platform 3 (-1) 7 8 2 255
                H1 H2 H3 H4 H5 H6) as H.
  cbv zeta in H.
  apply Forall_inv_tail, Forall_inv_tail, Forall_inv_tail, Forall_inv in H.
  exact (proj1 H).
Defined.

(** C8. [reset] on any platform: it reads the device-configuration
    register; if that succeeds it writes to the same register the value
    read with bit 0x80 set, and that is its only write; if the write
    succeeds it calls [sleep_ms(50)] and returns, with no transaction after
    the write.  On a register bank with a fake clock the call returns
    normally and the clock has advanced by 50 milliseconds. *)
Theorem C8_reset_one_write_then_sleep
    (self : HDC2080) (S : Type) (P : platform S) (s : S) :
  (run P (reset self) s =
   match readfrom_mem P s (addr self) CONFIG with
   | (Some c, s1) =>
       let w := low_byte (Z.lor (int_from_byte c) 0x80) in
       match writeto_mem P s1 (addr self) CONFIG w with
       | (true, s2) =>
           (Ok tt, sleep_ms P s2 50,
            [EvReadfromMem (addr self) CONFIG (Some c);
             EvWritetoMem (addr self) CONFIG w true;
             EvSleepMs 50])
       | (false, s2) =>
           (Err OSError, s2,
            [EvReadfromMem (addr self) CONFIG (Some c);
             EvWritetoMem (addr self) CONFIG w false])
       end
   | (None, s1) => (Err OSError, s1, [EvReadfromMem (addr self) CONFIG None])
   end) /\
  (forall c : byte,
      let v := int_from_byte c in
      let w := int_from_byte (low_byte (Z.lor v 0x80)) in
      w = Z.lor v 0x80 /\ Z.land w 0x80 = 0x80 /\ Z.land w 0x7F = Z.land v 0x7F) /\
  (length (writes (trace (run P (reset self) s))) <= 1)%nat /\
  (forall (rg : Z -> byte) (ck : Z),
      let w := low_byte (Z.lor (int_from_byte (rg CONFIG)) 0x80) in
      run mock_platform (reset self) (device self rg ck) =
      (Ok tt, device self (poke rg CONFIG w) (ck + 50),
       [EvReadfromMem (addr self) CONFIG (Some (rg CONFIG));
        EvWritetoMem (addr self) CONFIG w true;
        EvSleepMs 50])).
Proof.
  split; [apply run_reset|]. split; [|split].
  - intros c. cbv zeta. rewrite low_byte_value. by_byte c.
  - rewrite run_reset. unfold trace.
    destruct (readfrom_mem P s (addr self) CONFIG) as [[c|] s1]; [|cbn; lia].
    cbv zeta.
    destruct (writeto_mem P s1 (addr self) CONFIG _) as [[|] s2]; cbn; lia.
  - intros rg ck. cbv zeta. rewrite run_reset. unfold device. cbn.
    rewrite Z.eqb_refl. cbn. rewrite Z.eqb_refl. reflexivity.
Qed.

(** C9. No public method ever writes to an identification register: for
    every method and arguments, every platform and every state, each write
    transaction of the call addresses a register offset between 0x00 and
    0x0F, hence none of 0xFC, 0xFD, 0xFE, 0xFF. *)
Theorem C9_no_write_to_identification_registers
    (fi : PyFloat.float_impl) (self : HDC2080) (m : method)
    (S : Type) (P : platform S) (s : S) :
  Forall
    (fun w =>
       let reg := snd (fst w) in
       0x00 <= reg <= 0x0F /\
       ~ In reg [MID_L; MID_H; DEVICE_ID_L; DEVICE_ID_H])
    (writes (trace (run P (call fi self m) s))).
Proof.
  eapply Forall_impl; [|apply (ww_run data_or_config_register), call_writes_within].
  intros [[a reg] d] H. cbn in *. unfold data_or_config_register in H.
  split; [exact H|].
  unfold MID_L, MID_H, DEVICE_ID_L, DEVICE_ID_H. cbn. lia.
Qed.

(** * Properties of the unit conversions *)

(** ** Comparison and clamping of floats *)

Lemma SFcompare_antisym (x y : spec_float) :
  SFcompare y x = option_map CompOpp (SFcompare x y).
Proof.
  destruct x as [[|]|[|]| |[|] m1 e1], y as [[|]|[|]| |[|] m2 e2];
    cbn; try reflexivity.
  - rewrite (Z.compare_antisym e1 e2).
    destruct (e1 ?= e2); cbn; try reflexivity.
    change (Pos.compare_cont Eq m2 m1) with (m2 ?= m1)%positive.
    now rewrite (Pos.compare_antisym m1 m2).
  - rewrite (Z.compare_antisym e1 e2).
    destruct (e1 ?= e2); cbn; try reflexivity.
    change (Pos.compare_cont Eq m2 m1) with (m2 ?= m1)%positive.
    now rewrite (Pos.compare_antisym m1 m2).
Qed.

Lemma not_ltb_leb (x y : spec_float) :
  x <> S754_nan -> y <> S754_nan -> SFltb x y = false -> SFleb y x = true.
Proof.
  unfold SFltb, SFleb. intros Hx Hy. rewrite (SFcompare_antisym x y).
  destruct (SFcompare x y) as [[| |]|] eqn:E; cbn; try reflexivity; try discriminate.
  destruct x, y; cbn in E; try discriminate; congruence.
Qed.

(** An input at or above a positive finite upper bound is clamped to the
    bound, provided the lower bound is negative or zero. *)
Lemma clamp_at_or_above (lo x : spec_float) (mh : positive) (eh : Z) :
  (lo = S754_zero false \/ exists m e, lo = S754_finite true m e) ->
  SFleb (S754_finite false mh eh) x = true ->
  clamp lo (S754_finite false mh eh) x = S754_finite false mh eh.
Proof.
  intros Hlo H. unfold clamp, PyFloat.ltb, PyFloat.gtb, SFltb, SFleb in *.
  destruct x as [sx|[|]| |[|] mx ex]; cbn in H; try discriminate.
  - destruct Hlo as [->|(m & e & ->)]; reflexivity.
  - assert (L : SFcompare (S754_finite false mx ex) lo = Some Gt)
      by (destruct Hlo as [->|(m & e & ->)]; reflexivity).
    rewrite L. cbn.
    destruct (eh ?= ex) eqn:E; try discriminate; try reflexivity.
    apply Z.compare_eq in E. subst ex.
    destruct (Pos.compare_cont Eq mh mx) eqn:E2; try discriminate; try reflexivity.
    apply Pos.compare_eq in E2. now subst mx.
Qed.

(** An input at or below a negative finite lower bound is clamped to the
    bound, provided the upper bound is positive. *)
Lemma clamp_at_or_below (x : spec_float) (ml mh : positive) (el eh : Z) :
  SFleb x (S754_finite true ml el) = true ->
  clamp (S754_finite true ml el) (S754_finite false mh eh) x
  = S754_finite true ml el.
Proof.
  intros H. unfold clamp, PyFloat.ltb, PyFloat.gtb, SFltb, SFleb in *.
  destruct x as [sx|[|]| |[|] mx ex]; cbn in H; try discriminate.
  - reflexivity.
  - cbn. destruct (ex ?= el) eqn:E; try discriminate; try reflexivity.
    apply Z.compare_eq in E. subst ex.
    destruct (Pos.compare_cont Eq mx ml) eqn:E2; try discriminate;
      try reflexivity.
    apply Pos.compare_eq in E2. now subst mx.
Qed.

(** The float literals of the threshold setters, in either width. *)
Lemma literal_shapes (fi : PyFloat.float_impl) :
  (exists m e, PyFloat.neg (PyFloat.lit fi 40 0) = S754_finite true m e) /\
  (exists m e, PyFloat.lit fi 125 0 = S754_finite false m e) /\
  PyFloat.lit fi 0 0 = S754_zero false /\
  (exists m e, PyFloat.lit fi 100 0 = S754_finite false m e).
Proof. destruct fi; vm_compute; repeat split; eauto. Qed.

(** A clamped value is not clamped again. *)
Lemma clamp_idem (lo hi x : spec_float) :
  SFltb lo lo = false -> SFltb hi hi = false -> SFltb hi lo = false ->
  clamp lo hi (clamp lo hi x) = clamp lo hi x.
Proof.
  intros Hll Hhh Hhl. unfold clamp, PyFloat.ltb, PyFloat.gtb.
  destruct (SFltb x lo) eqn:E1.
  - now rewrite Hll, Hhl.
  - destruct (SFltb hi x) eqn:E2.
    + now rewrite Hhl, Hhh.
    + now rewrite E1, E2.
Qed.

Lemma clamp_in_range (lo hi x : spec_float) :
  lo <> S754_nan -> hi <> S754_nan -> x <> S754_nan ->
  SFleb lo lo = true -> SFleb hi hi = true -> SFleb lo hi = true ->
  SFleb lo (clamp lo hi x) = true /\ SFleb (clamp lo hi x) hi = true.
Proof.
  intros Hlo Hhi Hx Hll Hhh Hlh. unfold clamp, PyFloat.ltb, PyFloat.gtb.
  destruct (SFltb x lo) eqn:E1; [now split|].
  destruct (SFltb hi x) eqn:E2; [now split|].
  split; now apply not_ltb_leb.
Qed.

Lemma temp_bounds_facts (fi : PyFloat.float_impl) :
  let lo := PyFloat.neg (PyFloat.lit fi 40 0) in
  let hi := PyFloat.lit fi 125 0 in
  lo <> S754_nan /\ hi <> S754_nan /\
  SFltb lo lo = false /\ SFltb hi hi = false /\ SFltb hi lo = false /\
  SFltb lo hi = true /\
  SFleb lo lo = true /\ SFleb hi hi = true /\ SFleb lo hi = true.
Proof. destruct fi; vm_compute; repeat split; discriminate. Qed.

Lemma humidity_bounds_facts (fi : PyFloat.float_impl) :
  let lo := PyFloat.lit fi 0 0 in
  let hi := PyFloat.lit fi 100 0 in
  lo <> S754_nan /\ hi <> S754_nan /\
  SFltb lo lo = false /\ SFltb hi hi = false /\ SFltb hi lo = false /\
  SFltb lo hi = true /\
  SFleb lo lo = true /\ SFleb hi hi = true /\ SFleb lo hi = true.
Proof. destruct fi; vm_compute; repeat split; discriminate. Qed.

(** Masking with 0xFF before taking the low byte changes nothing. *)
Lemma low_byte_land (n : Z) : low_byte (Z.land n 0xFF) = low_byte n.
Proof.
  apply int_from_byte_inj. rewrite !low_byte_value.
  rewrite <- Z.land_assoc. now rewrite Z.land_diag.
Qed.

(** A threshold setter is the write of the low byte of what [int()]
    returns, and raises what [int()] raises. *)
Lemma threshold_setter_trees (fi : PyFloat.float_impl) (self : HDC2080)
    (x : PyFloat.float) :
  let tree (r : result Z) (reg : Z) : prog unit :=
    match r with
    | Ok n => WritetoMem (addr self) reg (low_byte n) (Ret tt)
    | Err e => Raise e
    end in
  set_low_temp fi self x
    = tree (PyFloat.to_int (temp_threshold_arg fi x)) TEMP_THR_L /\
  set_high_temp fi self x
    = tree (PyFloat.to_int (temp_threshold_arg fi x)) TEMP_THR_H /\
  set_low_humidity fi self x
    = tree (PyFloat.to_int (humidity_threshold_arg fi x)) HUMID_THR_L /\
  set_high_humidity fi self x
    = tree (PyFloat.to_int (humidity_threshold_arg fi x)) HUMID_THR_H.
Proof.
  cbv zeta.
  unfold set_low_temp, set_high_temp, set_low_humidity, set_high_humidity.
  fold (clamp (PyFloat.neg (PyFloat.lit fi 40 0)) (PyFloat.lit fi 125 0) x).
  fold (clamp (PyFloat.lit fi 0 0) (PyFloat.lit fi 100 0) x).
  fold (temp_threshold_arg fi x). fold (humidity_threshold_arg fi x).
  unfold int_of_float.
  destruct (PyFloat.to_int (temp_threshold_arg fi x)) as [n|e],
    (PyFloat.to_int (humidity_threshold_arg fi x)) as [n'|e'];
    cbn [bind]; rewrite ?write_reg_tree, ?low_byte_land; repeat split.
Qed.

(** C7. Round trip through the low temperature threshold register, in
    either float width and from any initial register contents:
    [set_low_temp(25.0)] converts by [int(256.0 * (25.0 + 40.0) / 165.0)],
    which is 100, and writes the byte 100 = 100 & 0xFF to register 0x0A;
    [read_low_temp_threshold()] then reads that byte back and returns
    100 * 165 / 256 - 40 = 24.453125 exactly, which is within one
    quantization step 165/256 of 25.0. *)
Theorem C7_low_temp_threshold_round_trip
    (fi : PyFloat.float_impl) (self : HDC2080) (rg : Z -> byte) (ck : Z) :
  let t := PyFloat.lit fi 25 0 in
  let r := run mock_platform
             (set_low_temp fi self t ;; read_low_temp_threshold fi self)
             (device self rg ck) in
  PyFloat.has_value t (25 # 1) /\
  int_of_float
    (PyFloat.div fi
       (PyFloat.mul fi (PyFloat.lit fi 256 0)
          (PyFloat.add fi t (PyFloat.lit fi 40 0)))
       (PyFloat.lit fi 165 0)) = Ret 100 /\
  trace r = [EvWritetoMem (addr self) TEMP_THR_L x64 true;
             EvReadfromMem (addr self) TEMP_THR_L (Some x64)] /\
  int_from_byte x64 = Z.land 100 0xFF /\
  exists back : PyFloat.float,
    outcome r = Ok back /\
    back = PyFloat.sub fi
             (PyFloat.div fi
                (PyFloat.mul fi (PyFloat.of_int fi 100) (PyFloat.lit fi 165 0))
                (PyFloat.lit fi 256 0))
             (PyFloat.lit fi 40 0) /\
    PyFloat.has_value back (100 * 165 / 256 - 40) /\
    exists q, PyFloat.to_Q back = Some q /\
              (Qabs (q - 25) <= 165 # 256)%Q.
Proof.
  intros t r.
  assert (E : set_low_temp fi self t = _write_reg self TEMP_THR_L 100)
    by (destruct fi; reflexivity).
  assert (R : r = (Ok (PyFloat.sub fi
             (PyFloat.div fi
                (PyFloat.mul fi (PyFloat.of_int fi 100) (PyFloat.lit fi 165 0))
                (PyFloat.lit fi 256 0))
             (PyFloat.lit fi 40 0)),
                   device self (poke rg TEMP_THR_L x64) ck,
                   [EvWritetoMem (addr self) TEMP_THR_L x64 true;
                    EvReadfromMem (addr self) TEMP_THR_L (Some x64)])).
  { subst r. rewrite run_bind, E, run_write_reg_device.
    unfold read_low_temp_threshold. rewrite run_bind, run_read_reg_device.
    cbn [run app]. rewrite poke_same. reflexivity. }
  rewrite R. clear R r E. subst t. unfold outcome, trace. cbn [fst snd].
  split; [destruct fi; vm_compute; eauto|].
  split; [destruct fi; reflexivity|].
  split; [reflexivity|]. split; [reflexivity|].
  eexists. split; [reflexivity|]. split; [reflexivity|].
  split.
  - destruct fi; vm_compute; eauto.
  - destruct fi; eexists; (split; [vm_compute; reflexivity|]); vm_compute;
      discriminate.
Qed.

(** C10. At the upper clamp boundary the mask wraps the converted value to
    zero, in either float width.  For every temperature input [t >= 125.0]
    (infinity included) [set_high_temp] and [set_low_temp] are exactly the
    write of byte 0x00 to their register, since
    [int(256.0 * 165.0 / 165.0) = 256] and [256 & 0xFF = 0]; reading the
    threshold back on a register bank returns -40.0.  For every humidity
    input [rh >= 100.0] the humidity setters are exactly the write of 0x00,
    and the read back returns 0.0. *)
Theorem C10_upper_boundary_wraps_to_zero
    (fi : PyFloat.float_impl) (self : HDC2080) (t rh : PyFloat.float) :
  PyFloat.leb (PyFloat.lit fi 125 0) t = true ->
  PyFloat.leb (PyFloat.lit fi 100 0) rh = true ->
  int_of_float
    (PyFloat.div fi
       (PyFloat.mul fi (PyFloat.lit fi 256 0)
          (PyFloat.add fi (PyFloat.lit fi 125 0) (PyFloat.lit fi 40 0)))
       (PyFloat.lit fi 165 0)) = Ret 256 /\
  int_of_float
    (PyFloat.div fi (PyFloat.mul fi (PyFloat.lit fi 256 0) (PyFloat.lit fi 100 0))
       (PyFloat.lit fi 100 0)) = Ret 256 /\
  Z.land 256 0xFF = 0 /\
  set_high_temp fi self t = WritetoMem (addr self) TEMP_THR_H x00 (Ret tt) /\
  set_low_temp fi self t = WritetoMem (addr self) TEMP_THR_L x00 (Ret tt) /\
  set_high_humidity fi self rh = WritetoMem (addr self) HUMID_THR_H x00 (Ret tt) /\
  set_low_humidity fi self rh = WritetoMem (addr self) HUMID_THR_L x00 (Ret tt) /\
  forall (rg : Z -> byte) (ck : Z),
    (exists back,
        outcome (run mock_platform
                   (set_high_temp fi self t ;; read_high_temp_threshold fi self)
                   (device self rg ck)) = Ok back /\
        PyFloat.has_value back (- 40 # 1)) /\
    (exists back,
        outcome (run mock_platform
                   (set_high_humidity fi self rh ;;
                    read_high_humidity_threshold fi self)
                   (device self rg ck)) = Ok back /\
        PyFloat.has_value back (0 # 1)).
Proof.
  intros Ht Hrh.
  destruct (literal_shapes fi) as ((m40 & e40 & L40) & (m125 & e125 & L125) & L0
                                    & (m100 & e100 & L100)).
  assert (Ct : clamp (PyFloat.neg (PyFloat.lit fi 40 0)) (PyFloat.lit fi 125 0) t
               = PyFloat.lit fi 125 0).
  { unfold PyFloat.leb in Ht. rewrite L125 in *. apply clamp_at_or_above; eauto. }
  assert (Ch : clamp (PyFloat.lit fi 0 0) (PyFloat.lit fi 100 0) rh
               = PyFloat.lit fi 100 0).
  { unfold PyFloat.leb in Hrh. rewrite L100 in *. apply clamp_at_or_above; auto. }
  assert (E1 : set_high_temp fi self t = WritetoMem (addr self) TEMP_THR_H x00 (Ret tt)).
  { unfold set_high_temp.
    fold (clamp (PyFloat.neg (PyFloat.lit fi 40 0)) (PyFloat.lit fi 125 0) t).
    rewrite Ct. destruct fi; reflexivity. }
  assert (E2 : set_low_temp fi self t = WritetoMem (addr self) TEMP_THR_L x00 (Ret tt)).
  { unfold set_low_temp.
    fold (clamp (PyFloat.neg (PyFloat.lit fi 40 0)) (PyFloat.lit fi 125 0) t).
    rewrite Ct. destruct fi; reflexivity. }
  assert (E3 : set_high_humidity fi self rh
               = WritetoMem (addr self) HUMID_THR_H x00 (Ret tt)).
  { unfold set_high_humidity.
    fold (clamp (PyFloat.lit fi 0 0) (PyFloat.lit fi 100 0) rh).
    rewrite Ch. destruct fi; reflexivity. }
  assert (E4 : set_low_humidity fi self rh
               = WritetoMem (addr self) HUMID_THR_L x00 (Ret tt)).
  { unfold set_low_humidity.
    fold (clamp (PyFloat.lit fi 0 0) (PyFloat.lit fi 100 0) rh).
    rewrite Ch. destruct fi; reflexivity. }
  split; [destruct fi; reflexivity|]. split; [destruct fi; reflexivity|].
  split; [reflexivity|].
  split; [exact E1|]. split; [exact E2|]. split; [exact E3|]. split; [exact E4|].
  intros rg ck. split.
  - rewrite run_bind, E1, run_write_device.
    unfold read_high_temp_threshold. rewrite run_bind, run_read_reg_device.
    cbn [run app outcome fst]. rewrite poke_same.
    eexists. split; [reflexivity|]. destruct fi; vm_compute; eauto.
  - rewrite run_bind, E3, run_write_device.
    unfold read_high_humidity_threshold. rewrite run_bind, run_read_reg_device.
    cbn [run app outcome fst]. rewrite poke_same.
    eexists. split; [reflexivity|]. destruct fi; vm_compute; eauto.
Qed.

(** C10 at concrete inputs: 125.0 itself and positive infinity are at or
    above the temperature bound, 100.0 itself is at the humidity bound; the
    setters write 0x00. *)
Lemma C10_witness_boundary_inputs :
  let fi := PyFloat.FLOAT_IMPL_DOUBLE in
  let self := init 0x40 in
  (PyFloat.leb (PyFloat.lit fi 125 0) (PyFloat.lit fi 125 0) = true /\
   PyFloat.leb (PyFloat.lit fi 125 0) (S754_infinity false) = true /\
   PyFloat.leb (PyFloat.lit fi 100 0) (PyFloat.lit fi 100 0) = true) /\
  set_high_temp fi self (PyFloat.lit fi 125 0)
    = WritetoMem 0x40 TEMP_THR_H x00 (Ret tt) /\
  set_low_temp fi self (S754_infinity false)
    = WritetoMem 0x40 TEMP_THR_L x00 (Ret tt) /\
  set_high_humidity fi self (PyFloat.lit fi 100 0)
    = WritetoMem 0x40 HUMID_THR_H x00 (Ret tt).
Proof.
  intros fi self.
  assert (H1 : PyFloat.leb (PyFloat.lit fi 125 0) (PyFloat.lit fi 125 0) = true)
    by reflexivity.
  assert (H2 : PyFloat.leb (PyFloat.lit fi 125 0) (S754_infinity false) = true)
    by reflexivity.
  assert (H3 : PyFloat.leb (PyFloat.lit fi 100 0) (PyFloat.lit fi 100 0) = true)
    by reflexivity.
  split; [repeat split; assumption|].
  pose proof (C10_upper_boundary_wraps_to_zero fi self
                (PyFloat.lit fi 125 0) (PyFloat.lit fi 100 0) H1 H3) as Ha.
  pose proof (C10_upper_boundary_wraps_to_zero fi self
                (S754_infinity false) (PyFloat.lit fi 100 0) H2 H3) as Hb.
  destruct Ha as (_ & _ & _ & A1 & _ & A3 & _).
  destruct Hb as (_ & _ & _ & _ & B2 & _).
  repeat split; assumption.
Defined.

(** ** Exact float arithmetic on small dyadic numbers *)

Lemma iter_xO_Z (p : positive) : forall m, Zpos (Pos.iter xO m p) = Zpos m * 2 ^ Zpos p.
Proof.
  induction p as [p IH|p IH|]; intros m; cbn [Pos.iter].
  - assert (E : 2 ^ Z.pos p~1 = 2 * (2 ^ Z.pos p * 2 ^ Z.pos p)).
    { rewrite <- Z.pow_add_r by lia. rewrite <- Z.pow_succ_r by lia. f_equal. lia. }
    rewrite Pos2Z.inj_xO, !IH, E. lia.
  - assert (E : 2 ^ Z.pos p~0 = 2 ^ Z.pos p * 2 ^ Z.pos p).
    { rewrite <- Z.pow_add_r by lia. f_equal. lia. }
    rewrite !IH, E. lia.
  - lia.
Qed.

Lemma pshl_Z (m : positive) (n : Z) : 0 <= n -> Zpos (pshl m n) = Zpos m * 2 ^ n.
Proof.
  destruct n as [|p|p]; intros H; cbn [pshl]; [cbn; lia| |lia].
  apply iter_xO_Z.
Qed.

Lemma digits2_iter_xO (p : positive) :
  forall m, Zpos (digits2_pos (Pos.iter xO m p))
            = Zpos (digits2_pos m) + Zpos p.
Proof.
  induction p as [p IH|p IH|]; intros m; cbn [Pos.iter digits2_pos].
  - rewrite Pos2Z.inj_succ, !IH. lia.
  - rewrite !IH. lia.
  - lia.
Qed.

Lemma digits2_pshl (m : positive) (n : Z) :
  0 <= n -> Zpos (digits2_pos (pshl m n)) = Zpos (digits2_pos m) + n.
Proof.
  destruct n as [|p|p]; intros H; cbn [pshl]; [lia| |lia].
  apply digits2_iter_xO.
Qed.

Lemma iter_pos_shr_1 (p : positive) :
  forall m, iter_pos shr_1 p (Build_shr_record (Zpos (Pos.iter xO m p)) false false)
            = Build_shr_record (Zpos m) false false.
Proof.
  induction p as [p IH|p IH|]; intros m; cbn [Pos.iter iter_pos].
  - cbn [shr_1 orb]. rewrite IH. apply IH.
  - rewrite IH. apply IH.
  - reflexivity.
Qed.

Lemma digits2_bounds (m : positive) :
  2 ^ (Zpos (digits2_pos m) - 1) <= Zpos m < 2 ^ Zpos (digits2_pos m).
Proof.
  induction m as [m IH|m IH|]; cbn [digits2_pos].
  - rewrite Pos2Z.inj_succ, Pos2Z.inj_xI.
    replace (Z.succ (Z.pos (digits2_pos m)) - 1) with (Z.succ (Z.pos (digits2_pos m) - 1)) by lia.
    rewrite !Z.pow_succ_r by lia.
    set (P := 2 ^ (Z.pos (digits2_pos m) - 1)) in *.
    set (Q := 2 ^ Z.pos (digits2_pos m)) in *. lia.
  - rewrite Pos2Z.inj_succ. change (Z.pos m~0) with (2 * Z.pos m).
    replace (Z.succ (Z.pos (digits2_pos m)) - 1) with (Z.succ (Z.pos (digits2_pos m) - 1)) by lia.
    rewrite !Z.pow_succ_r by lia.
    set (P := 2 ^ (Z.pos (digits2_pos m) - 1)) in *.
    set (Q := 2 ^ Z.pos (digits2_pos m)) in *. lia.
  - cbn. lia.
Qed.

Lemma digits2_le (m : positive) (k : Z) :
  0 <= k -> Zpos m < 2 ^ k -> Zpos (digits2_pos m) <= k.
Proof.
  intros Hk H. pose proof (digits2_bounds m) as B.
  assert (L : 2 ^ (Zpos (digits2_pos m) - 1) < 2 ^ k) by lia.
  apply Z.pow_lt_mono_r_iff in L; lia.
Qed.

Lemma digits2_mul_ge (a b : positive) :
  Zpos (digits2_pos a) + Zpos (digits2_pos b) - 1 <= Zpos (digits2_pos (a * b)).
Proof.
  pose proof (digits2_bounds a) as A. pose proof (digits2_bounds b) as B.
  pose proof (digits2_bounds (a * b)) as C.
  set (da := Zpos (digits2_pos a)) in *. set (db := Zpos (digits2_pos b)) in *.
  set (dc := Zpos (digits2_pos (a * b))) in *.
  assert (L : 2 ^ (da - 1 + (db - 1)) < 2 ^ dc).
  { rewrite Z.pow_add_r by lia. rewrite Pos2Z.inj_mul in C. nia. }
  apply Z.pow_lt_mono_r_iff in L; lia.
Qed.

Section Exact.
Variables prec emax : Z.
Hypothesis Hprec : 0 < prec.
Hypothesis Hemax : prec < emax.

(** Rounding a mantissa that carries [n] trailing zero bits beyond the
    precision is exact. *)
Lemma binary_round_aux_exact (s : bool) (m0 : positive) (n e : Z) :
  Zpos (digits2_pos m0) = prec -> 0 <= n ->
  SpecFloat.emin prec emax <= e + n -> e + n <= emax - prec ->
  binary_round_aux prec emax s (Zpos (pshl m0 n)) e loc_Exact
  = S754_finite s m0 (e + n).
Proof.
  intros Hd Hn Hlo Hhi. unfold binary_round_aux, shr_fexp.
  cbn [Zdigits2 shr_record_of_loc]. rewrite digits2_pshl by assumption.
  assert (F : SpecFloat.fexp prec emax (Z.pos (digits2_pos m0) + n + e) - e = n)
    by (unfold SpecFloat.fexp, SpecFloat.emin in *; lia).
  rewrite F.
  assert (S1 : shr (Build_shr_record (Zpos (pshl m0 n)) false false) e n
               = (Build_shr_record (Zpos m0) false false, e + n)).
  { destruct n as [|p|p]; cbn [shr pshl]; [f_equal; lia| |lia].
    now rewrite iter_pos_shr_1. }
  rewrite S1. cbn [shr_m loc_of_shr_record round_nearest_even Zdigits2 shr_record_of_loc].
  assert (F2 : SpecFloat.fexp prec emax (Z.pos (digits2_pos m0) + (e + n)) - (e + n) = 0)
    by (unfold SpecFloat.fexp, SpecFloat.emin in *; lia).
  rewrite F2. cbn [shr shr_m].
  apply Z.leb_le in Hhi. now rewrite Hhi.
Qed.

Lemma binary_round_canon (s : bool) (v : positive) (j e : Z) :
  Zpos (digits2_pos v) <= prec -> 0 <= j ->
  SpecFloat.emin prec emax <= e + j + Zpos (digits2_pos v) - prec ->
  e + j + Zpos (digits2_pos v) <= emax ->
  binary_round prec emax s (pshl v j) e = canon prec s v (e + j).
Proof.
  intros Hd Hj Hlo Hhi. unfold binary_round, canon.
  set (d := Zpos (digits2_pos v)) in *.
  rewrite digits2_pshl by assumption. fold d.
  assert (F : SpecFloat.fexp prec emax (d + j + e) = d + j + e - prec)
    by (unfold SpecFloat.fexp, SpecFloat.emin in *; lia).
  rewrite F. unfold shl_align.
  destruct (Z_lt_le_dec (d + j) prec) as [L|L].
  - (* shift left *)
    replace (d + j + e - prec - e) with (- (prec - (d + j))) by lia.
    destruct (prec - (d + j)) as [|k|k] eqn:K; try lia. cbn [Z.opp].
    assert (M : Pos.iter xO (pshl v j) k = pshl v (prec - d)).
    { apply Pos2Z.inj. rewrite iter_xO_Z, !pshl_Z by lia.
      rewrite <- Z.mul_assoc, <- Z.pow_add_r by lia. do 2 f_equal. lia. }
    rewrite M.
    change (Z.pos (pshl v (prec - d))) with (Z.pos (pshl (pshl v (prec - d)) 0)).
    rewrite binary_round_aux_exact; try lia.
    + f_equal. lia.
    + rewrite digits2_pshl by lia. fold d. lia.
  - (* the mantissa already has [prec] bits or more *)
    assert (E : exists q, d + j + e - prec - e = q /\ 0 <= q) by (eexists; split; [reflexivity|lia]).
    destruct E as (q & E & Hq). rewrite E.
    assert (M : pshl v j = pshl (pshl v (prec - d)) (d + j - prec)).
    { apply Pos2Z.inj. rewrite !pshl_Z by lia.
      rewrite <- Z.mul_assoc, <- Z.pow_add_r by lia. do 2 f_equal. lia. }
    assert (R : (let (mz, ez) := match q with Zneg d0 => (Pos.iter xO (pshl v j) d0, d + j + e - prec) | _ => (pshl v j, e) end in
                 binary_round_aux prec emax s (Z.pos mz) ez loc_Exact)
                = binary_round_aux prec emax s (Z.pos (pshl v j)) e loc_Exact)
      by (destruct q; try lia; reflexivity).
    rewrite R, M. rewrite binary_round_aux_exact; try lia.
    + f_equal. lia.
    + rewrite digits2_pshl by lia. fold d. lia.
Qed.

Lemma binary_normalize_canon (v : positive) (e : Z) :
  Zpos (digits2_pos v) <= prec ->
  SpecFloat.emin prec emax <= e + Zpos (digits2_pos v) - prec ->
  e + Zpos (digits2_pos v) <= emax ->
  binary_normalize prec emax (Zpos v) e false = canon prec false v e.
Proof.
  intros Hd Hlo Hhi. cbn [binary_normalize].
  change v with (pshl v 0) at 1. rewrite binary_round_canon; try lia.
  f_equal; lia.
Qed.

(** Multiplication of two canonical floats whose product fits. *)
Lemma mul_canon (s1 s2 : bool) (a b : positive) (e1 e2 : Z) :
  Zpos (digits2_pos (a * b)) <= prec ->
  SpecFloat.emin prec emax <= e1 + e2 + Zpos (digits2_pos (a * b)) - prec ->
  e1 + e2 + Zpos (digits2_pos (a * b)) <= emax ->
  SFmul prec emax (canon prec s1 a e1) (canon prec s2 b e2)
  = canon prec (xorb s1 s2) (a * b) (e1 + e2).
Proof.
  intros Hd Hlo Hhi. pose proof (digits2_mul_ge a b) as G.
  pose proof (digits2_bounds a) as A. pose proof (digits2_bounds b) as B.
  unfold canon. cbn [SFmul].
  set (da := Zpos (digits2_pos a)) in *. set (db := Zpos (digits2_pos b)) in *.
  set (dc := Zpos (digits2_pos (a * b))) in *.
  assert (Pa : 0 < da) by (subst da; lia). assert (Pb : 0 < db) by (subst db; lia).
  assert (M : (pshl a (prec - da) * pshl b (prec - db))%positive
              = pshl (pshl (a * b) (prec - dc)) (prec + dc - da - db)).
  { apply Pos2Z.inj. rewrite Pos2Z.inj_mul, !pshl_Z by lia. rewrite Pos2Z.inj_mul.
    assert (E1 : 2 ^ (prec - da) * 2 ^ (prec - db) = 2 ^ (prec - da + (prec - db)))
      by (rewrite Z.pow_add_r; lia).
    assert (E2 : 2 ^ (prec - dc) * 2 ^ (prec + dc - da - db)
                 = 2 ^ (prec - da + (prec - db)))
      by (rewrite <- Z.pow_add_r by lia; f_equal; lia).
    transitivity (Z.pos a * Z.pos b * (2 ^ (prec - da) * 2 ^ (prec - db))); [ring|].
    rewrite E1, <- E2. ring. }
  rewrite M. rewrite binary_round_aux_exact; try lia.
  - f_equal. lia.
  - rewrite digits2_pshl by lia. fold dc. lia.
Qed.

(** Division of a full-width float by a power of two. *)
Lemma div_pow2 (s : bool) (m : positive) (e k : Z) :
  Zpos (digits2_pos m) = prec ->
  SpecFloat.emin prec emax <= e - k - 1 -> e - k <= emax - prec ->
  SFdiv prec emax (S754_finite s m e) (canon prec false 1 k)
  = S754_finite s m (e - k).
Proof.
  intros Hd Hlo Hhi. unfold canon. cbn [digits2_pos SFdiv].
  unfold SFdiv_core_binary. cbn [Zdigits2].
  rewrite Hd. rewrite digits2_pshl by lia. cbn [digits2_pos].
  assert (F : Z.min (SpecFloat.fexp prec emax (prec + e - (1 + (prec - 1) + (k + 1 - prec))))
                    (e - (k + 1 - prec)) = e - k - 1)
    by (unfold SpecFloat.fexp, SpecFloat.emin in *; lia).
  rewrite F.
  replace (e - (k + 1 - prec) - (e - k - 1)) with prec by lia.
  destruct prec as [|p|p] eqn:Ep; try lia.
  rewrite <- Ep in *.
  assert (D : Z.div_eucl (Z.shiftl (Z.pos m) prec) (Z.pos (pshl 1 (prec - 1)))
              = (Z.pos m~0, 0)).
  { rewrite pshl_Z by lia. rewrite Z.shiftl_mul_pow2 by lia.
    assert (P2 : 2 ^ prec = 2 * 2 ^ (prec - 1)).
    { rewrite <- Z.pow_succ_r by lia. f_equal. lia. }
    assert (Pp : 0 < 2 ^ (prec - 1)) by (apply Z.pow_pos_nonneg; lia).
    destruct (Z.div_eucl (Z.pos m * 2 ^ prec) (1 * 2 ^ (prec - 1))) as [q r] eqn:E.
    pose proof (Z.div_eucl_eq (Z.pos m * 2 ^ prec) (1 * 2 ^ (prec - 1)) ltac:(lia)) as Q.
    pose proof (Z.mod_pos_bound (Z.pos m * 2 ^ prec) (1 * 2 ^ (prec - 1)) ltac:(lia)) as Rb.
    unfold Z.modulo in Rb. rewrite E in Q, Rb.
    rewrite P2 in Q. set (B := 2 ^ (prec - 1)) in *.
    destruct (Z.div_mod_unique B q (Z.pos m~0) r 0) as [-> ->];
      [left; lia | left; lia | change (Z.pos m~0) with (2 * Z.pos m); lia
      | reflexivity]. }
  rewrite Ep at 1. rewrite <- Ep. rewrite D.
  assert (L : new_location (Z.pos (pshl 1 (prec - 1))) 0 = loc_Exact).
  { unfold new_location. destruct (Z.even _); reflexivity. }
  rewrite L. change (Z.pos m~0) with (Z.pos (pshl m 1)).
  rewrite binary_round_aux_exact; try lia.
  - rewrite xorb_false_r. f_equal. lia.
Qed.

Lemma shl_align_fst (m : positive) (e ez : Z) :
  ez <= e -> fst (shl_align m e ez) = pshl m (e - ez).
Proof.
  intros H. unfold shl_align.
  destruct (ez - e) as [|d|d] eqn:E1; try lia.
  - replace (e - ez) with 0 by lia. reflexivity.
  - replace (e - ez) with (Zpos d) by lia. reflexivity.
Qed.

(** Subtraction of two positive canonical floats whose difference fits. *)
Lemma sub_canon (a b : positive) (e1 e2 : Z) :
  let e0 := Z.min e1 e2 in
  let v := Zpos a * 2 ^ (e1 - e0) - Zpos b * 2 ^ (e2 - e0) in
  Zpos (digits2_pos a) <= prec -> Zpos (digits2_pos b) <= prec ->
  Z.abs v < 2 ^ prec ->
  SpecFloat.emin prec emax <= e0 + 1 - prec -> e0 + prec <= emax ->
  SFsub prec emax (canon prec false a e1) (canon prec false b e2)
  = match v with
    | Z0 => S754_zero false
    | Zpos w => canon prec false w e0
    | Zneg w => canon prec true w e0
    end.
Proof.
  intros e0 v Ha Hb Hv Hlo Hhi. unfold canon at 1 2. cbn [SFsub cond_Zopp].
  set (da := Zpos (digits2_pos a)) in *. set (db := Zpos (digits2_pos b)) in *.
  assert (Pa : 0 < da) by (subst da; lia). assert (Pb : 0 < db) by (subst db; lia).
  set (ex := e1 + da - prec). set (ey := e2 + db - prec). set (ez := Z.min ex ey).
  assert (Hz : ez <= e0) by (subst ez ex ey e0; lia).
  rewrite !shl_align_fst by (subst ez; lia).
  assert (Arg : Z.pos (pshl (pshl a (prec - da)) (ex - ez))
                - Z.pos (pshl (pshl b (prec - db)) (ey - ez))
                = v * 2 ^ (e0 - ez)).
  { rewrite !pshl_Z by (subst ez ex ey; lia). subst v.
    rewrite Z.mul_sub_distr_r, <- !Z.mul_assoc, <- !Z.pow_add_r
      by (subst ez ex ey e0; lia).
    f_equal; f_equal; f_equal; subst ex ey; lia. }
  rewrite Arg. clear Arg.
  destruct v as [|w|w] eqn:V.
  - reflexivity.
  - assert (Dw : Zpos (digits2_pos w) <= prec) by (apply digits2_le; lia).
    rewrite <- pshl_Z by lia. cbn [binary_normalize].
    rewrite binary_round_canon; try lia.
    f_equal. lia.
  - assert (Dw : Zpos (digits2_pos w) <= prec) by (apply digits2_le; lia).
    change (Z.neg w) with (- Z.pos w). rewrite Z.mul_opp_l, <- pshl_Z by lia.
    cbn [Z.opp binary_normalize].
    rewrite binary_round_canon; try lia.
    f_equal. lia.
Qed.

End Exact.

(** ** The temperature transfer function *)

Lemma to_Q_canon (prec : Z) (s : bool) (w : positive) (e : Z) :
  Zpos (digits2_pos w) <= prec -> e <= 0 ->
  PyFloat.has_value (canon prec s w e)
    ((if s then Zneg w else Zpos w) # Z.to_pos (2 ^ (- e))).
Proof.
  intros Hd He. unfold PyFloat.has_value, canon, PyFloat.to_Q.
  set (d := Zpos (digits2_pos w)) in *.
  assert (P2 : 0 < 2 ^ (- e)) by (apply Z.pow_pos_nonneg; lia).
  assert (Pm : Zpos (pshl w (prec - d)) = Zpos w * 2 ^ (prec - d))
    by (apply pshl_Z; lia).
  destruct (e + d - prec) as [|p|p] eqn:E; try lia.
  - eexists. split; [reflexivity|].
    assert (e = 0) by lia. subst e. replace (prec - d) with 0 in * by lia.
    cbn [pshl]. destruct s; reflexivity.
  - eexists. split; [reflexivity|].
    unfold Qeq. cbn [Qnum Qden]. rewrite Pos2Z.inj_pow, Z2Pos.id by lia.
    assert (Ep : 2 ^ Z.pos p = 2 ^ (prec - d) * 2 ^ (- e))
      by (rewrite <- Z.pow_add_r by lia; f_equal; lia).
    rewrite Ep. destruct s.
    + change (Z.neg (pshl w (prec - d))) with (- Z.pos (pshl w (prec - d))).
      change (Z.neg w) with (- Z.pos w). rewrite Pm. ring.
    + rewrite Pm. ring.
Qed.

Lemma has_value_Qeq (x : PyFloat.float) (q q' : Q) :
  (q' == q)%Q -> PyFloat.has_value x q -> PyFloat.has_value x q'.
Proof.
  intros E (p & Hp & Hq). exists p. split; [exact Hp|].
  now rewrite Hq, E.
Qed.

Lemma format_facts (fi : PyFloat.float_impl) :
  24 <= PyFloat.prec fi <= 53 /\ PyFloat.prec fi < PyFloat.emax fi /\
  SpecFloat.emin (PyFloat.prec fi) (PyFloat.emax fi) <= - 100 /\
  100 <= PyFloat.emax fi - PyFloat.prec fi /\
  PyFloat.lit fi 165 0 = canon (PyFloat.prec fi) false 165 0 /\
  PyFloat.lit fi 65536 0 = canon (PyFloat.prec fi) false 1 16 /\
  PyFloat.lit fi 81 (-1) = canon (PyFloat.prec fi) false 81 (-1).
Proof. destruct fi; vm_compute; repeat split; discriminate. Qed.

(** No operation of the transfer function rounds. *)
Lemma temp_of_raw_exact (fi : PyFloat.float_impl) (raw : Z) :
  0 <= raw <= 65535 ->
  PyFloat.has_value (temp_of_raw fi raw) (spec_readTemperature raw).
Proof.
  intros [R0 R]. destruct raw as [|r|r]; [| |lia].
  { destruct fi; vm_compute; eauto. }
  destruct (format_facts fi) as ((P24 & P53) & Pe & Emin & Emax & L165 & L65536 & L81).
  unfold temp_of_raw, PyFloat.of_int, PyFloat.mul, PyFloat.div, PyFloat.sub.
  rewrite L165, L65536, L81.
  set (prec := PyFloat.prec fi) in *. set (emax := PyFloat.emax fi) in *.
  assert (Dr : Zpos (digits2_pos r) <= 16) by (apply digits2_le; lia).
  assert (Dm : Zpos (digits2_pos (r * 165)) <= 24)
    by (apply digits2_le; [lia | rewrite Pos2Z.inj_mul; lia]).
  pose proof (Pos2Z.is_pos (digits2_pos r)) as Dr0.
  pose proof (Pos2Z.is_pos (digits2_pos (r * 165))) as Dm0.
  rewrite (binary_normalize_canon prec emax) by lia.
  rewrite (mul_canon prec emax) by lia. cbn [xorb Z.add].
  unfold canon at 1.
  rewrite (div_pow2 prec emax);
    [ | lia | lia | rewrite digits2_pshl by lia; lia | lia | lia ].
  replace (S754_finite false
             (pshl (r * 165) (prec - Z.pos (digits2_pos (r * 165))))
             (0 + Z.pos (digits2_pos (r * 165)) - prec - 16))
    with (canon prec false (r * 165) (-16)) by (unfold canon; f_equal; lia).
  assert (P2 : 16777216 <= 2 ^ prec)
    by (change 16777216 with (2 ^ 24); apply Z.pow_le_mono_r; lia).
  assert (M165 : Z.pos (r * 165) = Z.pos r * 165) by apply Pos2Z.inj_mul.
  rewrite (sub_canon prec emax); try lia; [|cbn; lia|];
    change (Z.min (-16) (-1)) with (-16);
    change (2 ^ (-16 - -16)) with 1; change (2 ^ (-1 - -16)) with 32768;
    [|lia].
  assert (Sp : (spec_readTemperature (Z.pos r)
                == (Z.pos (r * 165) * 1 - 81 * 32768) # 65536)%Q).
  { unfold spec_readTemperature, Qeq, Qminus, Qdiv, Qmult, Qplus, Qopp, Qinv,
      inject_Z. cbn [Qnum Qden]. rewrite !Pos2Z.inj_mul. lia. }
  remember (Z.pos (r * 165) * 1 - 81 * 32768) as v eqn:Ev in *.
  apply (has_value_Qeq _ _ _ Sp).
  destruct v as [|w|w].
  - exists (0 # 1)%Q. split; reflexivity.
  - assert (Dw : Zpos (digits2_pos w) <= prec) by (apply digits2_le; lia).
    exact (to_Q_canon prec false w (-16) Dw ltac:(lia)).
  - assert (Dw : Zpos (digits2_pos w) <= prec) by (apply digits2_le; lia).
    exact (to_Q_canon prec true w (-16) Dw ltac:(lia)).
Qed.

(** The two register bytes form an unsigned 16-bit integer. *)
Lemma raw_of_bytes (l h : byte) :
  let raw := Z.lor (Z.shiftl (int_from_byte h) 8) (int_from_byte l) in
  raw = 256 * int_from_byte h + int_from_byte l /\ 0 <= raw <= 65535.
Proof.
  pose proof (int_from_byte_range l) as Rl.
  pose proof (int_from_byte_range h) as Rh.
  set (L := int_from_byte l) in *. set (H := int_from_byte h) in *.
  assert (N : Z.land (Z.shiftl H 8) L = 0).
  { rewrite <- (land_255_small L) by lia. change 0xFF with (Z.ones 8).
    rewrite (Z.land_comm L), Z.land_assoc, Z.land_ones by lia.
    rewrite Z.shiftl_mul_pow2 by lia. rewrite Z.mod_mul by lia.
    apply Z.land_0_l. }
  pose proof (Z.add_lor_land (Z.shiftl H 8) L) as A.
  rewrite N in A. cbv zeta.
  assert (E : Z.shiftl H 8 = H * 256) by (rewrite Z.shiftl_mul_pow2; lia).
  rewrite E in *. lia.
Qed.

(** C1. For every pair of bytes the transport returns for registers 0x00
    (low) and 0x01 (high), [read_temp] returns the float
    [float(raw) * 165.0 / 65536.0 - 40.5] with [raw = (high << 8) | low],
    an unsigned 16-bit integer.  In either float width no operation of that
    expression rounds, so the result is exactly the rational
    [raw * 165 / 65536 - 40.5], and not the value with offset -40.0. *)
Theorem C1_read_temp_transfer_function
    (fi : PyFloat.float_impl) (self : HDC2080) (S : Type) (P : platform S)
    (s s1 s2 : S) (l h : byte) :
  readfrom_mem P s (addr self) TEMP_LOW = (Some l, s1) ->
  readfrom_mem P s1 (addr self) TEMP_HIGH = (Some h, s2) ->
  let low := int_from_byte l in
  let high := int_from_byte h in
  let raw := Z.lor (Z.shiftl high 8) low in
  raw = 256 * high + low /\ 0 <= raw <= 65535 /\
  exists f : PyFloat.float,
    run P (read_temp fi self) s =
    (Ok f, s2,
     [EvReadfromMem (addr self) TEMP_LOW (Some l);
      EvReadfromMem (addr self) TEMP_HIGH (Some h)]) /\
    f = PyFloat.sub fi
          (PyFloat.div fi
             (PyFloat.mul fi (PyFloat.of_int fi raw) (PyFloat.lit fi 165 0))
             (PyFloat.lit fi 65536 0))
          (PyFloat.lit fi 81 (-1)) /\
    PyFloat.has_value (PyFloat.lit fi 81 (-1)) (405 # 10) /\
    PyFloat.has_value f (spec_readTemperature raw) /\
    ~ PyFloat.has_value f (inject_Z raw * 165 / 65536 - (40 # 1)).
Proof.
  intros Hl Hh low high raw.
  destruct (raw_of_bytes l h) as [Teq Tr]. fold low high raw in Teq, Tr.
  pose proof (temp_of_raw_exact fi raw Tr) as Tv.
  split; [exact Teq|]. split; [exact Tr|].
  exists (temp_of_raw fi raw). split; [|split; [reflexivity|split; [|split]]].
  - unfold read_temp, _read_reg. cbn [bind run]. rewrite Hl, Hh. reflexivity.
  - destruct fi; vm_compute; eauto.
  - exact Tv.
  - intros (q1 & E1 & V1). destruct Tv as (q2 & E2 & V2).
    rewrite E1 in E2. injection E2 as <-. rewrite V1 in V2.
    unfold spec_readTemperature in V2. unfold Qminus in V2.
    apply Qplus_inj_l in V2. vm_compute in V2. discriminate.
Qed.

(** C1 on a register bank holding 0x34 in register 0x00 and 0x12 in
    register 0x01: the raw value is 0x1234. *)
Lemma C1_witness_raw_0x1234 :
  let fi := PyFloat.FLOAT_IMPL_FLOAT in
  let self := init 0x40 in
  let s := device self (fun m => if m =? TEMP_LOW then x34 else x12) 0 in
  (readfrom_mem mock_platform s (addr self) TEMP_LOW = (Some x34, s) /\
   readfrom_mem mock_platform s (addr self) TEMP_HIGH = (Some x12, s)) /\
  Z.lor (Z.shiftl (int_from_byte x12) 8) (int_from_byte x34) = 0x1234 /\
  exists f,
    outcome (run mock_platform (read_temp fi self) s) = Ok f /\
    PyFloat.has_value f (spec_readTemperature 0x1234).
Proof.
  intros fi self s.
  assert (H1 : readfrom_mem mock_platform s (addr self) TEMP_LOW = (Some x34, s))
    by reflexivity.
  assert (H2 : readfrom_mem mock_platform s (addr self) TEMP_HIGH = (Some x12, s))
    by reflexivity.
  split; [split; assumption|]. split; [reflexivity|].
  destruct (C1_read_temp_transfer_function fi self mock mock_platform s s s
              x34 x12 H1 H2) as (_ & _ & f & Hrun & _ & _ & Hv & _).
  exists f. split; [now rewrite Hrun | exact Hv].
Defined.

(** ** Float arithmetic on bounded values: no overflow *)

Lemma pow2_pos_inv (k : Z) : 0 < 2 ^ k -> 0 <= k.
Proof.
  intros H. destruct (Z_lt_le_dec k 0) as [L|L]; [|exact L].
  rewrite Z.pow_neg_r in H by exact L. lia.
Qed.

Lemma pow2_le (a b : Z) : a <= b -> 2 ^ a <= 2 ^ b.
Proof.
  intros H. destruct (Z_lt_le_dec a 0) as [L|L].
  - rewrite (Z.pow_neg_r 2 a) by exact L. apply Z.pow_nonneg. lia.
  - apply Z.pow_le_mono_r; lia.
Qed.

(** [below] is monotone in the bound. *)
Lemma below_mono (K K' : Z) (x : spec_float) : K <= K' -> below K x -> below K' x.
Proof.
  intros H. destruct x as [s|s| |s m e]; cbn; auto.
  intros B. pose proof (pow2_le (K - e) (K' - e) ltac:(lia)). lia.
Qed.

(** [int()] returns on a zero and on a finite float. *)
Lemma below_to_int (K : Z) (x : spec_float) :
  below K x -> exists n, PyFloat.to_int x = Ok n.
Proof. destruct x; cbn; intros H; try contradiction; eauto. Qed.

(** One step of the right shift halves a non-negative mantissa. *)
Lemma shr_1_m (mrs : shr_record) :
  0 <= shr_m mrs -> shr_m (shr_1 mrs) = shr_m mrs / 2.
Proof.
  destruct mrs as [m r s]. cbn [shr_m]. intros H.
  destruct m as [|[p|p|]|p]; cbn [shr_1 shr_m]; try lia.
  - reflexivity.
  - rewrite Pos2Z.inj_xI. apply Z.div_unique with (r := 1); lia.
  - rewrite Pos2Z.inj_xO. apply Z.div_unique with (r := 0); lia.
  - reflexivity.
Qed.

Lemma shr_1_nonneg (mrs : shr_record) : 0 <= shr_m mrs -> 0 <= shr_m (shr_1 mrs).
Proof.
  intros H. rewrite shr_1_m by exact H. apply Z.div_pos; lia.
Qed.

(** [p] steps divide it by [2^p]. *)
Lemma iter_shr_1_m (p : positive) :
  forall mrs, 0 <= shr_m mrs ->
    shr_m (iter_pos shr_1 p mrs) = shr_m mrs / 2 ^ Zpos p.
Proof.
  induction p as [p IH|p IH|]; intros mrs H; cbn [iter_pos].
  - assert (H1 : 0 <= shr_m (shr_1 mrs)) by now apply shr_1_nonneg.
    assert (H2 : 0 <= shr_m (iter_pos shr_1 p (shr_1 mrs)))
      by (rewrite IH by exact H1; apply Z.div_pos; [lia|apply Z.pow_pos_nonneg; lia]).
    rewrite IH by exact H2. rewrite IH by exact H1. rewrite shr_1_m by exact H.
    rewrite !Z.div_div by (try apply Z.pow_pos_nonneg; lia).
    f_equal. change (Z.pos p~1) with (2 * Z.pos p + 1).
    replace (2 * Z.pos p + 1) with (1 + Z.pos p + Z.pos p) by lia.
    rewrite !Z.pow_add_r by lia. lia.
  - assert (H2 : 0 <= shr_m (iter_pos shr_1 p mrs))
      by (rewrite IH by exact H; apply Z.div_pos; [lia|apply Z.pow_pos_nonneg; lia]).
    rewrite IH by exact H2. rewrite IH by exact H.
    rewrite !Z.div_div by (try apply Z.pow_pos_nonneg; lia).
    f_equal. change (Z.pos p~0) with (2 * Z.pos p).
    replace (2 * Z.pos p) with (Z.pos p + Z.pos p) by lia.
    rewrite !Z.pow_add_r by lia. lia.
  - rewrite shr_1_m by exact H. reflexivity.
Qed.

(** A mantissa below [2^(K-e)] has at most [K-e] binary digits. *)
Lemma Zdigits2_le (m e K : Z) :
  0 <= m < 2 ^ (K - e) -> Zdigits2 m + e <= K.
Proof.
  intros [H0 H1].
  assert (P : 0 <= K - e) by (apply pow2_pos_inv; lia).
  destruct m as [|p|p]; cbn [Zdigits2]; try lia.
  pose proof (digits2_le p (K - e) P H1). lia.
Qed.

Section Bounded.
Variables prec emax : Z.
Hypothesis Hprec : 0 < prec.

(** Aligning a mantissa to the exponent of the format keeps it below the
    same power of two. *)
Lemma shr_fexp_below (m e : Z) (l : location) (K : Z) :
  0 <= m < 2 ^ (K - e) -> SpecFloat.emin prec emax <= K ->
  0 <= shr_m (fst (shr_fexp prec emax m e l))
    < 2 ^ (K - snd (shr_fexp prec emax m e l)).
Proof.
  intros Hm Hmin. pose proof (Zdigits2_le m e K Hm) as D.
  unfold shr_fexp, shr.
  assert (M : shr_m (shr_record_of_loc m l) = m) by (destruct l as [|[| |]]; reflexivity).
  destruct (SpecFloat.fexp prec emax (Zdigits2 m + e) - e) as [|p|p] eqn:E;
    cbn [fst snd]; rewrite ?M; try exact Hm.
  assert (F : e + Z.pos p <= K) by (unfold SpecFloat.fexp in E; lia).
  rewrite iter_shr_1_m by (rewrite M; lia). rewrite M.
  assert (P : 0 < 2 ^ Z.pos p) by (apply Z.pow_pos_nonneg; lia).
  split; [apply Z.div_pos; lia|].
  apply Z.div_lt_upper_bound; [exact P|].
  rewrite <- Z.pow_add_r by lia.
  replace (Z.pos p + (K - (e + Z.pos p))) with (K - e) by lia. lia.
Qed.

(** Rounding to nearest adds at most one unit in the last place. *)
Lemma round_nearest_even_bounds (m : Z) (l : location) :
  m <= round_nearest_even m l <= m + 1.
Proof.
  destruct l as [|[| |]]; cbn [round_nearest_even]; try lia.
  destruct (Z.even m); lia.
Qed.

(** Rounding a value below [2^K] gives a zero or a finite float below
    [2^(K+1)]: it does not overflow. *)
Lemma binary_round_aux_below (s : bool) (m e : Z) (l : location) (K : Z) :
  0 <= m < 2 ^ (K - e) ->
  SpecFloat.emin prec emax <= K -> K <= emax - prec ->
  below (K + 1) (binary_round_aux prec emax s m e l).
Proof.
  intros Hm Hmin Hmax. unfold binary_round_aux.
  pose proof (shr_fexp_below m e l K Hm Hmin) as S1.
  destruct (shr_fexp prec emax m e l) as [mrs1 e1]. cbn [fst snd] in S1.
  pose proof (round_nearest_even_bounds (shr_m mrs1) (loc_of_shr_record mrs1)) as R.
  set (m2 := round_nearest_even (shr_m mrs1) (loc_of_shr_record mrs1)) in *.
  assert (P1 : 0 <= K - e1) by (apply pow2_pos_inv; lia).
  assert (H2 : 0 <= m2 < 2 ^ (K + 1 - e1)).
  { replace (K + 1 - e1) with (Z.succ (K - e1)) by lia.
    rewrite Z.pow_succ_r by exact P1. lia. }
  pose proof (shr_fexp_below m2 e1 loc_Exact (K + 1) H2 ltac:(lia)) as S2.
  destruct (shr_fexp prec emax m2 e1 loc_Exact) as [mrs3 e3]. cbn [fst snd] in S2.
  destruct (shr_m mrs3) as [|p|p]; [exact I| |lia].
  assert (P3 : 0 <= K + 1 - e3) by (apply pow2_pos_inv; lia).
  assert (L : e3 <= K).
  { destruct (Z.eq_dec (K + 1 - e3) 0) as [Z0|Z0]; [|lia].
    rewrite Z0 in S2. cbn in S2. lia. }
  assert (Le : (e3 <=? emax - prec) = true) by (apply Z.leb_le; lia).
  rewrite Le. cbn [below]. lia.
Qed.

(** The same for [binary_round], which first aligns the mantissa. *)
Lemma binary_round_below (s : bool) (m : positive) (e : Z) (K : Z) :
  Zpos m < 2 ^ (K - e) ->
  SpecFloat.emin prec emax <= K -> K <= emax - prec ->
  below (K + 1) (binary_round prec emax s m e).
Proof.
  intros Hm Hmin Hmax. unfold binary_round, shl_align.
  destruct (SpecFloat.fexp prec emax (Z.pos (digits2_pos m) + e) - e)
    as [|d|d] eqn:E.
  - apply binary_round_aux_below; auto; lia.
  - apply binary_round_aux_below; auto; lia.
  - apply binary_round_aux_below; auto.
    rewrite iter_xO_Z. split; [lia|].
    set (f := SpecFloat.fexp prec emax (Z.pos (digits2_pos m) + e)) in *.
    assert (P : 0 <= K - e) by (apply pow2_pos_inv; lia).
    replace (K - f) with (K - e + Z.pos d) by lia.
    rewrite Z.pow_add_r by lia.
    assert (Q : 0 < 2 ^ Z.pos d) by (apply Z.pow_pos_nonneg; lia).
    nia.
Qed.

(** The same for [binary_normalize], on a signed mantissa. *)
Lemma binary_normalize_below (m e : Z) (sz : bool) (K : Z) :
  Z.abs m < 2 ^ (K - e) ->
  SpecFloat.emin prec emax <= K -> K <= emax - prec ->
  below (K + 1) (binary_normalize prec emax m e sz).
Proof.
  intros Hm Hmin Hmax.
  destruct m as [|p|p]; cbn [binary_normalize]; [exact I| |];
    apply binary_round_below; auto; lia.
Qed.

(** Aligning a mantissa to a smaller exponent keeps its value. *)
Lemma shl_align_value (m : positive) (e ez : Z) :
  ez <= e -> Zpos (fst (shl_align m e ez)) = Zpos m * 2 ^ (e - ez).
Proof.
  intros H. rewrite shl_align_fst by exact H. apply pshl_Z. lia.
Qed.

Lemma scaled_below (m : positive) (e ez K : Z) :
  ez <= e -> Zpos m < 2 ^ (K - e) -> Zpos m * 2 ^ (e - ez) < 2 ^ (K - ez).
Proof.
  intros H B.
  assert (P : 0 <= K - e) by (apply pow2_pos_inv; lia).
  replace (K - ez) with (K - e + (e - ez)) by lia.
  rewrite Z.pow_add_r by lia.
  assert (Q : 0 < 2 ^ (e - ez)) by (apply Z.pow_pos_nonneg; lia).
  nia.
Qed.

(** The sum of two values below [2^K] is below [2^(K+2)] after rounding. *)
Lemma add_below (x y : spec_float) (K : Z) :
  below K x -> below K y ->
  SpecFloat.emin prec emax <= K -> K + 1 <= emax - prec ->
  below (K + 2) (SFadd prec emax x y).
Proof.
  intros Bx By Hmin Hmax.
  destruct x as [sx|sx| |sx mx ex]; try contradiction;
    destruct y as [sy|sy| |sy my ey]; try contradiction.
  - destruct sx, sy; exact I.
  - cbn [SFadd]. apply below_mono with (K := K); [lia|exact By].
  - cbn [SFadd]. apply below_mono with (K := K); [lia|exact Bx].
  - cbn [SFadd below] in *.
    set (ez := Z.min ex ey).
    replace (K + 2) with (K + 1 + 1) by lia.
    apply binary_normalize_below; try lia.
    rewrite !shl_align_value by (subst ez; lia).
    pose proof (scaled_below mx ex ez K ltac:(subst ez; lia) Bx) as Sx.
    pose proof (scaled_below my ey ez K ltac:(subst ez; lia) By) as Sy.
    assert (Pz : 0 <= K - ez).
    { apply pow2_pos_inv.
      assert (0 < Z.pos mx * 2 ^ (ex - ez))
        by (apply Z.mul_pos_pos; [lia|apply Z.pow_pos_nonneg; subst ez; lia]).
      lia. }
    replace (K + 1 - ez) with (Z.succ (K - ez)) by lia.
    rewrite Z.pow_succ_r by exact Pz.
    set (a := Z.pos mx * 2 ^ (ex - ez)) in *.
    set (b := Z.pos my * 2 ^ (ey - ez)) in *.
    assert (0 < a) by (apply Z.mul_pos_pos; [lia|apply Z.pow_pos_nonneg; subst ez; lia]).
    assert (0 < b) by (apply Z.mul_pos_pos; [lia|apply Z.pow_pos_nonneg; subst ez; lia]).
    destruct sx, sy; cbn [cond_Zopp]; lia.
Qed.

(** The product of a value below [2^K1] and a value below [2^K2] is below
    [2^(K1+K2+1)] after rounding. *)
Lemma mul_below (x y : spec_float) (K1 K2 : Z) :
  below K1 x -> below K2 y ->
  SpecFloat.emin prec emax <= K1 + K2 -> K1 + K2 <= emax - prec ->
  below (K1 + K2 + 1) (SFmul prec emax x y).
Proof.
  intros Bx By Hmin Hmax.
  destruct x as [sx|sx| |sx mx ex]; try contradiction;
    destruct y as [sy|sy| |sy my ey]; try contradiction; try exact I.
  cbn [SFmul below] in *.
  apply binary_round_aux_below; try lia.
  split; [lia|].
  assert (P1 : 0 <= K1 - ex) by (apply pow2_pos_inv; lia).
  assert (P2 : 0 <= K2 - ey) by (apply pow2_pos_inv; lia).
  replace (K1 + K2 - (ex + ey)) with (K1 - ex + (K2 - ey)) by lia.
  rewrite Z.pow_add_r by lia. rewrite Pos2Z.inj_mul. nia.
Qed.

(** The quotient of a value below [2^K] by a finite float whose mantissa has
    [d] digits and exponent [ey], hence at least [2^(d-1+ey)], is below
    [2^(K-(d+ey)+2)] after rounding. *)
Lemma div_below (x : spec_float) (sy : bool) (my : positive) (ey : Z) (K : Z) :
  let Kq := K - (Zpos (digits2_pos my) + ey) + 1 in
  below K x ->
  SpecFloat.emin prec emax <= Kq -> Kq <= emax - prec ->
  below (Kq + 1) (SFdiv prec emax x (S754_finite sy my ey)).
Proof.
  intros Kq Bx Hmin Hmax.
  destruct x as [sx|sx| |sx mx ex]; try contradiction; [exact I|].
  cbn [SFdiv below] in *. unfold SFdiv_core_binary.
  cbn [Zdigits2].
  set (dx := Z.pos (digits2_pos mx)). set (dy := Z.pos (digits2_pos my)) in *.
  set (e' := Z.min (SpecFloat.fexp prec emax (dx + ex - (dy + ey))) (ex - ey)).
  assert (Dx : dx + ex <= K)
    by (apply (Zdigits2_le (Zpos mx) ex K); lia).
  assert (Py : 0 < dy) by (subst dy; lia).
  pose proof (digits2_bounds my) as By. fold dy in By.
  assert (Hs : 0 <= ex - ey - e') by (subst e'; lia).
  assert (He : e' <= Kq) by (subst e' Kq; unfold SpecFloat.fexp; lia).
  assert (M : match ex - ey - e' with
              | 0 => Z.pos mx
              | Z.pos _ => Z.shiftl (Z.pos mx) (ex - ey - e')
              | Z.neg _ => 0
              end = Z.pos mx * 2 ^ (ex - ey - e')).
  { destruct (ex - ey - e') as [|p|p] eqn:E; try lia.
    apply Z.shiftl_mul_pow2. lia. }
  rewrite M. set (s := ex - ey - e') in *.
  set (m' := Z.pos mx * 2 ^ s).
  assert (Pm : 0 < m') by (apply Z.mul_pos_pos; [lia|apply Z.pow_pos_nonneg; lia]).
  pose proof (Z.div_eucl_eq m' (Z.pos my) ltac:(lia)) as Q.
  pose proof (Z.mod_pos_bound m' (Z.pos my) ltac:(lia)) as Rb.
  unfold Z.modulo in Rb.
  destruct (Z.div_eucl m' (Z.pos my)) as [q r].
  apply binary_round_aux_below; try assumption.
  assert (Q0 : 0 <= q) by nia.
  split; [exact Q0|].
  (* q * my <= m' < 2^(K - ex + s) and 2^(dy-1) <= my *)
  assert (U : m' < 2 ^ (K - ex + s)).
  { subst m'. assert (P : 0 <= K - ex) by (apply pow2_pos_inv; lia).
    rewrite Z.pow_add_r by lia.
    assert (0 < 2 ^ s) by (apply Z.pow_pos_nonneg; lia). nia. }
  assert (E : K - ex + s = Kq - e' + (dy - 1)) by (subst s Kq; lia).
  rewrite E in U. rewrite Z.pow_add_r in U by lia.
  set (A := 2 ^ (Kq - e')) in *. set (B := 2 ^ (dy - 1)) in *.
  assert (PB : 0 < B) by (apply Z.pow_pos_nonneg; lia).
  assert (PA : 0 <= A) by (apply Z.pow_nonneg; lia).
  nia.
Qed.

End Bounded.

(** A finite float of the format has at most [prec] mantissa bits. *)
Lemma float_of_width_digits (fi : PyFloat.float_impl) (s : bool) (m : positive)
    (e : Z) :
  float_of_width fi (S754_finite s m e) = true ->
  Zpos m < 2 ^ PyFloat.prec fi.
Proof.
  unfold float_of_width, valid_binary, bounded, canonical_mantissa. intros H.
  apply andb_prop in H. destruct H as [H _]. apply Z.eqb_eq in H.
  pose proof (digits2_bounds m) as B.
  assert (L : Zpos (digits2_pos m) <= PyFloat.prec fi)
    by (unfold SpecFloat.fexp in H; lia).
  pose proof (pow2_le _ _ L). lia.
Qed.

(** The literals of the threshold setters: sign, and position of the
    leading bit. *)
Lemma threshold_literals (fi : PyFloat.float_impl) :
  (exists m, PyFloat.neg (PyFloat.lit fi 40 0)
             = S754_finite true m (6 - PyFloat.prec fi)) /\
  (exists m, PyFloat.lit fi 125 0 = S754_finite false m (7 - PyFloat.prec fi)) /\
  PyFloat.lit fi 0 0 = S754_zero false /\
  (exists m, PyFloat.lit fi 100 0 = S754_finite false m (7 - PyFloat.prec fi)) /\
  below 6 (PyFloat.lit fi 40 0) /\
  below 7 (PyFloat.lit fi 125 0) /\
  below 7 (PyFloat.lit fi 100 0) /\
  below 9 (PyFloat.lit fi 256 0) /\
  (exists m e, PyFloat.lit fi 165 0 = S754_finite false m e /\
               Zpos (digits2_pos m) + e = 8) /\
  (exists m e, PyFloat.lit fi 100 0 = S754_finite false m e /\
               Zpos (digits2_pos m) + e = 7).
Proof.
  destruct fi; vm_compute; repeat split; eauto.
Qed.

(** The clamped value of a number is below [2^7] in magnitude. *)
Lemma clamp_below (fi : PyFloat.float_impl) (x : PyFloat.float) :
  float_of_width fi x = true -> x <> S754_nan ->
  below 7 (clamp (PyFloat.neg (PyFloat.lit fi 40 0)) (PyFloat.lit fi 125 0) x) /\
  below 7 (clamp (PyFloat.lit fi 0 0) (PyFloat.lit fi 100 0) x).
Proof.
  intros V N.
  destruct (threshold_literals fi)
    as ((m40 & L40) & (m125 & L125) & L0 & (m100 & L100) & B40 & B125 & B100 & _).
  assert (Blo : below 7 (PyFloat.neg (PyFloat.lit fi 40 0))).
  { apply below_mono with (K := 6); [lia|].
    destruct (PyFloat.lit fi 40 0); cbn in *; auto. }
  unfold clamp, PyFloat.ltb, PyFloat.gtb, SFltb.
  destruct x as [s|s| |s m e]; [| |congruence|].
  - (* a zero stays *)
    clear. destruct fi, s; vm_compute; auto.
  - (* an infinity becomes the bound on its side *)
    clear. destruct fi, s; vm_compute; auto.
  - pose proof (float_of_width_digits fi s m e V) as D.
    set (prec := PyFloat.prec fi) in *.
    assert (In : e <= 7 - prec -> below 7 (S754_finite s m e)).
    { intros L. cbn [below]. pose proof (pow2_le prec (7 - e) ltac:(lia)). lia. }
    split.
    + destruct (SFcompare (S754_finite s m e) (PyFloat.neg (PyFloat.lit fi 40 0)))
        as [[| |]|] eqn:E1; try exact Blo;
      destruct (SFcompare (PyFloat.lit fi 125 0) (S754_finite s m e))
        as [[| |]|] eqn:E2; try exact B125;
      apply In; rewrite L40 in E1; rewrite L125 in E2; cbn [SFcompare] in E1, E2;
        destruct s;
        try (destruct (Z.compare_spec e (6 - prec)); try discriminate; lia);
        try (destruct (Z.compare_spec (7 - prec) e); try discriminate; lia).
    + destruct (SFcompare (S754_finite s m e) (PyFloat.lit fi 0 0))
        as [[| |]|] eqn:E1; try (rewrite L0; exact I);
      destruct (SFcompare (PyFloat.lit fi 100 0) (S754_finite s m e))
        as [[| |]|] eqn:E2; try exact B100;
      apply In; rewrite L0 in E1; rewrite L100 in E2; cbn [SFcompare] in E1, E2;
        destruct s; try discriminate;
        try (destruct (Z.compare_spec (7 - prec) e); try discriminate; lia).
Qed.

(** For every number of the format the argument of [int()] in the threshold
    setters is finite, so [int()] returns. *)
Lemma threshold_args_finite (fi : PyFloat.float_impl) (x : PyFloat.float) :
  float_of_width fi x = true -> x <> S754_nan ->
  (exists n, PyFloat.to_int (temp_threshold_arg fi x) = Ok n) /\
  (exists n, PyFloat.to_int (humidity_threshold_arg fi x) = Ok n).
Proof.
  intros V N. destruct (clamp_below fi x V N) as [Bt Bh].
  destruct (threshold_literals fi)
    as (_ & _ & _ & _ & B40 & _ & _ & B256 & (m165 & e165 & L165 & D165)
        & (m100 & e100 & L100 & D100)).
  assert (Hp : 0 < PyFloat.prec fi) by (destruct fi; reflexivity).
  assert (Hlo : SpecFloat.emin (PyFloat.prec fi) (PyFloat.emax fi) <= 0)
    by (destruct fi; vm_compute; discriminate).
  assert (Hhi : 32 <= PyFloat.emax fi - PyFloat.prec fi)
    by (destruct fi; vm_compute; discriminate).
  unfold temp_threshold_arg, humidity_threshold_arg. cbv zeta.
  set (t := clamp (PyFloat.neg (PyFloat.lit fi 40 0)) (PyFloat.lit fi 125 0) x) in *.
  set (h := clamp (PyFloat.lit fi 0 0) (PyFloat.lit fi 100 0) x) in *.
  split.
  - assert (B1 : below 9 (PyFloat.add fi t (PyFloat.lit fi 40 0))).
    { apply (add_below _ _ Hp t (PyFloat.lit fi 40 0) 7); try lia; auto.
      apply below_mono with (K := 6); [lia|exact B40]. }
    assert (B2 : below 19 (PyFloat.mul fi (PyFloat.lit fi 256 0)
                             (PyFloat.add fi t (PyFloat.lit fi 40 0)))).
    { apply (mul_below _ _ Hp _ _ 9 9); try lia; auto. }
    rewrite L165.
    eapply below_to_int.
    apply (div_below _ _ Hp _ false m165 e165 19); try lia; exact B2.
  - assert (B2 : below 17 (PyFloat.mul fi (PyFloat.lit fi 256 0) h)).
    { apply (mul_below _ _ Hp _ _ 9 7); try lia; auto. }
    rewrite L100.
    eapply below_to_int.
    apply (div_below _ _ Hp _ false m100 e100 17); try lia; exact B2.
Qed.

(** ** The threshold setters clamp their input *)

(** Strictly below is at or below. *)
Lemma ltb_leb (x y : spec_float) : SFltb x y = true -> SFleb x y = true.
Proof.
  unfold SFltb, SFleb. now destruct (SFcompare x y) as [[| |]|].
Qed.

(** C6. The threshold setters clamp their input and convert the clamped
    value, in either float width.

    - The examples: [set_high_temp(200.0)] and [set_high_temp(125.0)] are
      the same call into the platform, the write of byte 0x00 to register
      0x0B, and [set_low_humidity(-10.0)] and [set_low_humidity(0.0)] are
      the write of byte 0x00 to register 0x0C; run on any platform, the two
      calls of each pair give the same outcome, state and transactions.
    - Inside the range nothing is clamped: [set_high_temp(110.0)] writes
      232 = int(256 * 150 / 165) and [set_high_temp(100.0)] writes 217, so
      the upper bound is not below 110; [set_low_temp(-30.0)] writes 15,
      [set_low_humidity(10.0)] writes 25, [set_high_humidity(90.0)] 230.
    - For every input [x], with [t] the result of the setter's [if] / [elif]
      with bounds -40.0 and 125.0 and [h] the result with bounds 0.0 and
      100.0: each setter converts [t] (resp. [h]) by
      [int(256.0 * (t + 40.0) / 165.0)] (resp. [int(256.0 * h / 100.0)])
      and writes the low byte of the integer to its own register, or raises
      what [int()] raises without touching the bus; the call on [x] is the
      call on [t] (resp. [h]); an input below the lower bound or above the
      upper bound gives the same write as the bound itself; [t] and [h]
      lie inside their range whenever [x] is a number (not NaN); and for
      every number [x] of the float format (the infinities included)
      [int()] returns, so that the call is exactly one write of one byte to
      the setter's register.  The inputs of the examples are such numbers. *)
Theorem C6_threshold_setters_clamp_their_input
    (fi : PyFloat.float_impl) (self : HDC2080) :
  let flt (n : Z) : PyFloat.float := PyFloat.lit fi n 0 in
  let write (reg : Z) (b : byte) : prog unit :=
    WritetoMem (addr self) reg b (Ret tt) in
  let convert (reg : Z) (v : PyFloat.float) : prog unit :=
    match PyFloat.to_int v with
    | Ok n => write reg (low_byte n)
    | Err e => Raise e
    end in
  let raw_of_temp (t : PyFloat.float) : PyFloat.float :=
    PyFloat.div fi
      (PyFloat.mul fi (flt 256) (PyFloat.add fi t (flt 40))) (flt 165) in
  let raw_of_humidity (h : PyFloat.float) : PyFloat.float :=
    PyFloat.div fi (PyFloat.mul fi (flt 256) h) (flt 100) in
  (set_high_temp fi self (flt 200) = write TEMP_THR_H x00 /\
   set_high_temp fi self (flt 125) = write TEMP_THR_H x00 /\
   set_low_humidity fi self (PyFloat.neg (flt 10)) = write HUMID_THR_L x00 /\
   set_low_humidity fi self (flt 0) = write HUMID_THR_L x00) /\
  (float_of_width fi (flt 200) = true /\ flt 200 <> S754_nan /\
   float_of_width fi (PyFloat.neg (flt 10)) = true /\
   PyFloat.neg (flt 10) <> S754_nan) /\
  (forall (S : Type) (P : platform S) (s : S),
      run P (set_high_temp fi self (flt 200)) s
        = run P (set_high_temp fi self (flt 125)) s /\
      trace (run P (set_high_temp fi self (flt 200)) s)
        = [EvWritetoMem (addr self) TEMP_THR_H x00
             (fst (writeto_mem P s (addr self) TEMP_THR_H x00))] /\
      run P (set_low_humidity fi self (PyFloat.neg (flt 10))) s
        = run P (set_low_humidity fi self (flt 0)) s /\
      trace (run P (set_low_humidity fi self (PyFloat.neg (flt 10))) s)
        = [EvWritetoMem (addr self) HUMID_THR_L x00
             (fst (writeto_mem P s (addr self) HUMID_THR_L x00))]) /\
  (set_high_temp fi self (flt 110) = write TEMP_THR_H xe8 /\
   set_high_temp fi self (flt 100) = write TEMP_THR_H xd9 /\
   set_low_temp fi self (PyFloat.neg (flt 30)) = write TEMP_THR_L x0f /\
   set_low_humidity fi self (flt 10) = write HUMID_THR_L x19 /\
   set_high_humidity fi self (flt 90) = write HUMID_THR_H xe6) /\
  forall x : PyFloat.float,
    let t := if PyFloat.ltb x (PyFloat.neg (flt 40)) then PyFloat.neg (flt 40)
             else if PyFloat.gtb x (flt 125) then flt 125
             else x in
    let h := if PyFloat.ltb x (flt 0) then flt 0
             else if PyFloat.gtb x (flt 100) then flt 100
             else x in
    (set_low_temp fi self x = convert TEMP_THR_L (raw_of_temp t) /\
     set_high_temp fi self x = convert TEMP_THR_H (raw_of_temp t) /\
     set_low_humidity fi self x = convert HUMID_THR_L (raw_of_humidity h) /\
     set_high_humidity fi self x = convert HUMID_THR_H (raw_of_humidity h)) /\
    (set_low_temp fi self x = set_low_temp fi self t /\
     set_high_temp fi self x = set_high_temp fi self t /\
     set_low_humidity fi self x = set_low_humidity fi self h /\
     set_high_humidity fi self x = set_high_humidity fi self h) /\
    (PyFloat.ltb x (PyFloat.neg (flt 40)) = true ->
     t = PyFloat.neg (flt 40) /\
     set_low_temp fi self x = write TEMP_THR_L x00 /\
     set_high_temp fi self x = write TEMP_THR_H x00) /\
    (PyFloat.gtb x (flt 125) = true ->
     t = flt 125 /\
     set_low_temp fi self x = write TEMP_THR_L x00 /\
     set_high_temp fi self x = write TEMP_THR_H x00) /\
    (PyFloat.ltb x (flt 0) = true ->
     h = flt 0 /\
     set_low_humidity fi self x = write HUMID_THR_L x00 /\
     set_high_humidity fi self x = write HUMID_THR_H x00) /\
    (PyFloat.gtb x (flt 100) = true ->
     h = flt 100 /\
     set_low_humidity fi self x = write HUMID_THR_L x00 /\
     set_high_humidity fi self x = write HUMID_THR_H x00) /\
    (PyFloat.ltb x (PyFloat.neg (flt 40)) = false ->
     PyFloat.gtb x (flt 125) = false -> t = x) /\
    (PyFloat.ltb x (flt 0) = false ->
     PyFloat.gtb x (flt 100) = false -> h = x) /\
    (x <> S754_nan ->
     PyFloat.leb (PyFloat.neg (flt 40)) t = true /\
     PyFloat.leb t (flt 125) = true /\
     PyFloat.leb (flt 0) h = true /\
     PyFloat.leb h (flt 100) = true) /\
    (float_of_width fi x = true -> x <> S754_nan ->
     (exists n : Z,
         PyFloat.to_int (raw_of_temp t) = Ok n /\
         set_low_temp fi self x = write TEMP_THR_L (low_byte n) /\
         set_high_temp fi self x = write TEMP_THR_H (low_byte n)) /\
     (exists n : Z,
         PyFloat.to_int (raw_of_humidity h) = Ok n /\
         set_low_humidity fi self x = write HUMID_THR_L (low_byte n) /\
         set_high_humidity fi self x = write HUMID_THR_H (low_byte n))).
Proof.
  intros flt write convert raw_of_temp raw_of_humidity.
  assert (Ex : (set_high_temp fi self (flt 200) = write TEMP_THR_H x00 /\
                set_high_temp fi self (flt 125) = write TEMP_THR_H x00 /\
                set_low_humidity fi self (PyFloat.neg (flt 10))
                = write HUMID_THR_L x00 /\
                set_low_humidity fi self (flt 0) = write HUMID_THR_L x00))
    by (destruct fi; repeat split; reflexivity).
  split; [exact Ex|].
  destruct Ex as (E200 & E125 & Em10 & E0).
  split; [destruct fi; repeat split; (reflexivity || discriminate)|].
  split.
  { intros S P s. rewrite E200, E125, Em10, E0. unfold write, trace.
    cbn [run].
    destruct (writeto_mem P s (addr self) TEMP_THR_H x00) as [[|] s1],
      (writeto_mem P s (addr self) HUMID_THR_L x00) as [[|] s2];
      repeat split; reflexivity. }
  split; [destruct fi; repeat split; reflexivity|].
  clear E200 E125 Em10 E0.
  intros x t h.
  assert (Dt : t = clamp (PyFloat.neg (flt 40)) (flt 125) x) by reflexivity.
  assert (Dh : h = clamp (flt 0) (flt 100) x) by reflexivity.
  clearbody t h.
  destruct (temp_bounds_facts fi) as (T1 & T2 & T3 & T4 & T5 & T6 & T7 & T8 & T9).
  destruct (humidity_bounds_facts fi) as (U1 & U2 & U3 & U4 & U5 & U6 & U7 & U8 & U9).
  destruct (literal_shapes fi) as ((m40 & e40 & L40) & (m125 & e125 & L125) & L0
                                    & (m100 & e100 & L100)).
  fold (flt 40) (flt 125) in T1, T2, T3, T4, T5, T6, T7, T8, T9, L40, L125.
  fold (flt 0) (flt 100) in U1, U2, U3, U4, U5, U6, U7, U8, U9, L0, L100.
  assert (Et : clamp (PyFloat.neg (flt 40)) (flt 125) t = t)
    by (rewrite Dt; apply clamp_idem; auto).
  assert (Eh : clamp (flt 0) (flt 100) h = h)
    by (rewrite Dh; apply clamp_idem; auto).
  (* the command tree of each setter, on [x] and on the clamped value *)
  assert (Tx : set_low_temp fi self x = convert TEMP_THR_L (raw_of_temp t) /\
               set_high_temp fi self x = convert TEMP_THR_H (raw_of_temp t) /\
               set_low_humidity fi self x
               = convert HUMID_THR_L (raw_of_humidity h) /\
               set_high_humidity fi self x
               = convert HUMID_THR_H (raw_of_humidity h)).
  { rewrite Dt, Dh. exact (threshold_setter_trees fi self x). }
  assert (Tc : set_low_temp fi self t = convert TEMP_THR_L (raw_of_temp t) /\
               set_high_temp fi self t = convert TEMP_THR_H (raw_of_temp t) /\
               set_low_humidity fi self h
               = convert HUMID_THR_L (raw_of_humidity h) /\
               set_high_humidity fi self h
               = convert HUMID_THR_H (raw_of_humidity h)).
  { destruct (threshold_setter_trees fi self t) as (Y1 & Y2 & _ & _).
    destruct (threshold_setter_trees fi self h) as (_ & _ & Y3 & Y4).
    cbv zeta in Y1, Y2, Y3, Y4.
    unfold temp_threshold_arg, humidity_threshold_arg in Y1, Y2, Y3, Y4.
    fold (flt 40) (flt 125) (flt 0) (flt 100) in Y1, Y2, Y3, Y4.
    rewrite Et in Y1, Y2. rewrite Eh in Y3, Y4. repeat split; assumption. }
  destruct Tx as (X1 & X2 & X3 & X4). destruct Tc as (Y1 & Y2 & Y3 & Y4).
  (* the conversion at the four bounds *)
  assert (B : convert TEMP_THR_L (raw_of_temp (PyFloat.neg (flt 40)))
              = write TEMP_THR_L x00 /\
              convert TEMP_THR_H (raw_of_temp (PyFloat.neg (flt 40)))
              = write TEMP_THR_H x00 /\
              convert TEMP_THR_L (raw_of_temp (flt 125))
              = write TEMP_THR_L x00 /\
              convert TEMP_THR_H (raw_of_temp (flt 125))
              = write TEMP_THR_H x00 /\
              convert HUMID_THR_L (raw_of_humidity (flt 0))
              = write HUMID_THR_L x00 /\
              convert HUMID_THR_H (raw_of_humidity (flt 0))
              = write HUMID_THR_H x00 /\
              convert HUMID_THR_L (raw_of_humidity (flt 100))
              = write HUMID_THR_L x00 /\
              convert HUMID_THR_H (raw_of_humidity (flt 100))
              = write HUMID_THR_H x00)
    by (destruct fi; repeat split; reflexivity).
  destruct B as (B1 & B2 & B3 & B4 & B5 & B6 & B7 & B8).
  split; [repeat split; assumption|].
  split; [repeat split; congruence|].
  split.
  { intros H. assert (C : t = PyFloat.neg (flt 40))
      by (rewrite Dt; unfold clamp; now rewrite H).
    rewrite X1, X2, C. repeat split; assumption. }
  split.
  { intros H. assert (C : t = flt 125).
    { rewrite Dt, L125. rewrite L125 in H.
      apply clamp_at_or_above; [right; rewrite L40; eauto|].
      now apply ltb_leb. }
    rewrite X1, X2, C. repeat split; assumption. }
  split.
  { intros H. assert (C : h = flt 0)
      by (rewrite Dh; unfold clamp; now rewrite H).
    rewrite X3, X4, C. repeat split; assumption. }
  split.
  { intros H. assert (C : h = flt 100).
    { rewrite Dh, L100. rewrite L100 in H.
      apply clamp_at_or_above; [left; exact L0|].
      now apply ltb_leb. }
    rewrite X3, X4, C. repeat split; assumption. }
  split; [intros H1 H2; rewrite Dt; unfold clamp; now rewrite H1, H2|].
  split; [intros H1 H2; rewrite Dh; unfold clamp; now rewrite H1, H2|].
  split.
  { intros Hx. rewrite Dt, Dh. repeat split; now apply clamp_in_range. }
  intros V N.
  destruct (threshold_args_finite fi x V N) as [(n & En) (n' & En')].
  change (PyFloat.to_int
            (raw_of_temp (clamp (PyFloat.neg (flt 40)) (flt 125) x)) = Ok n)
    in En.
  change (PyFloat.to_int (raw_of_humidity (clamp (flt 0) (flt 100) x)) = Ok n')
    in En'.
  rewrite <- Dt in En. rewrite <- Dh in En'.
  split; [exists n|exists n']; (split; [assumption|]).
  - rewrite X1, X2. unfold convert. rewrite En. split; reflexivity.
  - rewrite X3, X4. unfold convert. rewrite En'. split; reflexivity.
Qed.

(** * Further properties of the driver *)

(** ** What a method asks of the platform *)

Lemma issues_run (ok : request -> Prop) {A : Type} (nr nw : nat) (p : prog A) :
  issues ok nr nw p ->
  forall (S : Type) (P : platform S) (s : S),
    Forall (fun ev => ok (request_of ev)) (trace (run P p s)) /\
    (length (reads (trace (run P p s))) <= nr)%nat /\
    (length (writes (trace (run P p s))) <= nw)%nat.
Proof.
  unfold trace.
  induction 1 as [nr nw a|nr nw e|nr nw k Hk _ IH|nr nw a m k Hk _ IH
                 |nr nw a m d k Hk _ IH|nr nw ms k Hk _ IH];
    intros S P s; cbn [run].
  - cbn. repeat split; [constructor|lia|lia].
  - cbn. repeat split; [constructor|lia|lia].
  - destruct (scan P s) as [found s1]. specialize (IH found S P s1).
    destruct (run P (k found) s1) as [[r s2] t]. cbn in *.
    destruct IH as (F & R & W). repeat split; [constructor; assumption|lia|lia].
  - destruct (readfrom_mem P s a m) as [[b|] s1].
    + specialize (IH b S P s1). destruct (run P (k b) s1) as [[r s2] t].
      cbn in *. destruct IH as (F & R & W).
      repeat split; [constructor; assumption|lia|lia].
    + cbn. repeat split; [repeat constructor; assumption|lia|lia].
  - destruct (writeto_mem P s a m d) as [[|] s1].
    + specialize (IH S P s1). destruct (run P k s1) as [[r s2] t].
      cbn in *. destruct IH as (F & R & W).
      repeat split; [constructor; assumption|lia|lia].
    + cbn. repeat split; [repeat constructor; assumption|lia|lia].
  - specialize (IH S P (sleep_ms P s ms)).
    destruct (run P k (sleep_ms P s ms)) as [[r s2] t]. cbn in *.
    destruct IH as (F & R & W). repeat split; [constructor; assumption|lia|lia].
Qed.

Lemma issues_returning (ok : request -> Prop) {A : Type} (inj : A -> value)
    (nr nw : nat) (p : prog A) :
  issues ok nr nw p -> issues ok nr nw (returning inj p).
Proof.
  unfold returning. induction 1; cbn [bind]; auto using @issues.
Qed.

Ltac issues_step :=
  first
    [ apply is_Ret
    | apply is_Raise
    | apply is_Read; [|intro]
    | apply is_Write
    | apply is_Sleep
    | apply is_Scan; [|intro]
    | rewrite write_reg_tree
    | match goal with
      | |- issues _ _ _ (bind (int_of_float ?x) _) =>
          unfold int_of_float; destruct (PyFloat.to_int x)
      end
    | progress cbn [bind] ].

Lemma call_issues (fi : PyFloat.float_impl) (self : HDC2080) (m : method) :
  issues (method_request_ok self m) 2 1 (call fi self m).
Proof.
  destruct m; unfold call; apply issues_returning.
  all: try match goal with |- issues _ _ _ (?f _ _ _) => unfold f end.
  all: try match goal with |- issues _ _ _ (?f _ _) => unfold f end.
  all: try match goal with |- issues _ _ _ (?f _) => unfold f end.
  all: repeat issues_step.
  all: try reflexivity.
  all: cbn [method_request_ok]; split; try reflexivity.
  all: vm_compute; split; discriminate.
Qed.

(** X1. Whatever the platform answers, a call of any public method with any
    arguments makes at most two register reads and at most one register
    write, all at the object's own bus address; every register read is in
    0x00..0x0F (the identification registers are never read either) and
    every register written is in 0x05..0x0F (the measurement and status
    registers 0x00..0x04 are never written); only [reset] sleeps, for 50 ms,
    and only [is_connected] scans the bus. *)
Theorem X1_every_method_stays_within_its_registers
    (fi : PyFloat.float_impl) (self : HDC2080) (m : method)
    (S : Type) (P : platform S) (s : S) :
  let t := trace (run P (call fi self m) s) in
  Forall (fun ev => method_request_ok self m (request_of ev)) t /\
  (length (reads t) <= 2)%nat /\ (length (writes t) <= 1)%nat.
Proof. cbv zeta. apply issues_run, call_issues. Qed.

(** ** Presence check and offset registers *)

(** X2. [is_connected] makes one bus scan and no register transaction, on
    every platform; it returns [True] exactly when the object's address is
    among the addresses the scan returned.  On the fake bus, whose scan
    returns the one device address, it tells whether the object was built
    with that address. *)
Theorem X2_is_connected_scans_once
    (self : HDC2080) (S : Type) (P : platform S) (s : S) :
  (exists b : bool,
      run P (is_connected self) s
      = (Ok b, snd (scan P s), [EvScan (fst (scan P s))]) /\
      (b = true <-> In (addr self) (fst (scan P s)))) /\
  (forall m : mock,
      outcome (run mock_platform (is_connected self) m)
      = Ok (addr self =? dev m)).
Proof.
  split.
  - unfold is_connected. cbn [run]. destruct (scan P s) as [found s1].
    cbn [fst snd]. eexists. split; [reflexivity|].
    rewrite existsb_exists. split.
    + intros (x & Hin & Hx). apply Z.eqb_eq in Hx. now subst x.
    + intros Hin. exists (addr self). split; [exact Hin | apply Z.eqb_refl].
  - intros m. unfold is_connected, outcome. cbn. now rewrite orb_false_r.
Qed.

Lemma run_set_offset {S : Type} (P : platform S) (self : HDC2080)
    (reg value : Z) :
  write_then_read_back P self reg value
    (_write_reg self reg value ;; _read_reg self reg).
Proof.
  intros s. rewrite write_reg_tree. unfold _read_reg. cbn [bind run].
  destruct (writeto_mem P s (addr self) reg (low_byte value)) as [[|] s1];
    [|reflexivity].
  destruct (readfrom_mem P s1 (addr self) reg) as [[b|] s2]; reflexivity.
Qed.

(** X3. The offset setters write the low eight bits of their argument and
    return what the device then reads back, not the argument: on every
    platform [set_temp_offset_adjust(value)] is one write of [value & 0xFF]
    to register 0x08 followed by one read of 0x08 whose byte is the result
    (no read is made when the write fails), and
    [set_humidity_offset_adjust] does the same on 0x09.  On a register bank
    the call returns [value mod 256], which is [value] exactly when
    [0 <= value <= 255]. *)
Theorem X3_offset_setters_return_the_read_back_byte
    (self : HDC2080) (value : Z) :
  (forall (S : Type) (P : platform S),
      write_then_read_back P self TEMP_OFFSET_ADJ value
        (set_temp_offset_adjust self value) /\
      write_then_read_back P self HUM_OFFSET_ADJ value
        (set_humidity_offset_adjust self value)) /\
  (forall (rg : Z -> byte) (ck : Z),
      let rt := run mock_platform (set_temp_offset_adjust self value)
                  (device self rg ck) in
      let rh := run mock_platform (set_humidity_offset_adjust self value)
                  (device self rg ck) in
      outcome rt = Ok (value mod 256) /\
      reg_value (final rt) TEMP_OFFSET_ADJ = value mod 256 /\
      outcome rh = Ok (value mod 256) /\
      reg_value (final rh) HUM_OFFSET_ADJ = value mod 256 /\
      (outcome rt = Ok value <-> 0 <= value <= 255)).
Proof.
  split.
  - intros S P. split; apply run_set_offset.
  - intros rg ck.
    assert (V : int_from_byte (low_byte value) = value mod 256).
    { rewrite low_byte_value. change 0xFF with (Z.ones 8).
      now rewrite Z.land_ones by lia. }
    assert (Rt : run mock_platform (set_temp_offset_adjust self value)
                   (device self rg ck)
                 = (Ok (value mod 256),
                    device self (poke rg TEMP_OFFSET_ADJ (low_byte value)) ck,
                    [EvWritetoMem (addr self) TEMP_OFFSET_ADJ (low_byte value) true;
                     EvReadfromMem (addr self) TEMP_OFFSET_ADJ
                       (Some (low_byte value))])).
    { unfold set_temp_offset_adjust, read_temp_offset_adjust.
      rewrite run_bind, run_write_reg_device, run_read_reg_device.
      cbn [app]. now rewrite poke_same, V. }
    assert (Rh : run mock_platform (set_humidity_offset_adjust self value)
                   (device self rg ck)
                 = (Ok (value mod 256),
                    device self (poke rg HUM_OFFSET_ADJ (low_byte value)) ck,
                    [EvWritetoMem (addr self) HUM_OFFSET_ADJ (low_byte value) true;
                     EvReadfromMem (addr self) HUM_OFFSET_ADJ
                       (Some (low_byte value))])).
    { unfold set_humidity_offset_adjust, read_humidity_offset_adjust.
      rewrite run_bind, run_write_reg_device, run_read_reg_device.
      cbn [app]. now rewrite poke_same, V. }
    cbv zeta. rewrite Rt, Rh. unfold outcome, final, reg_value, device.
    cbn [fst snd regs]. rewrite !poke_same, V.
    do 4 (split; [reflexivity|]). split.
    + intros E. injection E as E. pose proof (Z.mod_pos_bound value 256). lia.
    + intros R. f_equal. apply Z.mod_small. lia.
Qed.

(** ** Bit switches and field setters *)

(** Two read-modify-write calls in a row on the fake device. *)
Lemma rmw_seq_on_device (self : HDC2080) (reg1 reg2 : Z) (f1 f2 : Z -> Z)
    (p1 p2 : prog unit) (rg : Z -> byte) (ck : Z) :
  read_modify_write mock_platform self reg1 f1 p1 ->
  read_modify_write mock_platform self reg2 f2 p2 ->
  let w1 := low_byte (f1 (int_from_byte (rg reg1))) in
  let rg1 := poke rg reg1 w1 in
  let w2 := low_byte (f2 (int_from_byte (rg1 reg2))) in
  run mock_platform (p1 ;; p2) (device self rg ck) =
  (Ok tt, device self (poke rg1 reg2 w2) ck,
   [EvReadfromMem (addr self) reg1 (Some (rg reg1));
    EvWritetoMem (addr self) reg1 w1 true;
    EvReadfromMem (addr self) reg2 (Some (rg1 reg2));
    EvWritetoMem (addr self) reg2 w2 true]).
Proof.
  intros H1 H2 w1 rg1 w2. rewrite run_bind.
  rewrite (rmw_on_device self reg1 f1 p1 rg ck H1). cbv zeta. fold w1. fold rg1.
  rewrite (rmw_on_device self reg2 f2 p2 rg1 ck H2). reflexivity.
Qed.

(** The register a pair of setters leaves behind on the fake device. *)
Lemma rmw_seq_value (self : HDC2080) (reg : Z) (f1 f2 : Z -> Z)
    (p1 p2 : prog unit) (rg : Z -> byte) (ck : Z) :
  read_modify_write mock_platform self reg f1 p1 ->
  read_modify_write mock_platform self reg f2 p2 ->
  let r := run mock_platform (p1 ;; p2) (device self rg ck) in
  outcome r = Ok tt /\
  reg_value (final r) reg
  = Z.land (f2 (Z.land (f1 (int_from_byte (rg reg))) 0xFF)) 0xFF /\
  forall m, m <> reg -> regs (final r) m = rg m.
Proof.
  intros H1 H2. cbv zeta. rewrite (rmw_seq_on_device self reg reg f1 f2 p1 p2 rg ck H1 H2).
  unfold outcome, final, reg_value, device. cbn [fst snd regs].
  split; [reflexivity|]. split.
  - now rewrite !poke_same, !low_byte_value.
  - intros m Hm. now rewrite !poke_other.
Qed.

(** X4. The heater, interrupt-pin and data-ready-interrupt switches and the
    measurement trigger each change one bit.  On every platform the enable
    call is one read and one write of [value | bit] and the disable call one
    read and one write of [value & ~bit], on CONFIG with bit 0x08 (heater)
    and 0x04 (interrupt pin) and on INTERRUPT_CONFIG with bit 0x80 (data
    ready); the byte written differs from the byte read in that bit at most.
    On a register bank, enable then disable leaves the bit clear and disable
    then enable leaves it set, the other bits as they were.
    [trigger_measurement] sets bit 0x01 of MEAS_CFG in the same way. *)
Theorem X4_switches_change_one_bit
    (self : HDC2080) (S : Type) (P : platform S) :
  let switches :=
    [ (enable_heater self, disable_heater self, CONFIG, 0x08);
      (enable_interrupt self, disable_interrupt self, CONFIG, 0x04);
      (enable_drdy_interrupt self, disable_drdy_interrupt self,
       INTERRUPT_CONFIG, 0x80) ] in
  let one_bit (bit v w : Z) (on : bool) : Prop :=
    Z.land w bit = (if on then bit else 0) /\
    Z.land w (Z.lxor 0xFF bit) = Z.land v (Z.lxor 0xFF bit) /\
    (bits_differing v w <= 1)%nat in
  Forall
    (fun '(enable, disable, reg, bit) =>
       read_modify_write P self reg (fun v => Z.lor v bit) enable /\
       read_modify_write P self reg (fun v => Z.land v (Z.lxor 0xFF bit)) disable /\
       (forall c : byte,
           let v := int_from_byte c in
           one_bit bit v (int_from_byte (low_byte (Z.lor v bit))) true /\
           one_bit bit v
             (int_from_byte (low_byte (Z.land v (Z.lxor 0xFF bit)))) false) /\
       (forall (rg : Z -> byte) (ck : Z),
           let v := int_from_byte (rg reg) in
           reg_value (final (run mock_platform (enable ;; disable)
                               (device self rg ck))) reg
           = Z.land v (Z.lxor 0xFF bit) /\
           reg_value (final (run mock_platform (disable ;; enable)
                               (device self rg ck))) reg
           = Z.lor v bit))
    switches /\
  read_modify_write P self MEAS_CFG (fun v => Z.lor v 0x01)
    (trigger_measurement self) /\
  (forall c : byte,
      let v := int_from_byte c in
      one_bit 0x01 v (int_from_byte (low_byte (Z.lor v 0x01))) true).
Proof.
  cbv zeta. split; [|split].
  - repeat apply Forall_cons; try apply Forall_nil.
    all: split; [apply rmw_intro|]; split; [apply rmw_intro|]; split.
    all: try (intros c; rewrite !low_byte_value; by_byte c).
    all: intros rg ck.
    all: match goal with
         | |- reg_value (final (run _ (?p1 ;; ?p2) _)) ?reg = _ /\
              reg_value (final (run _ (?p2 ;; ?p1) _)) ?reg = _ =>
             destruct (rmw_seq_value self reg _ _ p1 p2 rg ck
                         (rmw_intro _ _ _ _) (rmw_intro _ _ _ _))
               as (_ & -> & _);
             destruct (rmw_seq_value self reg _ _ p2 p1 rg ck
                         (rmw_intro _ _ _ _) (rmw_intro _ _ _ _))
               as (_ & -> & _)
         end.
    all: match goal with |- context [int_from_byte ?b] => by_byte b end.
  - apply rmw_intro.
  - intros c. rewrite !low_byte_value. by_byte c.
Qed.

(** X5. [set_measurement_mode] with a code of the enumeration, on every
    platform one read and one write of MEAS_CFG.  TEMP_AND_HUMID writes 00
    and HUMID_ONLY writes 10 into the mode bits 2:1 and both leave every
    other bit as read.  TEMP_ONLY masks with 0xFC and sets 0x02: it sets
    bit 1, clears bit 0 (the measurement trigger) and leaves bit 2 as read,
    so the mode bits become 01 only when bit 2 was clear.  On a register
    bank, HUMID_ONLY followed by TEMP_ONLY leaves the mode bits at 11, and
    [trigger_measurement] followed by TEMP_ONLY leaves the trigger bit
    clear. *)
Theorem X5_measurement_mode_bits
    (self : HDC2080) (S : Type) (P : platform S) :
  read_modify_write P self MEAS_CFG (fun v => Z.land v 0xF9)
    (set_measurement_mode self TEMP_AND_HUMID) /\
  read_modify_write P self MEAS_CFG (fun v => Z.lor (Z.land v 0xFC) 0x02)
    (set_measurement_mode self TEMP_ONLY) /\
  read_modify_write P self MEAS_CFG (fun v => Z.lor (Z.land v 0xFD) 0x04)
    (set_measurement_mode self HUMID_ONLY) /\
  (forall c : byte,
      let v := int_from_byte c in
      let w0 := int_from_byte (low_byte (Z.land v 0xF9)) in
      let w1 := int_from_byte (low_byte (Z.lor (Z.land v 0xFC) 0x02)) in
      let w2 := int_from_byte (low_byte (Z.lor (Z.land v 0xFD) 0x04)) in
      (Z.land w0 0x06 = 0x00 /\ Z.land w0 0xF9 = Z.land v 0xF9) /\
      (Z.land w2 0x06 = 0x04 /\ Z.land w2 0xF9 = Z.land v 0xF9) /\
      (Z.land w1 0x03 = 0x02 /\ Z.land w1 0xFC = Z.land v 0xFC) /\
      (Z.land w1 0x06 = 0x02 <-> Z.land v 0x04 = 0)) /\
  (forall (rg : Z -> byte) (ck : Z),
      let s := device self rg ck in
      Z.land (reg_value (final (run mock_platform
                (set_measurement_mode self HUMID_ONLY ;;
                 set_measurement_mode self TEMP_ONLY) s)) MEAS_CFG) 0x06
      = 0x06 /\
      Z.land (reg_value (final (run mock_platform
                (set_measurement_mode self TEMP_ONLY ;;
                 set_measurement_mode self HUMID_ONLY) s)) MEAS_CFG) 0x06
      = 0x04 /\
      Z.land (reg_value (final (run mock_platform
                (trigger_measurement self ;;
                 set_measurement_mode self TEMP_ONLY) s)) MEAS_CFG) 0x01
      = 0x00).
Proof.
  assert (M0 : forall T (Q : platform T),
             read_modify_write Q self MEAS_CFG (fun v => Z.land v 0xF9)
               (set_measurement_mode self TEMP_AND_HUMID))
    by (intros; apply rmw_intro).
  assert (M1 : forall T (Q : platform T),
             read_modify_write Q self MEAS_CFG
               (fun v => Z.lor (Z.land v 0xFC) 0x02)
               (set_measurement_mode self TEMP_ONLY))
    by (intros; apply rmw_intro).
  assert (M2 : forall T (Q : platform T),
             read_modify_write Q self MEAS_CFG
               (fun v => Z.lor (Z.land v 0xFD) 0x04)
               (set_measurement_mode self HUMID_ONLY))
    by (intros; apply rmw_intro).
  split; [apply M0|]. split; [apply M1|]. split; [apply M2|]. split.
  - intros c. cbv zeta. rewrite !low_byte_value.
    destruct c; vm_compute; repeat split; intros; congruence.
  - intros rg ck. cbv zeta.
    destruct (rmw_seq_value self MEAS_CFG _ _ _ _ rg ck (M2 _ _) (M1 _ _))
      as (_ & -> & _).
    destruct (rmw_seq_value self MEAS_CFG _ _ _ _ rg ck (M1 _ _) (M2 _ _))
      as (_ & -> & _).
    destruct (rmw_seq_value self MEAS_CFG _ _ (trigger_measurement self) _ rg ck
                (rmw_intro _ _ _ _) (M1 _ _)) as (_ & -> & _).
    by_byte (rg MEAS_CFG).
Qed.

Lemma rmw_ext {S : Type} (P : platform S) (self : HDC2080) (reg : Z)
    (f g : Z -> Z) (p : prog unit) :
  read_modify_write P self reg f p ->
  (forall c : byte,
      low_byte (f (int_from_byte c)) = low_byte (g (int_from_byte c))) ->
  read_modify_write P self reg g p.
Proof.
  intros H E s. rewrite H.
  destruct (readfrom_mem P s (addr self) reg) as [[c|] s1]; [|reflexivity].
  cbv zeta. now rewrite E.
Qed.

(** X6. With a code of its enumeration each case-dispatched setter stores
    the code in its bit field and leaves every other bit as read: on every
    platform the call is one read and one write of
    [(value & ~field) | (code << shift)], with field 0xC0 and shift 6 for
    [set_temp_res], 0x30 and 4 for [set_humid_res], 0x70 and 4 for
    [set_rate], 0x02 and 1 for [set_interrupt_polarity], 0x01 and 0 for
    [set_interrupt_mode]. *)
Theorem X6_valid_code_is_stored_in_its_field
    (self : HDC2080) (S : Type) (P : platform S)
    (t_res h_res rate polarity i_mode : Z) :
  FOURTEEN_BIT <= t_res <= NINE_BIT ->
  FOURTEEN_BIT <= h_res <= NINE_BIT ->
  MANUAL <= rate <= FIVE_HZ ->
  ACTIVE_LOW <= polarity <= ACTIVE_HIGH ->
  LEVEL_MODE <= i_mode <= COMPARATOR_MODE ->
  let setters :=
    [ (set_temp_res self t_res, MEAS_CFG, 0xC0, Z.shiftl t_res 6);
      (set_humid_res self h_res, MEAS_CFG, 0x30, Z.shiftl h_res 4);
      (set_rate self rate, CONFIG, 0x70, Z.shiftl rate 4);
      (set_interrupt_polarity self polarity, CONFIG, 0x02, Z.shiftl polarity 1);
      (set_interrupt_mode self i_mode, CONFIG, 0x01, Z.shiftl i_mode 0) ] in
  Forall
    (fun '(p, reg, field, pattern) =>
       read_modify_write P self reg
         (fun v => Z.lor (Z.land v (Z.lxor 0xFF field)) pattern) p /\
       (forall c : byte,
           let v := int_from_byte c in
           let w := int_from_byte
                      (low_byte (Z.lor (Z.land v (Z.lxor 0xFF field)) pattern)) in
           Z.land w field = pattern /\
           Z.land w (Z.lxor 0xFF field) = Z.land v (Z.lxor 0xFF field)))
    setters.
Proof.
  unfold FOURTEEN_BIT, NINE_BIT, MANUAL, FIVE_HZ, ACTIVE_LOW, ACTIVE_HIGH,
    LEVEL_MODE, COMPARATOR_MODE.
  intros Ht Hh Hr Hp Hi. cbv zeta.
  assert (Et : t_res = 0 \/ t_res = 1 \/ t_res = 2) by lia.
  assert (Eh : h_res = 0 \/ h_res = 1 \/ h_res = 2) by lia.
  assert (Er : rate = 0 \/ rate = 1 \/ rate = 2 \/ rate = 3 \/ rate = 4 \/
               rate = 5 \/ rate = 6 \/ rate = 7) by lia.
  assert (Ep : polarity = 0 \/ polarity = 1) by lia.
  assert (Ei : i_mode = 0 \/ i_mode = 1) by lia.
  clear Ht Hh Hr Hp Hi.
  repeat apply Forall_cons; try apply Forall_nil.
  - clear Eh Er Ep Ei.
    split; [eapply rmw_ext; [apply rmw_intro|] |]; intros c;
      intuition subst; cbv zeta; rewrite ?low_byte_value; by_byte c.
  - clear Et Er Ep Ei.
    split; [eapply rmw_ext; [apply rmw_intro|] |]; intros c;
      intuition subst; cbv zeta; rewrite ?low_byte_value; by_byte c.
  - clear Et Eh Ep Ei.
    split; [eapply rmw_ext; [apply rmw_intro|] |]; intros c;
      intuition subst; cbv zeta; rewrite ?low_byte_value; by_byte c.
  - clear Et Eh Er Ei.
    split; [eapply rmw_ext; [apply rmw_intro|] |]; intros c;
      intuition subst; cbv zeta; rewrite ?low_byte_value; by_byte c.
  - clear Et Eh Er Ep.
    split; [eapply rmw_ext; [apply rmw_intro|] |]; intros c;
      intuition subst; cbv zeta; rewrite ?low_byte_value; by_byte c.
Qed.

(** X6 at the largest codes: 9 bit for both resolutions, 5 Hz, active high,
    comparator mode. *)
Lemma X6_witness_largest_codes :
  (FOURTEEN_BIT <= NINE_BIT <= NINE_BIT /\
   MANUAL <= FIVE_HZ <= FIVE_HZ /\
   ACTIVE_LOW <= ACTIVE_HIGH <= ACTIVE_HIGH /\
   LEVEL_MODE <= COMPARATOR_MODE <= COMPARATOR_MODE) /\
  read_modify_write mock_platform (init 0x40) CONFIG
    (fun v => Z.lor (Z.land v (Z.lxor 0xFF 0x70)) (Z.shiftl FIVE_HZ 4))
    (set_rate (init 0x40) FIVE_HZ).
Proof.
  assert (H1 : FOURTEEN_BIT <= NINE_BIT <= NINE_BIT) by (vm_compute; intuition discriminate).
  assert (H2 : MANUAL <= FIVE_HZ <= FIVE_HZ) by (vm_compute; intuition discriminate).
  assert (H3 : ACTIVE_LOW <= ACTIVE_HIGH <= ACTIVE_HIGH)
    by (vm_compute; intuition discriminate).
  assert (H4 : LEVEL_MODE <= COMPARATOR_MODE <= COMPARATOR_MODE)
    by (vm_compute; intuition discriminate).
  split; [repeat split; first [apply H1 | apply H2 | apply H3 | apply H4]|].
  pose proof (X6_valid_code_is_stored_in_its_field
                (init 0x40) mock mock_platform
                NINE_BIT NINE_BIT FIVE_HZ ACTIVE_HIGH COMPARATOR_MODE
                H1 H1 H2 H3 H4) as H.
  cbv zeta in H.
  apply Forall_inv_tail, Forall_inv_tail, Forall_inv in H.
  exact (proj1 H).
Defined.

(** Case analysis over the branches of the case dispatches, then over the
    byte read. *)
Ltac by_codes c :=
  repeat match goal with
         | |- context [?a =? ?b] => destruct (a =? b); cbv beta iota
         end;
  by_byte c.

(** X7. Setters of different fields of one register commute on a register
    bank: for all arguments, also outside the enumerations, the two
    resolution setters leave the same register contents in either order,
    and so do [set_rate], [set_interrupt_polarity] and [set_interrupt_mode]
    pairwise. *)
Theorem X7_field_setters_commute
    (self : HDC2080) (rg : Z -> byte) (ck : Z)
    (t_res h_res rate polarity i_mode : Z) :
  let after (p q : prog unit) (m : Z) : byte :=
    regs (final (run mock_platform (p ;; q) (device self rg ck))) m in
  forall m : Z,
    after (set_temp_res self t_res) (set_humid_res self h_res) m
    = after (set_humid_res self h_res) (set_temp_res self t_res) m /\
    after (set_rate self rate) (set_interrupt_polarity self polarity) m
    = after (set_interrupt_polarity self polarity) (set_rate self rate) m /\
    after (set_rate self rate) (set_interrupt_mode self i_mode) m
    = after (set_interrupt_mode self i_mode) (set_rate self rate) m /\
    after (set_interrupt_polarity self polarity) (set_interrupt_mode self i_mode) m
    = after (set_interrupt_mode self i_mode)
        (set_interrupt_polarity self polarity) m.
Proof.
  cbv zeta. intros m.
  assert (K : forall reg f1 f2 p1 p2,
             read_modify_write mock_platform self reg f1 p1 ->
             read_modify_write mock_platform self reg f2 p2 ->
             (forall c : byte,
                 let v := int_from_byte c in
                 Z.land (f2 (Z.land (f1 v) 0xFF)) 0xFF
                 = Z.land (f1 (Z.land (f2 v) 0xFF)) 0xFF) ->
             regs (final (run mock_platform (p1 ;; p2) (device self rg ck))) m
             = regs (final (run mock_platform (p2 ;; p1) (device self rg ck))) m).
  { intros reg f1 f2 p1 p2 H1 H2 E.
    destruct (rmw_seq_value self reg f1 f2 p1 p2 rg ck H1 H2) as (_ & V12 & O12).
    destruct (rmw_seq_value self reg f2 f1 p2 p1 rg ck H2 H1) as (_ & V21 & O21).
    destruct (Z.eq_dec m reg) as [->|N].
    - apply int_from_byte_inj. unfold reg_value in V12, V21.
      rewrite V12, V21. apply E.
    - now rewrite O12, O21. }
  repeat split.
  - apply (K MEAS_CFG _ _ _ _ (set_temp_res_rmw _ self t_res)
             (set_humid_res_rmw _ self h_res)).
    intros c. cbv zeta. unfold FOURTEEN_BIT, ELEVEN_BIT, NINE_BIT.
    by_codes c.
  - apply (K CONFIG _ _ _ _ (rmw_intro _ self CONFIG _) (rmw_intro _ self CONFIG _)).
    intros c. cbv zeta.
    unfold MANUAL, TWO_MINS, ONE_MINS, TEN_SECONDS, FIVE_SECONDS, ONE_HZ, TWO_HZ,
      FIVE_HZ, ACTIVE_LOW, ACTIVE_HIGH.
    by_codes c.
  - apply (K CONFIG _ _ _ _ (rmw_intro _ self CONFIG _) (rmw_intro _ self CONFIG _)).
    intros c. cbv zeta.
    unfold MANUAL, TWO_MINS, ONE_MINS, TEN_SECONDS, FIVE_SECONDS, ONE_HZ, TWO_HZ,
      FIVE_HZ, LEVEL_MODE, COMPARATOR_MODE.
    by_codes c.
  - apply (K CONFIG _ _ _ _ (rmw_intro _ self CONFIG _) (rmw_intro _ self CONFIG _)).
    intros c. cbv zeta. unfold ACTIVE_LOW, ACTIVE_HIGH, LEVEL_MODE, COMPARATOR_MODE.
    by_codes c.
Qed.

(** ** The 16-bit transfer functions: exact values and ranges *)

Lemma format_facts_more (fi : PyFloat.float_impl) :
  PyFloat.lit fi 100 0 = canon (PyFloat.prec fi) false 100 0 /\
  PyFloat.lit fi 256 0 = canon (PyFloat.prec fi) false 1 8 /\
  PyFloat.lit fi 40 0 = canon (PyFloat.prec fi) false 40 0.
Proof. destruct fi; vm_compute; repeat split. Qed.

(** No operation of the humidity transfer function rounds. *)
Lemma humidity_of_raw_exact (fi : PyFloat.float_impl) (raw : Z) :
  0 <= raw <= 65535 ->
  PyFloat.has_value (humidity_of_raw fi raw) ((raw * 100) # 65536).
Proof.
  intros [R0 R]. destruct raw as [|r|r]; [| |lia].
  { destruct fi; vm_compute; eauto. }
  destruct (format_facts fi) as ((P24 & P53) & Pe & Emin & Emax & _ & L65536 & _).
  destruct (format_facts_more fi) as (L100 & _).
  unfold humidity_of_raw, PyFloat.of_int, PyFloat.mul, PyFloat.div.
  rewrite L100, L65536.
  set (prec := PyFloat.prec fi) in *. set (emax := PyFloat.emax fi) in *.
  assert (Dr : Zpos (digits2_pos r) <= 16) by (apply digits2_le; lia).
  assert (Dm : Zpos (digits2_pos (r * 100)) <= 24)
    by (apply digits2_le; [lia | rewrite Pos2Z.inj_mul; lia]).
  pose proof (Pos2Z.is_pos (digits2_pos r)) as Dr0.
  pose proof (Pos2Z.is_pos (digits2_pos (r * 100))) as Dm0.
  rewrite (binary_normalize_canon prec emax) by lia.
  unfold canon at 1.
  rewrite (div_pow2 prec emax);
    [ | lia | lia | rewrite digits2_pshl by lia; lia | lia | lia ].
  replace (S754_finite false (pshl r (prec - Z.pos (digits2_pos r)))
             (0 + Z.pos (digits2_pos r) - prec - 16))
    with (canon prec false r (-16)) by (unfold canon; f_equal; lia).
  rewrite (mul_canon prec emax) by lia. cbn [xorb].
  exact (to_Q_canon prec false (r * 100) (-16 + 0) ltac:(lia) ltac:(lia)).
Qed.

Lemma spec_readTemperature_fraction (raw : Z) :
  (spec_readTemperature raw == (raw * 165 - 2654208) # 65536)%Q.
Proof.
  unfold spec_readTemperature, Qeq, Qminus, Qdiv, Qmult, Qplus, Qopp, Qinv,
    inject_Z. cbn [Qnum Qden]. rewrite !Pos2Z.inj_mul. lia.
Qed.

(** X8. For every pair of bytes the transport returns for registers 0x02
    (low) and 0x03 (high), [read_humidity] returns
    [float(raw) / 65536.0 * 100.0] with [raw = (high << 8) | low]; in either
    float width no operation rounds, so the result is exactly the rational
    [raw * 100 / 65536].  It is never negative and always below 100. *)
Theorem X8_read_humidity_is_exact_and_below_100
    (fi : PyFloat.float_impl) (self : HDC2080) (S : Type) (P : platform S)
    (s s1 s2 : S) (l h : byte) :
  readfrom_mem P s (addr self) HUMID_LOW = (Some l, s1) ->
  readfrom_mem P s1 (addr self) HUMID_HIGH = (Some h, s2) ->
  let raw := Z.lor (Z.shiftl (int_from_byte h) 8) (int_from_byte l) in
  exists (f : PyFloat.float) (q : Q),
    run P (read_humidity fi self) s =
    (Ok f, s2,
     [EvReadfromMem (addr self) HUMID_LOW (Some l);
      EvReadfromMem (addr self) HUMID_HIGH (Some h)]) /\
    PyFloat.to_Q f = Some q /\
    (q == inject_Z raw / 65536 * 100)%Q /\
    (0 <= q)%Q /\ (q < 100)%Q /\
    ((q == 0)%Q <-> raw = 0).
Proof.
  intros Hl Hh raw.
  destruct (raw_of_bytes l h) as [_ Tr]. fold raw in Tr.
  destruct (humidity_of_raw_exact fi raw Tr) as (q & Eq & Vq).
  exists (humidity_of_raw fi raw), q. split; [|split; [exact Eq|]].
  - unfold read_humidity, _read_reg. cbn [bind run]. rewrite Hl, Hh. reflexivity.
  - rewrite Vq. unfold Qeq, Qle, Qlt, Qdiv, Qmult, Qinv, inject_Z.
    cbn [Qnum Qden]. rewrite ?Pos2Z.inj_mul. repeat split; lia.
Qed.

(** X8 on a register bank holding 0xFF in both humidity registers: the raw
    value is 65535, the largest. *)
Lemma X8_witness_full_scale :
  let fi := PyFloat.FLOAT_IMPL_FLOAT in
  let self := init 0x40 in
  let s := device self (fun _ => xff) 0 in
  (readfrom_mem mock_platform s (addr self) HUMID_LOW = (Some xff, s) /\
   readfrom_mem mock_platform s (addr self) HUMID_HIGH = (Some xff, s)) /\
  exists f q,
    outcome (run mock_platform (read_humidity fi self) s) = Ok f /\
    PyFloat.to_Q f = Some q /\ (q == inject_Z 65535 / 65536 * 100)%Q /\
    (q < 100)%Q.
Proof.
  intros fi self s.
  assert (H1 : readfrom_mem mock_platform s (addr self) HUMID_LOW = (Some xff, s))
    by reflexivity.
  assert (H2 : readfrom_mem mock_platform s (addr self) HUMID_HIGH = (Some xff, s))
    by reflexivity.
  split; [split; assumption|].
  destruct (X8_read_humidity_is_exact_and_below_100 fi self mock mock_platform
              s s s xff xff H1 H2) as (f & q & Hrun & Hq & Hv & _ & Hlt & _).
  exists f, q. repeat split; [now rewrite Hrun | exact Hq | exact Hv | exact Hlt].
Defined.

(** X9. The value [read_temp] returns lies between -40.5 and 124.5: for
    every pair of bytes read it is at least -40.5, reached only for raw
    value 0, and below 124.5, in either float width. *)
Theorem X9_read_temp_range
    (fi : PyFloat.float_impl) (self : HDC2080) (S : Type) (P : platform S)
    (s s1 s2 : S) (l h : byte) :
  readfrom_mem P s (addr self) TEMP_LOW = (Some l, s1) ->
  readfrom_mem P s1 (addr self) TEMP_HIGH = (Some h, s2) ->
  let raw := Z.lor (Z.shiftl (int_from_byte h) 8) (int_from_byte l) in
  exists (f : PyFloat.float) (q : Q),
    outcome (run P (read_temp fi self) s) = Ok f /\
    PyFloat.to_Q f = Some q /\
    (- (405 # 10) <= q)%Q /\ (q < 1245 # 10)%Q /\
    ((q == - (405 # 10))%Q <-> raw = 0).
Proof.
  intros Hl Hh raw.
  destruct (raw_of_bytes l h) as [_ Tr]. fold raw in Tr.
  destruct (temp_of_raw_exact fi raw Tr) as (q & Eq & Vq).
  exists (temp_of_raw fi raw), q. split; [|split; [exact Eq|]].
  - unfold read_temp, _read_reg, outcome. cbn [bind run]. rewrite Hl, Hh.
    reflexivity.
  - rewrite Vq, spec_readTemperature_fraction. unfold Qeq, Qle, Qlt, Qopp.
    cbn [Qnum Qden]. repeat split; lia.
Qed.

(** X9 on a register bank holding 0x00 in both temperature registers: the
    value returned is -40.5. *)
Lemma X9_witness_raw_zero :
  let fi := PyFloat.FLOAT_IMPL_DOUBLE in
  let self := init 0x40 in
  let s := device self (fun _ => x00) 0 in
  (readfrom_mem mock_platform s (addr self) TEMP_LOW = (Some x00, s) /\
   readfrom_mem mock_platform s (addr self) TEMP_HIGH = (Some x00, s)) /\
  exists f q,
    outcome (run mock_platform (read_temp fi self) s) = Ok f /\
    PyFloat.to_Q f = Some q /\ (q == - (405 # 10))%Q.
Proof.
  intros fi self s.
  assert (H1 : readfrom_mem mock_platform s (addr self) TEMP_LOW = (Some x00, s))
    by reflexivity.
  assert (H2 : readfrom_mem mock_platform s (addr self) TEMP_HIGH = (Some x00, s))
    by reflexivity.
  split; [split; assumption|].
  destruct (X9_read_temp_range fi self mock mock_platform s s s x00 x00 H1 H2)
    as (f & q & Hrun & Hq & _ & _ & Hz).
  exists f, q. repeat split; [exact Hrun | exact Hq | now apply Hz].
Defined.

(** ** The one-byte conversions *)

Lemma all_below_spec (n : nat) (P : Z -> bool) :
  all_below n P = true -> forall v, 0 <= v < Z.of_nat n -> P v = true.
Proof.
  unfold all_below. intros H v Hv. rewrite forallb_forall in H. apply H.
  apply in_map_iff. exists (Z.to_nat v). split; [lia|]. apply in_seq. lia.
Qed.

Lemma has_valueb_sound (x : PyFloat.float) (q : Q) :
  has_valueb x q = true -> PyFloat.has_value x q.
Proof.
  unfold has_valueb, PyFloat.has_value.
  destruct (PyFloat.to_Q x) as [q'|]; [|discriminate].
  intros H. exists q'. split; [reflexivity|]. now apply Qeq_bool_iff.
Qed.

Lemma float_eqb_eq (x y : PyFloat.float) : float_eqb x y = true -> x = y.
Proof.
  destruct x as [a|a| |a m e], y as [b|b| |b m' e']; cbn; try discriminate;
    try reflexivity.
  - intros H. apply eqb_prop in H. now subst.
  - intros H. apply eqb_prop in H. now subst.
  - intros H. apply andb_true_iff in H. destruct H as [H He].
    apply andb_true_iff in H. destruct H as [Hs Hm].
    apply eqb_prop in Hs. apply Pos.eqb_eq in Hm. apply Z.eqb_eq in He.
    now subst.
Qed.

Lemma int_is_sound (r : result Z) (k : Z) : int_is r k = true -> r = Ok k.
Proof.
  destruct r as [n|e]; cbn; [|discriminate]. intros H. apply Z.eqb_eq in H.
  now subst.
Qed.

Lemma byte_codes_checked (fi : PyFloat.float_impl) :
  all_below 256 (byte_code_checks fi) = true.
Proof. destruct fi; vm_compute; reflexivity. Qed.

Lemma byte_code_facts (fi : PyFloat.float_impl) (c : byte) :
  let v := int_from_byte c in
  PyFloat.has_value (temp_of_code fi v) ((v * 165 - 10240) # 256) /\
  PyFloat.has_value (humidity_of_code fi v) ((v * 100) # 256) /\
  max_humidity_of_code fi v = humidity_of_code fi v /\
  PyFloat.to_int (temp_threshold_arg fi (temp_of_code fi v)) = Ok v /\
  PyFloat.to_int (humidity_threshold_arg fi (humidity_of_code fi v)) = Ok v.
Proof.
  cbv zeta.
  pose proof (all_below_spec 256 _ (byte_codes_checked fi) (int_from_byte c)
                (int_from_byte_range c)) as H.
  unfold byte_code_checks in H.
  repeat (apply andb_true_iff in H; destruct H as [H ?]).
  repeat split; auto using has_valueb_sound, float_eqb_eq, int_is_sound.
Qed.

Lemma reader_intro {S A : Type} (P : platform S) (self : HDC2080) (reg : Z)
    (g : Z -> A) :
  reads_and_converts P self reg g (v <- _read_reg self reg ;; Ret (g v)).
Proof.
  intros s. unfold _read_reg. cbn [bind run].
  destruct (readfrom_mem P s (addr self) reg) as [[b|] s1]; reflexivity.
Qed.

(** X10. The six one-byte readers are each one read of their register and a
    conversion of its value [v], on every platform: [read_max_temp],
    [read_low_temp_threshold] and [read_high_temp_threshold] return
    [float(v) * 165.0 / 256.0 - 40.0], the two humidity threshold readers
    [float(v) * 100.0 / 256.0] and [read_max_humidity]
    [float(v) / 256.0 * 100.0].  For every register value and either float
    width nothing rounds: the temperature results are exactly
    [v * 165 / 256 - 40], so between -40 and 124.36, and the humidity
    results exactly [v * 100 / 256], so between 0 and 99.61; the two
    humidity formulas return the same float. *)
Theorem X10_one_byte_readers_are_exact
    (fi : PyFloat.float_impl) (self : HDC2080) (S : Type) (P : platform S) :
  (reads_and_converts P self TEMP_MAX (temp_of_code fi) (read_max_temp fi self) /\
   reads_and_converts P self TEMP_THR_L (temp_of_code fi)
     (read_low_temp_threshold fi self) /\
   reads_and_converts P self TEMP_THR_H (temp_of_code fi)
     (read_high_temp_threshold fi self) /\
   reads_and_converts P self HUMID_THR_L (humidity_of_code fi)
     (read_low_humidity_threshold fi self) /\
   reads_and_converts P self HUMID_THR_H (humidity_of_code fi)
     (read_high_humidity_threshold fi self) /\
   reads_and_converts P self HUMID_MAX (max_humidity_of_code fi)
     (read_max_humidity fi self)) /\
  forall c : byte,
    let v := int_from_byte c in
    (exists q, PyFloat.to_Q (temp_of_code fi v) = Some q /\
               (q == inject_Z v * 165 / 256 - 40)%Q /\
               (- (40 # 1) <= q)%Q /\ (q <= 12436 # 100)%Q) /\
    (exists q, PyFloat.to_Q (humidity_of_code fi v) = Some q /\
               (q == inject_Z v * 100 / 256)%Q /\
               (0 <= q)%Q /\ (q <= 9961 # 100)%Q) /\
    max_humidity_of_code fi v = humidity_of_code fi v.
Proof.
  split.
  - repeat split; apply reader_intro.
  - intros c. cbv zeta.
    destruct (byte_code_facts fi c) as ((qt & Et & Vt) & (qh & Eh & Vh) & M & _).
    pose proof (int_from_byte_range c) as R.
    split; [|split; [|exact M]].
    + exists qt. split; [exact Et|]. rewrite Vt.
      unfold Qeq, Qle, Qminus, Qplus, Qopp, Qdiv, Qmult, Qinv, inject_Z.
      cbn [Qnum Qden]. rewrite ?Pos2Z.inj_mul. repeat split; lia.
    + exists qh. split; [exact Eh|]. rewrite Vh.
      unfold Qeq, Qle, Qdiv, Qmult, Qinv, inject_Z.
      cbn [Qnum Qden]. rewrite ?Pos2Z.inj_mul. repeat split; lia.
Qed.

(** ** Threshold setters: round trips and boundaries *)

Lemma run_reader_device {A : Type} (self : HDC2080) (reg : Z) (g : Z -> A)
    (p : prog A) (rg : Z -> byte) (ck : Z) :
  reads_and_converts mock_platform self reg g p ->
  run mock_platform p (device self rg ck) =
  (Ok (g (int_from_byte (rg reg))), device self rg ck,
   [EvReadfromMem (addr self) reg (Some (rg reg))]).
Proof.
  intros H. rewrite H. unfold device. cbn. rewrite Z.eqb_refl. reflexivity.
Qed.

(** X11. Decoding a threshold or max-value register and encoding the result
    again gives back the register byte, for each of the 256 byte values and
    in either float width: on a register bank, passing the result of a
    temperature reader to a temperature threshold setter, or of a humidity
    reader to a humidity threshold setter, writes exactly the byte that was
    read, so a threshold written back to its own register is unchanged and a
    max-value latch can be copied into a threshold without loss. *)
Theorem X11_reader_then_setter_copies_the_byte
    (fi : PyFloat.float_impl) (self : HDC2080) (rg : Z -> byte) (ck : Z) :
  let copies (reader : prog PyFloat.float) (setter : PyFloat.float -> prog unit)
        (src dst : Z) : Prop :=
    run mock_platform (t <- reader ;; setter t) (device self rg ck) =
    (Ok tt, device self (poke rg dst (rg src)) ck,
     [EvReadfromMem (addr self) src (Some (rg src));
      EvWritetoMem (addr self) dst (rg src) true]) in
  copies (read_low_temp_threshold fi self) (set_low_temp fi self)
    TEMP_THR_L TEMP_THR_L /\
  copies (read_high_temp_threshold fi self) (set_high_temp fi self)
    TEMP_THR_H TEMP_THR_H /\
  copies (read_low_humidity_threshold fi self) (set_low_humidity fi self)
    HUMID_THR_L HUMID_THR_L /\
  copies (read_high_humidity_threshold fi self) (set_high_humidity fi self)
    HUMID_THR_H HUMID_THR_H /\
  copies (read_max_temp fi self) (set_high_temp fi self) TEMP_MAX TEMP_THR_H /\
  copies (read_max_humidity fi self) (set_high_humidity fi self)
    HUMID_MAX HUMID_THR_H /\
  copies (read_low_temp_threshold fi self) (set_high_temp fi self)
    TEMP_THR_L TEMP_THR_H.
Proof.
  cbv zeta.
  assert (T : forall src dst reader (setter : PyFloat.float -> prog unit),
             reads_and_converts mock_platform self src (temp_of_code fi) reader ->
             (forall x n, PyFloat.to_int (temp_threshold_arg fi x) = Ok n ->
                          setter x = WritetoMem (addr self) dst (low_byte n) (Ret tt)) ->
             run mock_platform (t <- reader ;; setter t) (device self rg ck) =
             (Ok tt, device self (poke rg dst (rg src)) ck,
              [EvReadfromMem (addr self) src (Some (rg src));
               EvWritetoMem (addr self) dst (rg src) true])).
  { intros src dst reader setter Hr Hs.
    destruct (byte_code_facts fi (rg src)) as (_ & _ & _ & Rt & _).
    rewrite run_bind, (run_reader_device self src _ reader rg ck Hr).
    rewrite (Hs _ _ Rt), low_byte_of_byte, run_write_device. reflexivity. }
  assert (H : forall src dst (g : Z -> PyFloat.float) reader
                     (setter : PyFloat.float -> prog unit),
             reads_and_converts mock_platform self src g reader ->
             (forall v, g v = humidity_of_code fi v \/
                        g v = max_humidity_of_code fi v) ->
             (forall x n, PyFloat.to_int (humidity_threshold_arg fi x) = Ok n ->
                          setter x = WritetoMem (addr self) dst (low_byte n) (Ret tt)) ->
             run mock_platform (t <- reader ;; setter t) (device self rg ck) =
             (Ok tt, device self (poke rg dst (rg src)) ck,
              [EvReadfromMem (addr self) src (Some (rg src));
               EvWritetoMem (addr self) dst (rg src) true])).
  { intros src dst g reader setter Hr Hg Hs.
    destruct (byte_code_facts fi (rg src)) as (_ & _ & M & _ & Rh).
    rewrite run_bind, (run_reader_device self src _ reader rg ck Hr).
    assert (G : g (int_from_byte (rg src))
                = humidity_of_code fi (int_from_byte (rg src)))
      by (destruct (Hg (int_from_byte (rg src))) as [->| ->]; [reflexivity|exact M]).
    rewrite G, (Hs _ _ Rh), low_byte_of_byte, run_write_device. reflexivity. }
  assert (Slt : forall x n, PyFloat.to_int (temp_threshold_arg fi x) = Ok n ->
                 set_low_temp fi self x
                 = WritetoMem (addr self) TEMP_THR_L (low_byte n) (Ret tt))
    by (intros x n E; destruct (threshold_setter_trees fi self x) as (-> & _);
        now rewrite E).
  assert (Sht : forall x n, PyFloat.to_int (temp_threshold_arg fi x) = Ok n ->
                 set_high_temp fi self x
                 = WritetoMem (addr self) TEMP_THR_H (low_byte n) (Ret tt))
    by (intros x n E; destruct (threshold_setter_trees fi self x) as (_ & -> & _);
        now rewrite E).
  assert (Slh : forall x n, PyFloat.to_int (humidity_threshold_arg fi x) = Ok n ->
                 set_low_humidity fi self x
                 = WritetoMem (addr self) HUMID_THR_L (low_byte n) (Ret tt))
    by (intros x n E; destruct (threshold_setter_trees fi self x) as (_ & _ & -> & _);
        now rewrite E).
  assert (Shh : forall x n, PyFloat.to_int (humidity_threshold_arg fi x) = Ok n ->
                 set_high_humidity fi self x
                 = WritetoMem (addr self) HUMID_THR_H (low_byte n) (Ret tt))
    by (intros x n E; destruct (threshold_setter_trees fi self x) as (_ & _ & _ & ->);
        now rewrite E).
  repeat split.
  - apply (T TEMP_THR_L TEMP_THR_L); [apply reader_intro | exact Slt].
  - apply (T TEMP_THR_H TEMP_THR_H); [apply reader_intro | exact Sht].
  - apply (H HUMID_THR_L HUMID_THR_L (humidity_of_code fi));
      [apply reader_intro | auto | exact Slh].
  - apply (H HUMID_THR_H HUMID_THR_H (humidity_of_code fi));
      [apply reader_intro | auto | exact Shh].
  - apply (T TEMP_MAX TEMP_THR_H); [apply reader_intro | exact Sht].
  - apply (H HUMID_MAX HUMID_THR_H (max_humidity_of_code fi));
      [apply reader_intro | auto | exact Shh].
  - apply (T TEMP_THR_L TEMP_THR_H); [apply reader_intro | exact Sht].
Qed.

Lemma whole_values_checked (fi : PyFloat.float_impl) :
  all_below 165 (whole_degree_checks fi) = true /\
  all_below 100 (whole_percent_checks fi) = true.
Proof. destruct fi; vm_compute; split; reflexivity. Qed.

Lemma step_bounds_sound (q a step : Q) :
  Qle_bool q a && negb (Qle_bool q (a - step)) = true ->
  (a - step < q)%Q /\ (q <= a)%Q.
Proof.
  intros H. apply andb_true_iff in H. destruct H as [H1 H2].
  apply Qle_bool_iff in H1. split; [|exact H1].
  apply Qnot_le_lt. intros L. apply Qle_bool_iff in L.
  rewrite L in H2. discriminate.
Qed.

(** X12. Round trip of whole values through the threshold registers, in
    either float width and from any register contents: for every whole
    number of degrees [t] from -40 to 124, [set_low_temp(float(t))] followed
    by [read_low_temp_threshold()] returns a value that is at most [t] and
    more than [t - 165/256]; for every whole number of percent [h] from 0 to
    99, [set_high_humidity(float(h))] followed by
    [read_high_humidity_threshold()] returns a value that is at most [h] and
    more than [h - 100/256].  The stored threshold is never above the one
    asked for and less than one quantization step below it. *)
Theorem X12_whole_value_round_trip_within_one_step
    (fi : PyFloat.float_impl) (self : HDC2080) (rg : Z -> byte) (ck : Z)
    (t h : Z) :
  -40 <= t <= 124 ->
  0 <= h <= 99 ->
  (exists (back : PyFloat.float) (q : Q),
      outcome (run mock_platform
                 (set_low_temp fi self (PyFloat.of_int fi t) ;;
                  read_low_temp_threshold fi self)
                 (device self rg ck)) = Ok back /\
      PyFloat.to_Q back = Some q /\
      (inject_Z t - (165 # 256) < q)%Q /\ (q <= inject_Z t)%Q) /\
  (exists (back : PyFloat.float) (q : Q),
      outcome (run mock_platform
                 (set_high_humidity fi self (PyFloat.of_int fi h) ;;
                  read_high_humidity_threshold fi self)
                 (device self rg ck)) = Ok back /\
      PyFloat.to_Q back = Some q /\
      (inject_Z h - (100 # 256) < q)%Q /\ (q <= inject_Z h)%Q).
Proof.
  intros Ht Hh. destruct (whole_values_checked fi) as [Ct Ch]. split.
  - pose proof (all_below_spec 165 _ Ct (t + 40) ltac:(lia)) as C.
    unfold whole_degree_checks in C.
    replace (t + 40 - 40) with t in C by lia.
    destruct (PyFloat.to_int (temp_threshold_arg fi (PyFloat.of_int fi t)))
      as [k|e] eqn:E; [|discriminate].
    apply andb_true_iff in C. destruct C as [C Cq].
    apply andb_true_iff in C. destruct C as [K0 K1].
    apply Z.leb_le in K0. apply Z.ltb_lt in K1.
    destruct (PyFloat.to_Q (temp_of_code fi k)) as [q|] eqn:Q; [|discriminate].
    apply step_bounds_sound in Cq.
    exists (temp_of_code fi k), q.
    destruct (threshold_setter_trees fi self (PyFloat.of_int fi t)) as (-> & _).
    rewrite E, run_bind, run_write_device.
    rewrite (run_reader_device self TEMP_THR_L (temp_of_code fi) _ _ ck
               (reader_intro _ _ _ _)).
    rewrite poke_same, low_byte_value, land_255_small by lia.
    unfold outcome. cbn [fst]. repeat split; tauto.
  - pose proof (all_below_spec 100 _ Ch h ltac:(lia)) as C.
    unfold whole_percent_checks in C.
    destruct (PyFloat.to_int (humidity_threshold_arg fi (PyFloat.of_int fi h)))
      as [k|e] eqn:E; [|discriminate].
    apply andb_true_iff in C. destruct C as [C Cq].
    apply andb_true_iff in C. destruct C as [K0 K1].
    apply Z.leb_le in K0. apply Z.ltb_lt in K1.
    destruct (PyFloat.to_Q (humidity_of_code fi k)) as [q|] eqn:Q; [|discriminate].
    apply step_bounds_sound in Cq.
    exists (humidity_of_code fi k), q.
    destruct (threshold_setter_trees fi self (PyFloat.of_int fi h))
      as (_ & _ & _ & ->).
    rewrite E, run_bind, run_write_device.
    rewrite (run_reader_device self HUMID_THR_H (humidity_of_code fi) _ _ ck
               (reader_intro _ _ _ _)).
    rewrite poke_same, low_byte_value, land_255_small by lia.
    unfold outcome. cbn [fst]. repeat split; tauto.
Qed.

(** X12 at 21 degrees and 45 percent. *)
Lemma X12_witness_21_degrees_45_percent :
  (-40 <= 21 <= 124 /\ 0 <= 45 <= 99) /\
  exists (back : PyFloat.float) (q : Q),
    outcome (run mock_platform
               (set_low_temp PyFloat.FLOAT_IMPL_FLOAT (init 0x40)
                  (PyFloat.of_int PyFloat.FLOAT_IMPL_FLOAT 21) ;;
                read_low_temp_threshold PyFloat.FLOAT_IMPL_FLOAT (init 0x40))
               (device (init 0x40) (fun _ => x00) 0)) = Ok back /\
    PyFloat.to_Q back = Some q /\
    (inject_Z 21 - (165 # 256) < q)%Q /\ (q <= inject_Z 21)%Q.
Proof.
  assert (H1 : -40 <= 21 <= 124) by lia.
  assert (H2 : 0 <= 45 <= 99) by lia.
  split; [split; assumption|].
  exact (proj1 (X12_whole_value_round_trip_within_one_step
                  PyFloat.FLOAT_IMPL_FLOAT (init 0x40) (fun _ => x00) 0
                  21 45 H1 H2)).
Defined.

(** X13. The lower boundary and the one input that raises, in either float
    width.  For every temperature input [t <= -40.0] (negative infinity
    included) [set_low_temp] and [set_high_temp] are exactly the write of
    byte 0x00 to their register, and for every humidity input [rh <= 0.0]
    (negative zero included) so are the humidity setters; together with the
    wrap at the upper boundary, the lowest and the highest threshold are
    stored as the same byte.  For NaN both comparisons of the clamp are
    false, [int()] raises [ValueError], and the four setters raise it
    without any bus transaction. *)
Theorem X13_lower_boundary_and_nan
    (fi : PyFloat.float_impl) (self : HDC2080) (t rh : PyFloat.float) :
  PyFloat.leb t (PyFloat.neg (PyFloat.lit fi 40 0)) = true ->
  PyFloat.leb rh (PyFloat.lit fi 0 0) = true ->
  (set_low_temp fi self t = WritetoMem (addr self) TEMP_THR_L x00 (Ret tt) /\
   set_high_temp fi self t = WritetoMem (addr self) TEMP_THR_H x00 (Ret tt) /\
   set_low_humidity fi self rh = WritetoMem (addr self) HUMID_THR_L x00 (Ret tt) /\
   set_high_humidity fi self rh
   = WritetoMem (addr self) HUMID_THR_H x00 (Ret tt)) /\
  (set_low_temp fi self S754_nan = Raise ValueError /\
   set_high_temp fi self S754_nan = Raise ValueError /\
   set_low_humidity fi self S754_nan = Raise ValueError /\
   set_high_humidity fi self S754_nan = Raise ValueError) /\
  (forall (S : Type) (P : platform S) (s : S),
      run P (set_low_temp fi self S754_nan) s = (Err ValueError, s, [])).
Proof.
  intros Ht Hrh.
  destruct (literal_shapes fi) as ((m40 & e40 & L40) & (m125 & e125 & L125) & L0
                                    & (m100 & e100 & L100)).
  assert (At : PyFloat.to_int (temp_threshold_arg fi t) = Ok 0).
  { unfold temp_threshold_arg, PyFloat.leb in *.
    replace (clamp (PyFloat.neg (PyFloat.lit fi 40 0)) (PyFloat.lit fi 125 0) t)
      with (PyFloat.neg (PyFloat.lit fi 40 0))
      by (rewrite L40, L125 in *; symmetry; now apply clamp_at_or_below).
    destruct fi; reflexivity. }
  assert (Ah : PyFloat.to_int (humidity_threshold_arg fi rh) = Ok 0).
  { unfold humidity_threshold_arg, PyFloat.leb, SFleb in *. rewrite L0 in Hrh.
    destruct rh as [sx|[|]| |[|] mx ex]; cbn in Hrh; try discriminate.
    - destruct fi, sx; reflexivity.
    - destruct fi; reflexivity.
    - replace (clamp (PyFloat.lit fi 0 0) (PyFloat.lit fi 100 0)
                 (S754_finite true mx ex))
        with (PyFloat.lit fi 0 0)
        by (rewrite L0; reflexivity).
      destruct fi; reflexivity. }
  destruct (threshold_setter_trees fi self t) as (T1 & T2 & _).
  destruct (threshold_setter_trees fi self rh) as (_ & _ & T3 & T4).
  destruct (threshold_setter_trees fi self S754_nan) as (N1 & N2 & N3 & N4).
  assert (Nt : PyFloat.to_int (temp_threshold_arg fi S754_nan) = Err ValueError)
    by (destruct fi; reflexivity).
  assert (Nh : PyFloat.to_int (humidity_threshold_arg fi S754_nan) = Err ValueError)
    by (destruct fi; reflexivity).
  rewrite At in T1, T2. rewrite Ah in T3, T4.
  rewrite Nt in N1, N2. rewrite Nh in N3, N4.
  split; [repeat split; assumption|]. split; [repeat split; assumption|].
  intros S P s. rewrite N1. reflexivity.
Qed.

(** X13 at -40.0 itself, at negative infinity and at negative zero. *)
Lemma X13_witness_boundary_inputs :
  let fi := PyFloat.FLOAT_IMPL_DOUBLE in
  let self := init 0x40 in
  (PyFloat.leb (PyFloat.neg (PyFloat.lit fi 40 0))
     (PyFloat.neg (PyFloat.lit fi 40 0)) = true /\
   PyFloat.leb (S754_infinity true) (PyFloat.neg (PyFloat.lit fi 40 0)) = true /\
   PyFloat.leb (S754_zero true) (PyFloat.lit fi 0 0) = true) /\
  set_low_temp fi self (PyFloat.neg (PyFloat.lit fi 40 0))
    = WritetoMem 0x40 TEMP_THR_L x00 (Ret tt) /\
  set_high_temp fi self (S754_infinity true)
    = WritetoMem 0x40 TEMP_THR_H x00 (Ret tt) /\
  set_low_humidity fi self (S754_zero true)
    = WritetoMem 0x40 HUMID_THR_L x00 (Ret tt).
Proof.
  intros fi self.
  assert (H1 : PyFloat.leb (PyFloat.neg (PyFloat.lit fi 40 0))
                 (PyFloat.neg (PyFloat.lit fi 40 0)) = true) by reflexivity.
  assert (H2 : PyFloat.leb (S754_infinity true)
                 (PyFloat.neg (PyFloat.lit fi 40 0)) = true) by reflexivity.
  assert (H3 : PyFloat.leb (S754_zero true) (PyFloat.lit fi 0 0) = true)
    by reflexivity.
  split; [repeat split; assumption|].
  pose proof (X13_lower_boundary_and_nan fi self
                (PyFloat.neg (PyFloat.lit fi 40 0)) (S754_zero true) H1 H3) as Ha.
  pose proof (X13_lower_boundary_and_nan fi self
                (S754_infinity true) (S754_zero true) H2 H3) as Hb.
  destruct Ha as ((A1 & _ & A3 & _) & _).
  destruct Hb as ((_ & B2 & _) & _).
  repeat split; assumption.
Defined.

(** ** Max-value latches *)

(** X14. [clear_max_temp] and [clear_max_humidity] write 0x00 to registers
    0x05 and 0x06 without reading anything, on every platform.  On a
    register bank, in either float width, [read_max_temp] after
    [clear_max_temp] returns -40.0 and [read_max_humidity] after
    [clear_max_humidity] returns 0.0, the bottom of each range, and no other
    register has changed. *)
Theorem X14_cleared_latches_read_bottom_of_range
    (fi : PyFloat.float_impl) (self : HDC2080) :
  clear_max_temp self = WritetoMem (addr self) TEMP_MAX x00 (Ret tt) /\
  clear_max_humidity self = WritetoMem (addr self) HUMID_MAX x00 (Ret tt) /\
  forall (rg : Z -> byte) (ck : Z),
    let rt := run mock_platform (clear_max_temp self ;; read_max_temp fi self)
                (device self rg ck) in
    let rh := run mock_platform
                (clear_max_humidity self ;; read_max_humidity fi self)
                (device self rg ck) in
    (exists back, outcome rt = Ok back /\ PyFloat.has_value back (- (40 # 1))) /\
    (exists back, outcome rh = Ok back /\ PyFloat.has_value back (0 # 1)) /\
    (forall m, m <> TEMP_MAX -> regs (final rt) m = rg m) /\
    (forall m, m <> HUMID_MAX -> regs (final rh) m = rg m).
Proof.
  assert (Ct : clear_max_temp self = WritetoMem (addr self) TEMP_MAX x00 (Ret tt))
    by (unfold clear_max_temp; now rewrite write_reg_tree).
  assert (Ch : clear_max_humidity self
               = WritetoMem (addr self) HUMID_MAX x00 (Ret tt))
    by (unfold clear_max_humidity; now rewrite write_reg_tree).
  split; [exact Ct|]. split; [exact Ch|].
  intros rg ck. cbv zeta.
  rewrite !run_bind, Ct, Ch, !run_write_device.
  rewrite (run_reader_device self TEMP_MAX (temp_of_code fi) _ _ ck
             (reader_intro _ _ _ _)).
  rewrite (run_reader_device self HUMID_MAX (max_humidity_of_code fi) _ _ ck
             (reader_intro _ _ _ _)).
  rewrite !poke_same. unfold outcome, final, device. cbn [fst snd regs].
  split; [|split; [|split]].
  - eexists. split; [reflexivity|]. destruct fi; vm_compute; eauto.
  - eexists. split; [reflexivity|]. destruct fi; vm_compute; eauto.
  - intros m Hm. now rewrite poke_other.
  - intros m Hm. now rewrite poke_other.
Qed.
